(** * Invoice reconciliation and composite risk scoring

    A shallow embedding of the scoring code of the ML service
    ([ml-service/invoice_ml.py], class [InvoiceMLService], and
    [ml-service/fraud_detection.py], class [FraudDetectionService]) and
    the properties of it that the design document states.

    Conventions of the embedding.
    - Python numbers are exact rationals ([Q]); [==] on numbers is [Qeq].
      No rounding is modelled.
    - Python [str] values are [string]s whose characters are the code
      points 0..255.
    - A dictionary read with [d.get(k)] is a record field of type
      [option]; [d.get(k, default)] is [Py.get] on that field.
    - A naive [datetime] is the number of microseconds since the epoch, and
      every call of [datetime.now()] is a read of a clock that the
      operations receive explicitly. *)

From Stdlib Require Import ZArith QArith Qround Qabs Qminmax.
From Stdlib Require Import List String Ascii Bool Lia Lqa.
From stdpp Require Import gmap strings.
Import ListNotations.

(** ** Python primitives *)

Module Py.

Local Open Scope Q_scope.

(** [d.get(k, default)] *)
Definition get {A : Type} (field : option A) (default : A) : A :=
  match field with
  | Some v => v
  | None => default
  end.

(** Truth value of a string, of a number and of an optional value. *)
Definition truthy_str (s : string) : bool := negb (String.eqb s "").
Definition truthy_num (x : Q) : bool := negb (Qeq_bool x 0).
Definition truthy {A : Type} (t : A -> bool) (o : option A) : bool :=
  match o with
  | Some v => t v
  | None => false
  end.

(** [a or b] *)
Definition or_ {A : Type} (t : A -> bool) (a b : option A) : option A :=
  if truthy t a then a else b.

(** [x < y] on numbers *)
Definition ltb (x y : Q) : bool := negb (Qle_bool y x).
Definition leb (x y : Q) : bool := Qle_bool x y.

(** [min(a, b)] and [max(a, b)]: the first argument wins a tie. *)
Definition min (a b : Q) : Q := if ltb b a then b else a.
Definition max (a b : Q) : Q := if ltb a b then b else a.

(** [x % m] for a positive modulus [m] *)
Definition mod_ (x m : Q) : Q := x - m * inject_Z (Qfloor (x / m)).

(** [sum(l)] and [len(l)] as a number *)
Definition sum (l : list Q) : Q := fold_left Qplus l 0.
Definition len {A : Type} (l : list A) : Q := inject_Z (Z.of_nat (length l)).

(** Equality of optional values, [a == b] where either may be [None]. *)
Definition opt_eqb {A : Type} (eqb : A -> A -> bool) (a b : option A) : bool :=
  match a, b with
  | Some x, Some y => eqb x y
  | None, None => true
  | _, _ => false
  end.

(** *** Strings *)

Definition code (c : ascii) : N := N_of_ascii c.

(** [str.isspace] on one character of the range 0..255 *)
Definition isspace (c : ascii) : bool :=
  let n := code c in
  ((9 <=? n) && (n <=? 13) || (28 <=? n) && (n <=? 32)
   || (n =? 133) || (n =? 160))%N.

(** [str.lower] on one character of the range 0..255 *)
Definition lower_char (c : ascii) : ascii :=
  let n := code c in
  if ((65 <=? n) && (n <=? 90)
      || (192 <=? n) && (n <=? 222) && negb (n =? 215))%N
  then ascii_of_N (n + 32) else c.

Fixpoint lower (s : string) : string :=
  match s with
  | EmptyString => EmptyString
  | String c s' => String (lower_char c) (lower s')
  end.

Fixpoint lstrip (s : string) : string :=
  match s with
  | EmptyString => EmptyString
  | String c s' => if isspace c then lstrip s' else s
  end.

(** Drops the white space at the end: a character is kept when it is not
    white space or something is kept after it. *)
Fixpoint rstrip (s : string) : string :=
  match s with
  | EmptyString => EmptyString
  | String c s' =>
      match rstrip s' with
      | EmptyString => if isspace c then EmptyString else String c EmptyString
      | r => String c r
      end
  end.

Definition strip (s : string) : string := rstrip (lstrip s).

(** [s.split()]: the maximal runs of characters that are not white
    space.  [cur] is the run being read, in reverse. *)
Fixpoint split_go (cur : list ascii) (s : string) : list string :=
  let flush := match cur with
               | [] => []
               | _ => [string_of_list_ascii (rev cur)]
               end in
  match s with
  | EmptyString => flush
  | String c s' =>
      if isspace c then flush ++ split_go [] s' else split_go (c :: cur) s'
  end.

Definition split (s : string) : list string := split_go [] s.

(** [needle in haystack] *)
Fixpoint contains (needle haystack : string) : bool :=
  String.prefix needle haystack
  || match haystack with
     | EmptyString => false
     | String _ h' => contains needle h'
     end.

(** [set(l)], a test for the empty set, and [len(s)] as a number *)
Definition set_ (l : list string) : gset string := list_to_set l.
Definition nonempty (s : gset string) : bool := negb (Nat.eqb (size s) 0).
Definition card (s : gset string) : Q := inject_Z (Z.of_nat (size s)).

(** *** Dates and the clock *)

Definition datetime := Z.
Definition day_us : Z := 86400000000.
Definition hour_us : Z := 3600000000.

(** [(a - b).days]: whole days, rounded towards minus infinity *)
Definition days_between (a b : datetime) : Z := ((a - b) / day_us)%Z.
(** [d.hour] *)
Definition hour (d : datetime) : Z := ((d / hour_us) mod 24)%Z.
(** [d.weekday()], Monday is 0; the epoch was a Thursday. *)
Definition weekday (d : datetime) : Z := ((d / day_us + 3) mod 7)%Z.

(** The clock: its [k]-th reading during one invocation.  A computation
    that reads the clock threads the number of readings made so far. *)
Definition Clock := nat -> datetime.
Definition IO (A : Type) : Type := Clock -> nat -> A * nat.

Definition ret {A : Type} (a : A) : IO A := fun _ k => (a, k).
Definition bind {A B : Type} (m : IO A) (f : A -> IO B) : IO B :=
  fun clk k => let (a, k') := m clk k in f a clk k'.
(** [datetime.now()] *)
Definition now : IO datetime := fun clk k => (clk k, S k).
Definition run {A : Type} (m : IO A) (clk : Clock) : A := fst (m clk 0%nat).

End Py.

Notation "x <- m ;; f" := (Py.bind m (fun x => f))
  (at level 100, m at next level, right associativity).

(** ** [invoice_ml.py]: three-way matching and duplicate detection *)

Module InvoiceML.

Local Open Scope string_scope.
Local Open Scope list_scope.
Local Open Scope Q_scope.

(** [self.fraud_indicators['duplicate_threshold']] *)
Definition duplicate_threshold : Q := 0.95.

(** A line of an invoice, a purchase order or a goods receipt note. *)
Record LineItem := mkLineItem {
  description : option string;
  quantity : option Q;
  unit_price : option Q
}.

(** The invoice, purchase order and goods receipt dictionaries, with the
    keys that the matcher and the duplicate detector read. *)
Record Doc := mkDoc {
  _id : option string;
  po_number : option string;
  vendor_name : option string;
  invoice_number : option string;
  total_amount : option Q;
  invoice_date : option string;
  line_items : list LineItem
}.

Record Match := mkMatch {
  matched : bool;
  confidence : Q
}.

Definition _match_po_number (invoice_data po_data : Doc) : Match :=
  let inv_po := Py.strip (Py.get (po_number invoice_data) "") in
  let po_num := Py.strip (Py.get (po_number po_data) "") in
  let matched := String.eqb inv_po po_num in
  {| matched := matched; confidence := if matched then 1 else 0 |}.

Definition _match_vendor (invoice_data po_data : Doc) : Match :=
  let inv_vendor := Py.strip (Py.lower (Py.get (vendor_name invoice_data) "")) in
  let po_vendor := Py.strip (Py.lower (Py.get (vendor_name po_data) "")) in
  if String.eqb inv_vendor po_vendor then
    {| matched := true; confidence := 1 |}
  else
    let inv_tokens := Py.set_ (Py.split inv_vendor) in
    let po_tokens := Py.set_ (Py.split po_vendor) in
    if Py.nonempty inv_tokens && Py.nonempty po_tokens then
      let similarity :=
        Py.card (inv_tokens ∩ po_tokens) / Py.card (inv_tokens ∪ po_tokens) in
      {| matched := Py.ltb 0.6 similarity; confidence := similarity |}
    else
      {| matched := false; confidence := 0 |}.

Definition _descriptions_match (desc1 desc2 : option string) : bool :=
  if negb (Py.truthy Py.truthy_str desc1) || negb (Py.truthy Py.truthy_str desc2)
  then false
  else
    let d1 := Py.strip (Py.lower (Py.get desc1 "")) in
    let d2 := Py.strip (Py.lower (Py.get desc2 "")) in
    if String.eqb d1 d2 then true
    else
      let tokens1 := Py.set_ (Py.split d1) in
      let tokens2 := Py.set_ (Py.split d2) in
      if Py.nonempty tokens1 && Py.nonempty tokens2 then
        let similarity :=
          Py.card (tokens1 ∩ tokens2) / Py.card (tokens1 ∪ tokens2) in
        Py.ltb 0.6 similarity
      else false.

(** One entry of the list that [_match_line_items] returns. *)
Record LineMatch := mkLineMatch {
  lm_description : option string;
  lm_match_score : Q;
  invoice_qty : Q;
  invoice_price : Q;
  po_qty : Q;
  po_price : Q;
  grn_qty : Q;
  price_variance : Q;
  quantity_variance : Q
}.

(** The body of the loop over the invoice lines.  The inner loops stop at
    the first line whose description matches ([break]): that is [find].
    The goods receipt is only searched once a purchase order line was
    found. *)
Definition match_line (po_lines grn_lines : list LineItem)
    (inv_line : LineItem) : LineMatch :=
  let inv_qty := Py.get (quantity inv_line) 0 in
  let inv_price := Py.get (unit_price inv_line) 0 in
  let same_description (l : LineItem) :=
    _descriptions_match (description inv_line) (description l) in
  let '(po_q, po_p, grn_q, price_var, qty_var) :=
    match find same_description po_lines with
    | None => (0, 0, 0, 0, 0)
    | Some po_line =>
        let po_q := Py.get (quantity po_line) 0 in
        let po_p := Py.get (unit_price po_line) 0 in
        let price_var :=
          if Py.ltb 0 po_p then Qabs (inv_price - po_p) / po_p else 0 in
        match find same_description grn_lines with
        | None => (po_q, po_p, 0, price_var, 0)
        | Some grn_line =>
            let grn_q := Py.get (quantity grn_line) 0 in
            let qty_var :=
              if Py.ltb 0 grn_q then Qabs (inv_qty - grn_q) / grn_q else 0 in
            (po_q, po_p, grn_q, price_var, qty_var)
        end
    end in
  let score := 100 in
  let score :=
    if Py.ltb 0 price_var then score - Py.min (price_var * 100) 30 else score in
  let score :=
    if Py.ltb 0 qty_var then score - Py.min (qty_var * 100) 30 else score in
  {| lm_description := description inv_line;
     lm_match_score := Py.max score 0;
     invoice_qty := inv_qty;
     invoice_price := inv_price;
     po_qty := po_q;
     po_price := po_p;
     grn_qty := grn_q;
     price_variance := price_var;
     quantity_variance := qty_var |}.

Definition _match_line_items (inv_lines po_lines grn_lines : list LineItem)
    (tolerance : Q) : list LineMatch :=
  map (match_line po_lines grn_lines) inv_lines.

Inductive Severity := high | medium.

Inductive Discrepancy :=
| po_number_mismatch (invoice_value po_value : option string)
| vendor_mismatch (invoice_value po_value : option string)
| price_variance_found (line_item : option string)
    (variance_pct inv_price po_price : Q)
| quantity_variance_found (line_item : option string)
    (variance_pct inv_qty grn_qty : Q).

Definition severity (d : Discrepancy) : Severity :=
  match d with
  | po_number_mismatch _ _ | vendor_mismatch _ _ => high
  | price_variance_found _ _ _ _ | quantity_variance_found _ _ _ _ => medium
  end.

Inductive Status := status_matched | status_exception.

(** The result of [perform_three_way_match]; the entry [grn_match], which
    the code leaves empty, is not represented. *)
Record MatchResult := mkMatchResult {
  match_type : string;
  overall_match : bool;
  match_score : Q;
  discrepancies : list Discrepancy;
  po_match : Match;
  line_matches : list LineMatch;
  status : Status;
  processed_at : Py.datetime
}.

(** The discrepancies that one line contributes, price first. *)
Definition line_discrepancies (tolerance : Q) (lm : LineMatch)
    : list Discrepancy :=
  (if Py.ltb tolerance (price_variance lm)
   then [price_variance_found (lm_description lm) (price_variance lm)
           (invoice_price lm) (po_price lm)]
   else [])
  ++
  (if Py.ltb tolerance (quantity_variance lm)
   then [quantity_variance_found (lm_description lm) (quantity_variance lm)
           (invoice_qty lm) (grn_qty lm)]
   else []).

(** The mean of the line scores, [0] when there is no line. *)
Definition line_score (lms : list LineMatch) : Q :=
  match lms with
  | [] => 0
  | _ => Py.sum (map lm_match_score lms) / Py.len lms
  end.

(** The [try] block of [perform_three_way_match] on documents whose order
    number and vendor name are texts or absent keys, on which nothing
    raises.  [MatchRequest.perform_three_way_match] is the function on a
    request with values of any type, with its [except] branch. *)
Definition perform_three_way_match (invoice_data po_data grn_data : Doc)
    (tolerance : Q) : Py.IO MatchResult :=
  let overall := true in
  let score := 100 in
  let discs : list Discrepancy := [] in
  (* Match PO number *)
  let po_m := _match_po_number invoice_data po_data in
  let '(overall, score, discs) :=
    if negb (matched po_m)
    then (false, score - 20,
          discs ++ [po_number_mismatch (po_number invoice_data)
                      (po_number po_data)])
    else (overall, score, discs) in
  (* Match vendor *)
  let vendor_m := _match_vendor invoice_data po_data in
  let '(overall, score, discs) :=
    if negb (matched vendor_m)
    then (false, score - 15,
          discs ++ [vendor_mismatch (vendor_name invoice_data)
                      (vendor_name po_data)])
    else (overall, score, discs) in
  (* Match line items *)
  let lms := _match_line_items (line_items invoice_data) (line_items po_data)
               (line_items grn_data) tolerance in
  let score := score * 0.3 + line_score lms * 0.7 in
  (* Check for quantity/price variances *)
  let discs := discs ++ flat_map (line_discrepancies tolerance) lms in
  (* Final match determination *)
  let overall := if Py.ltb score 90 then false else overall in
  t <- Py.now ;;
  Py.ret {| match_type := "3-way";
            overall_match := overall;
            match_score := score;
            discrepancies := discs;
            po_match := po_m;
            line_matches := lms;
            status := if overall then status_matched else status_exception;
            processed_at := t |}.

(** *** Duplicate detection *)

(** The dictionary that is serialised and hashed. *)
Record Canonical := mkCanonical {
  c_invoice_number : string;
  c_vendor_name : string;
  c_total_amount : Q;
  c_invoice_date : string
}.

Inductive MatchType := exact_hash | field_based.

Record Candidate := mkCandidate {
  cand_invoice_id : option string;
  cand_match_type : MatchType;
  cand_confidence : Q;
  matched_fields : list string
}.

Inductive Recommendation := reject | approve.

Record DuplicateVerdict := mkDuplicateVerdict {
  is_duplicate : bool;
  duplicate_count : nat;
  duplicates : list Candidate;
  recommendation : Recommendation;
  checked_at : Py.datetime
}.

(** The placeholder of the source: it answers [True] for all dates. *)
Definition _dates_close (date1 date2 : option string) (days : Z) : bool :=
  true.

Section Hashing.

(** [json.dumps(_, sort_keys=True)] on the canonical dictionary, and
    [hashlib.sha256(_.encode()).hexdigest()]: library functions. *)
Variable json_dumps : Canonical -> string.
Variable sha256_hexdigest : string -> string.

Definition _calculate_invoice_hash (invoice_data : Doc) : string :=
  let canonical :=
    {| c_invoice_number := Py.get (invoice_number invoice_data) "";
       c_vendor_name := Py.get (vendor_name invoice_data) "";
       c_total_amount := Py.get (total_amount invoice_data) 0;
       c_invoice_date := Py.get (invoice_date invoice_data) "" |} in
  let canonical_str := json_dumps canonical in
  sha256_hexdigest canonical_str.

(** The field-based score of one historical invoice and the names of
    the fields that matched. *)
Definition field_score (invoice_data hist_inv : Doc) : Q * list string :=
  let match_score := 0 in
  let fields : list string := [] in
  let '(match_score, fields) :=
    if Py.opt_eqb String.eqb (invoice_number invoice_data)
         (invoice_number hist_inv)
    then (match_score + 40, fields ++ ["invoice_number"])
    else (match_score, fields) in
  if Py.opt_eqb String.eqb (vendor_name invoice_data) (vendor_name hist_inv)
  then
    let '(match_score, fields) := (match_score + 20, fields ++ ["vendor"]) in
    if Py.opt_eqb Qeq_bool (total_amount invoice_data) (total_amount hist_inv)
    then
      let '(match_score, fields) := (match_score + 30, fields ++ ["amount"]) in
      if _dates_close (invoice_date invoice_data) (invoice_date hist_inv) 7
      then (match_score + 10, fields ++ ["date"])
      else (match_score, fields)
    else (match_score, fields)
  else (match_score, fields).

(** The body of the loop over the historical invoices. *)
Definition check_historical (invoice_data : Doc)
    (duplicates : list Candidate) (hist_inv : Doc) : list Candidate :=
  let inv_hash := _calculate_invoice_hash invoice_data in
  let hist_hash := _calculate_invoice_hash hist_inv in
  if String.eqb inv_hash hist_hash then
    duplicates ++ [ {| cand_invoice_id := _id hist_inv;
                       cand_match_type := exact_hash;
                       cand_confidence := 1;
                       matched_fields := ["all"] |} ]
  else
    let '(match_score, fields) := field_score invoice_data hist_inv in
    if Py.leb (duplicate_threshold * 100) match_score then
      duplicates ++ [ {| cand_invoice_id := _id hist_inv;
                         cand_match_type := field_based;
                         cand_confidence := match_score / 100;
                         matched_fields := fields |} ]
    else duplicates.

Definition detect_duplicate (invoice_data : Doc)
    (historical_invoices : list Doc) : Py.IO DuplicateVerdict :=
  let dups := fold_left (check_historical invoice_data) historical_invoices [] in
  let is_dup := Nat.ltb 0 (length dups) in
  t <- Py.now ;;
  Py.ret {| is_duplicate := is_dup;
            duplicate_count := length dups;
            duplicates := dups;
            recommendation := if is_dup then reject else approve;
            checked_at := t |}.

End Hashing.

End InvoiceML.

(** ** [fraud_detection.py]: indicator checks and the composite score *)

Module FraudDetection.

Local Open Scope string_scope.
Local Open Scope list_scope.
Local Open Scope Q_scope.

(** [self.fraud_weights] *)
Record Weights := mkWeights {
  w_duplicate_invoice : Q;
  w_price_anomaly : Q;
  w_rush_payment : Q;
  w_round_amount : Q;
  w_new_vendor : Q;
  w_frequency_anomaly : Q
}.

Definition fraud_weights : Weights :=
  {| w_duplicate_invoice := 0.35;
     w_price_anomaly := 0.25;
     w_rush_payment := 0.15;
     w_round_amount := 0.05;
     w_new_vendor := 0.10;
     w_frequency_anomaly := 0.10 |}.

(** [self.thresholds] *)
Record Thresholds := mkThresholds {
  price_variance_pct : Q;
  duplicate_time_window : Z;
  rush_payment_days : Z;
  round_amount_threshold : Q;
  new_vendor_days : Z;
  frequency_multiplier : Q
}.

Definition thresholds : Thresholds :=
  {| price_variance_pct := 20;
     duplicate_time_window := 7;
     rush_payment_days := 3;
     round_amount_threshold := 1000;
     new_vendor_days := 30;
     frequency_multiplier := 2 |}.

Record Item := mkItem {
  it_description : option string;
  it_amount : option Q;
  it_quantity : option Q;
  it_unit_price : option Q
}.

(** The invoice dictionary.  [created_at] stands for the parsed value of
    [get('created_at') or get('createdAt')], [due_date] for that of
    [get('due_date') or get('dueDate')]. *)
Record Invoice := mkInvoice {
  _id : option string;
  invoice_id : option string;
  invoice_number : option string;
  total_amount : option Q;
  invoice_date : option string;
  vendor : option string;
  vendor_id : option string;
  created_at : option Py.datetime;
  due_date : option Py.datetime;
  items : list Item
}.

(** The vendor dictionary; [v_created_at] as [created_at] above. *)
Record Vendor := mkVendor {
  v_created_at : option Py.datetime
}.

Inductive Risk := risk_none | risk_low | risk_medium | risk_high | risk_critical.

(** [invoice.get('vendor') or invoice.get('vendor_id')] *)
Definition vendor_of (i : Invoice) : option string :=
  Py.or_ Py.truthy_str (vendor i) (vendor_id i).

(** *** [_check_duplicate] *)

Record DuplicateEntry := mkDuplicateEntry {
  de_invoice_id : option string;
  match_reasons : list string
}.

(** [potential_duplicates] is [None] where the dictionary has no such
    key. *)
Record DuplicateCheck := mkDuplicateCheck {
  is_duplicate : bool;
  duplicate_count : nat;
  potential_duplicates : option (list DuplicateEntry);
  dc_confidence : Q;
  dc_risk : Risk
}.

(** The body of the loop over the historical invoices. *)
Definition check_historical (invoice : Invoice)
    (duplicates : list DuplicateEntry) (hist : Invoice) : list DuplicateEntry :=
  let inv_number := Py.get (invoice_number invoice) "" in
  let inv_amount := Py.get (total_amount invoice) 0 in
  let v_id := vendor_of invoice in
  if Py.opt_eqb String.eqb (_id hist) (_id invoice) then duplicates
  else
    let reasons : list string := [] in
    let reasons :=
      if Py.opt_eqb String.eqb (invoice_number hist) (Some inv_number)
         && Py.truthy_str inv_number
      then reasons ++ ["same_invoice_number"] else reasons in
    let hist_amount := Py.get (total_amount hist) 0 in
    let reasons :=
      if Py.truthy_num hist_amount && Py.truthy_num inv_amount
      then
        if Py.ltb (Qabs (hist_amount - inv_amount) / Py.max hist_amount 1) 0.01
        then reasons ++ ["same_amount"] else reasons
      else reasons in
    let reasons :=
      if Py.opt_eqb String.eqb (vendor_of hist) v_id
      then
        match reasons with
        | [] => reasons
        | _ => reasons ++ ["same_vendor"]
        end
      else reasons in
    match reasons with
    | [] => duplicates
    | _ => duplicates ++
             [ {| de_invoice_id := Py.or_ Py.truthy_str (_id hist) (invoice_id hist);
                  match_reasons := reasons |} ]
    end.

(** An empty list stands for both [None] and [[]], which [not historical]
    does not tell apart. *)
Definition _check_duplicate (invoice : Invoice) (historical : list Invoice)
    : DuplicateCheck :=
  match historical with
  | [] => {| is_duplicate := false;
             duplicate_count := 0;
             potential_duplicates := None;
             dc_confidence := 0;
             dc_risk := risk_none |}
  | _ =>
      let dups := fold_left (check_historical invoice) historical [] in
      let is_dup := Nat.ltb 0 (length dups) in
      {| is_duplicate := is_dup;
         duplicate_count := length dups;
         potential_duplicates := Some (firstn 5 dups);
         dc_confidence := if is_dup then 0.85 else 0;
         dc_risk := if is_dup then risk_high else risk_none |}
  end.

(** *** [_analyze_price] *)

Inductive Direction := above | below.

(** Either the early answer with a reason, or the statistics.  The
    source also reports the mean, the deviation, the z-score and the
    percentage rounded for display; the values here are the exact ones. *)
Inductive PriceAnalysis :=
| price_no_data (reason : string)
| price_stats (has_anomaly : bool) (current_amount average_amount
    standard_deviation z_score variance_percent : Q) (direction : Direction)
    (confidence : Q) (risk : Risk).

(** [.get('has_anomaly')], [['confidence']] and [.get('reason')] *)
Definition pa_has_anomaly (p : PriceAnalysis) : bool :=
  match p with
  | price_no_data _ => false
  | price_stats a _ _ _ _ _ _ _ _ => a
  end.

Definition pa_confidence (p : PriceAnalysis) : Q :=
  match p with
  | price_no_data _ => 0
  | price_stats _ _ _ _ _ _ _ c _ => c
  end.

Definition pa_reason (p : PriceAnalysis) : option string :=
  match p with
  | price_no_data r => Some r
  | price_stats _ _ _ _ _ _ _ _ _ => None
  end.

(** [np.mean] of a list that is not empty *)
Definition np_mean (l : list Q) : Q := Py.sum l / Py.len l.

(** The list of the amounts that are present and not zero. *)
Definition amounts_of (vendor_invoices : list Invoice) : list Q :=
  map (fun h => Py.get (total_amount h) 0)
      (List.filter (fun h => Py.truthy Py.truthy_num (total_amount h)) vendor_invoices).

Section Numpy.

(** [np.std], the population standard deviation: a library function,
    not a rational one. *)
Variable np_std : list Q -> Q.

Definition _analyze_price (invoice : Invoice) (historical : list Invoice)
    : PriceAnalysis :=
  match historical with
  | [] => price_no_data "No historical data for comparison"
  | _ =>
      (* Filter to same vendor *)
      let v_id := vendor_of invoice in
      let vendor_invoices :=
        List.filter (fun h => Py.opt_eqb String.eqb (vendor_of h) v_id) historical in
      if Nat.ltb (length vendor_invoices) 3 then
        price_no_data "Insufficient historical data"
      else
        let amounts := amounts_of vendor_invoices in
        match amounts with
        | [] => price_no_data "No amount data available"
        | _ =>
            let avg := np_mean amounts in
            let std := np_std amounts in
            let current := Py.get (total_amount invoice) 0 in
            let z := if Py.ltb 0 std then Qabs (current - avg) / std else 0 in
            let var_pct :=
              if Py.ltb 0 avg then (current - avg) / avg * 100 else 0 in
            let anomaly :=
              Py.ltb 2 z || Py.ltb (price_variance_pct thresholds) (Qabs var_pct) in
            price_stats anomaly current avg std z var_pct
              (if Py.ltb 0 var_pct then above else below)
              (if anomaly then Py.min 0.9 (z * 0.3) else 0)
              (if Py.ltb 3 z then risk_high
               else if anomaly then risk_medium else risk_none)
        end
  end.

End Numpy.

(** *** [_analyze_vendor] *)

Inductive VendorAnalysis :=
| vendor_no_data (reason : string)
| vendor_stats (has_anomaly : bool) (vendor_age_days : Z) (is_new_vendor : bool)
    (confidence : Q) (risk : Risk).

Definition va_is_new_vendor (v : VendorAnalysis) : bool :=
  match v with
  | vendor_no_data _ => false
  | vendor_stats _ _ n _ _ => n
  end.

Definition va_confidence (v : VendorAnalysis) : Q :=
  match v with
  | vendor_no_data _ => 0
  | vendor_stats _ _ _ c _ => c
  end.

(** [None] stands for a vendor that is [None] or an empty dictionary. *)
Definition _analyze_vendor (vendor : option Vendor) : Py.IO VendorAnalysis :=
  match vendor with
  | None => Py.ret (vendor_no_data "Vendor data not available")
  | Some v =>
      vendor_age <-
        match v_created_at v with
        | Some created => (t <- Py.now ;; Py.ret (Py.days_between t created))
        | None => Py.ret 365%Z
        end ;;
      let is_new := (vendor_age <? new_vendor_days thresholds)%Z in
      Py.ret (vendor_stats is_new vendor_age is_new
                (if is_new then 0.6 else 0)
                (if is_new then risk_medium else risk_low))
  end.

(** *** [_analyze_patterns] *)

Record PatternAnalysis := mkPatternAnalysis {
  has_weekend_submission : bool;
  has_after_hours_submission : bool;
  unusual_line_items : bool;
  anomaly_count : nat;
  pt_has_anomaly : bool;
  pt_confidence : Q;
  pt_risk : Risk
}.

Definition generic_terms : list string :=
  ["services"; "consulting"; "misc"; "other"; "various"].

Definition is_generic (item : Item) : bool :=
  existsb (fun term => Py.contains term (Py.lower (Py.get (it_description item) "")))
          generic_terms.

Definition count_true (l : list bool) : nat := length (List.filter (fun b => b) l).

Definition _analyze_patterns (invoice : Invoice) : PatternAnalysis :=
  let '(weekend, after_hours) :=
    match created_at invoice with
    | Some c => ((5 <=? Py.weekday c)%Z,
                 (Py.hour c <? 6)%Z || (22 <? Py.hour c)%Z)
    | None => (false, false)
    end in
  let unusual :=
    match items invoice with
    | [] => false
    | its =>
        let generic_count := length (List.filter is_generic its) in
        Nat.eqb generic_count (length its) && Nat.ltb 0 (length its)
    end in
  let count := count_true [weekend; after_hours; unusual] in
  {| has_weekend_submission := weekend;
     has_after_hours_submission := after_hours;
     unusual_line_items := unusual;
     anomaly_count := count;
     pt_has_anomaly := Nat.leb 2 count;
     pt_confidence := if Nat.leb 2 count then 0.5 + inject_Z (Z.of_nat count) * 0.1 else 0;
     pt_risk := if Nat.leb 3 count then risk_high
                else if Nat.leb 2 count then risk_medium else risk_low |}.

(** *** [_check_rush_payment] *)

Record RushCheck := mkRushCheck {
  is_rush : bool;
  days_until_due : option Z;
  rc_confidence : Q;
  rc_risk : option Risk
}.

Definition _check_rush_payment (invoice : Invoice) : Py.IO RushCheck :=
  match due_date invoice with
  | None => Py.ret {| is_rush := false; days_until_due := None;
                      rc_confidence := 0; rc_risk := None |}
  | Some due =>
      t <- Py.now ;;
      let days := Py.days_between due t in
      let rush := (days <=? rush_payment_days thresholds)%Z in
      Py.ret {| is_rush := rush;
                days_until_due := Some days;
                rc_confidence := if rush then 0.6 else 0;
                rc_risk := Some (if rush then risk_medium else risk_none) |}
  end.

(** *** [_check_round_amount] *)

Record RoundCheck := mkRoundCheck {
  is_round : bool;
  all_items_round : bool;
  is_suspicious : bool;
  amount : Q;
  ra_confidence : Q;
  ra_risk : Risk
}.

(** [item.get('amount', 0) or item.get('quantity', 1) * item.get('unit_price', 0)] *)
Definition item_amount (item : Item) : Q :=
  let a := Py.get (it_amount item) 0 in
  if Py.truthy_num a then a
  else Py.get (it_quantity item) 1 * Py.get (it_unit_price item) 0.

Definition _check_round_amount (invoice : Invoice) : RoundCheck :=
  let amt := Py.get (total_amount invoice) 0 in
  let round := Py.leb (round_amount_threshold thresholds) amt
               && Qeq_bool (Py.mod_ amt 100) 0 in
  let all_round :=
    match items invoice with
    | [] => false
    | its => forallb (fun item => Qeq_bool (Py.mod_ (item_amount item) 10) 0) its
    end in
  let suspicious := round && all_round in
  {| is_round := round;
     all_items_round := all_round;
     is_suspicious := suspicious;
     amount := amt;
     ra_confidence := if suspicious then 0.4 else 0;
     ra_risk := if suspicious then risk_low else risk_none |}.

(** *** The composite score *)

(** The entries of the [analysis] dictionary that the scorer reads. *)
Record Checks := mkChecks {
  duplicate_check : DuplicateCheck;
  price_analysis : PriceAnalysis;
  vendor_analysis : VendorAnalysis;
  pattern_analysis : PatternAnalysis;
  rush_payment_check : RushCheck;
  round_amount_check : RoundCheck
}.

Definition _calculate_anomaly_score (analysis : Checks) : Q :=
  let score := 0 in
  let score :=
    if is_duplicate (duplicate_check analysis)
    then score + w_duplicate_invoice fraud_weights
                 * dc_confidence (duplicate_check analysis)
    else score in
  let score :=
    if pa_has_anomaly (price_analysis analysis)
    then score + w_price_anomaly fraud_weights
                 * pa_confidence (price_analysis analysis)
    else score in
  let score :=
    if is_rush (rush_payment_check analysis)
    then score + w_rush_payment fraud_weights
                 * rc_confidence (rush_payment_check analysis)
    else score in
  let score :=
    if is_suspicious (round_amount_check analysis)
    then score + w_round_amount fraud_weights
                 * ra_confidence (round_amount_check analysis)
    else score in
  let score :=
    if va_is_new_vendor (vendor_analysis analysis)
    then score + w_new_vendor fraud_weights
                 * va_confidence (vendor_analysis analysis)
    else score in
  let score :=
    if pt_has_anomaly (pattern_analysis analysis)
    then score + w_frequency_anomaly fraud_weights
                 * pt_confidence (pattern_analysis analysis)
    else score in
  Py.min 1 score.

Definition _determine_risk_level (score : Q) : Risk :=
  if Py.leb 0.7 score then risk_critical
  else if Py.leb 0.5 score then risk_high
  else if Py.leb 0.3 score then risk_medium
  else if Py.leb 0.1 score then risk_low
  else risk_none.

Inductive IndicatorType :=
| DUPLICATE_INVOICE | PRICE_ANOMALY | NEW_VENDOR | RUSH_PAYMENT
| ROUND_AMOUNT | PATTERN_ANOMALY.

(** A fraud indicator.  Its description, a text formatted from values
    of the checks, is represented by those values: the number of
    matches, the percentage and direction, the age, the days, the
    pattern issues. *)
Inductive Detail :=
| matches (n : nat)
| percent (variance : Q) (d : option Direction)
| age_days (n : option Z)
| due_in (n : option Z)
| only_round_amounts
| unusual_patterns (issues : list string).

Record Indicator := mkIndicator {
  ind_type : IndicatorType;
  ind_severity : Risk;
  ind_detail : Detail;
  ind_confidence : Q
}.

Definition pa_risk (p : PriceAnalysis) : Risk :=
  match p with
  | price_no_data _ => risk_none
  | price_stats _ _ _ _ _ _ _ _ r => r
  end.

Definition pa_detail (p : PriceAnalysis) : Detail :=
  match p with
  | price_no_data _ => percent 0 None
  | price_stats _ _ _ _ _ v d _ _ => percent v (Some d)
  end.

Definition va_age (v : VendorAnalysis) : option Z :=
  match v with
  | vendor_no_data _ => None
  | vendor_stats _ a _ _ _ => Some a
  end.

Definition _compile_fraud_indicators (analysis : Checks) : list Indicator :=
  let indicators : list Indicator := [] in
  let indicators :=
    if is_duplicate (duplicate_check analysis)
    then indicators ++
           [mkIndicator DUPLICATE_INVOICE risk_high
              (matches (duplicate_count (duplicate_check analysis)))
              (dc_confidence (duplicate_check analysis))]
    else indicators in
  let indicators :=
    if pa_has_anomaly (price_analysis analysis)
    then indicators ++
           [mkIndicator PRICE_ANOMALY (pa_risk (price_analysis analysis))
              (pa_detail (price_analysis analysis))
              (pa_confidence (price_analysis analysis))]
    else indicators in
  let indicators :=
    if va_is_new_vendor (vendor_analysis analysis)
    then indicators ++
           [mkIndicator NEW_VENDOR risk_medium
              (age_days (va_age (vendor_analysis analysis)))
              (va_confidence (vendor_analysis analysis))]
    else indicators in
  let indicators :=
    if is_rush (rush_payment_check analysis)
    then indicators ++
           [mkIndicator RUSH_PAYMENT risk_medium
              (due_in (days_until_due (rush_payment_check analysis)))
              (rc_confidence (rush_payment_check analysis))]
    else indicators in
  let indicators :=
    if is_suspicious (round_amount_check analysis)
    then indicators ++
           [mkIndicator ROUND_AMOUNT risk_low only_round_amounts
              (ra_confidence (round_amount_check analysis))]
    else indicators in
  if pt_has_anomaly (pattern_analysis analysis)
  then
    let p := pattern_analysis analysis in
    let issues :=
      (if has_weekend_submission p then ["weekend submission"] else [])
      ++ (if has_after_hours_submission p then ["after-hours submission"] else [])
      ++ (if unusual_line_items p then ["generic line items"] else []) in
    match issues with
    | [] => indicators
    | _ => indicators ++
             [mkIndicator PATTERN_ANOMALY (pt_risk p) (unusual_patterns issues)
                (pt_confidence p)]
    end
  else indicators.

Record Recommendation := mkRecommendation {
  priority : Risk;
  action : string
}.

Definition _generate_recommendations (analysis : Checks) (anomaly_score : Q)
    : list Recommendation :=
  let recs : list Recommendation := [] in
  let recs :=
    if Py.leb 0.7 anomaly_score
    then recs ++ [mkRecommendation risk_critical
                    "Hold payment and escalate to fraud team immediately"]
    else if Py.leb 0.5 anomaly_score
    then recs ++ [mkRecommendation risk_high
                    "Require additional approval before processing"]
    else recs in
  let recs :=
    if is_duplicate (duplicate_check analysis)
    then recs ++ [mkRecommendation risk_high
                    "Verify this is not a duplicate submission before payment"]
    else recs in
  let recs :=
    if pa_has_anomaly (price_analysis analysis)
    then recs ++ [mkRecommendation risk_medium
                    "Request itemized breakdown and compare with contract rates"]
    else recs in
  if va_is_new_vendor (vendor_analysis analysis)
  then recs ++ [mkRecommendation risk_medium
                  "Verify vendor credentials and banking information"]
  else recs.

(** The dictionary that [analyze_invoice] returns on success. *)
Record Analysis := mkAnalysis {
  analyzed_at : Py.datetime;
  an_invoice_id : option string;
  checks : Checks;
  anomaly_score : Q;
  risk_level : Risk;
  fraud_indicators : list Indicator;
  recommendations : list Recommendation
}.

(** The features of one invoice, and the outcome of training. *)
Record Features := mkFeatures {
  f_amount : Q;
  item_count : nat;
  is_round_amount : bool;
  hour_of_day : Z;
  day_of_week : Z;
  is_weekend : bool
}.

Inductive Training :=
| training_failed (error : string)
| trained (trained_at : Py.datetime) (records_used features_extracted
    anomalies_detected : nat) (anomaly_rate : Q).

Definition _extract_features (invoices : list Invoice) : list Features :=
  map (fun inv =>
         let amt := Py.get (total_amount inv) 0 in
         {| f_amount := amt;
            item_count := length (items inv);
            is_round_amount := Qeq_bool (Py.mod_ amt 100) 0;
            hour_of_day := match created_at inv with
                           | Some c => Py.hour c
                           | None => 12%Z
                           end;
            day_of_week := match created_at inv with
                           | Some c => Py.weekday c
                           | None => 0%Z
                           end;
            is_weekend := match created_at inv with
                          | Some c => (5 <=? Py.weekday c)%Z
                          | None => false
                          end |})
      invoices.

Section Service.

Variable np_std : list Q -> Q.

(** The isolation forest of the library, fitted on the scaled features
    and asked for its predictions on them: the predictions, or the
    message of the exception that it raised. *)
Variable isolation_forest : list Features -> string + list Z.

Definition analyze_invoice (invoice_data : Invoice)
    (historical_data : list Invoice) (vendor_data : option Vendor)
    : Py.IO Analysis :=
  t <- Py.now ;;
  let dup := _check_duplicate invoice_data historical_data in
  let price := _analyze_price np_std invoice_data historical_data in
  vend <- _analyze_vendor vendor_data ;;
  let pattern := _analyze_patterns invoice_data in
  rush <- _check_rush_payment invoice_data ;;
  let round := _check_round_amount invoice_data in
  let analysis :=
    {| duplicate_check := dup;
       price_analysis := price;
       vendor_analysis := vend;
       pattern_analysis := pattern;
       rush_payment_check := rush;
       round_amount_check := round |} in
  let score := _calculate_anomaly_score analysis in
  Py.ret {| analyzed_at := t;
            an_invoice_id :=
              Py.or_ Py.truthy_str (_id invoice_data) (invoice_id invoice_data);
            checks := analysis;
            anomaly_score := score;
            risk_level := _determine_risk_level score;
            fraud_indicators := _compile_fraud_indicators analysis;
            recommendations := _generate_recommendations analysis score |}.

Definition train_model (historical_data : list Invoice) : Py.IO Training :=
  if Nat.ltb (length historical_data) 10 then
    Py.ret (training_failed
              "Insufficient data for training (minimum 10 records)")
  else
    let features := _extract_features historical_data in
    match features with
    | [] => Py.ret (training_failed "Failed to extract features from data")
    | _ =>
        match isolation_forest features with
        | inl error => Py.ret (training_failed error)
        | inr predictions =>
            let anomaly_count :=
              length (List.filter (fun p => (p =? -1)%Z) predictions) in
            t <- Py.now ;;
            Py.ret (trained t (length historical_data) 6 anomaly_count
                      (inject_Z (Z.of_nat anomaly_count)
                       / Py.len historical_data))
        end
    end.

End Service.

End FraudDetection.

(** ** The design's statements, as definitions *)

Module Spec.

Local Open Scope string_scope.
Local Open Scope Q_scope.

(** *** Fuzzy matcher *)

(** Free text is compared in lower case and trimmed. *)
Definition normalize (s : string) : string := Py.strip (Py.lower s).

(** The set of the tokens of a text, split on white space. *)
Definition token_set (s : string) : gset string := Py.set_ (Py.split s).

(** Jaccard similarity: the size of the intersection over the size of the
    union. *)
Definition jaccard (a b : gset string) : Q := Py.card (a ∩ b) / Py.card (a ∪ b).

(** The similarity of two texts: [1] when they are equal once normalised,
    the Jaccard similarity of their token sets otherwise. *)
Definition similarity (s1 s2 : string) : Q :=
  if String.eqb (normalize s1) (normalize s2) then 1
  else jaccard (token_set (normalize s1)) (token_set (normalize s2)).

(** Two texts match when their similarity exceeds [0.6]. *)
Definition fuzzy_match (s1 s2 : string) : bool := Py.ltb 0.6 (similarity s1 s2).

(** *** Composite score *)

(** What one indicator adds: its weight times its confidence when it
    fires, nothing otherwise. *)
Definition contribution (fires : bool) (weight confidence : Q) : Q :=
  if fires then weight * confidence else 0.

Definition clamp01 (x : Q) : Q := Qmax 0 (Qmin 1 x).

(** The weighted sum over the six indicators, clamped to [[0, 1]]. *)
Definition weighted_score (c : FraudDetection.Checks) : Q :=
  clamp01
    (contribution (FraudDetection.is_duplicate (FraudDetection.duplicate_check c))
       0.35 (FraudDetection.dc_confidence (FraudDetection.duplicate_check c))
     + contribution (FraudDetection.pa_has_anomaly (FraudDetection.price_analysis c))
         0.25 (FraudDetection.pa_confidence (FraudDetection.price_analysis c))
     + contribution (FraudDetection.is_rush (FraudDetection.rush_payment_check c))
         0.15 (FraudDetection.rc_confidence (FraudDetection.rush_payment_check c))
     + contribution (FraudDetection.is_suspicious (FraudDetection.round_amount_check c))
         0.05 (FraudDetection.ra_confidence (FraudDetection.round_amount_check c))
     + contribution (FraudDetection.va_is_new_vendor (FraudDetection.vendor_analysis c))
         0.10 (FraudDetection.va_confidence (FraudDetection.vendor_analysis c))
     + contribution (FraudDetection.pt_has_anomaly (FraudDetection.pattern_analysis c))
         0.10 (FraudDetection.pt_confidence (FraudDetection.pattern_analysis c))).

(** Every indicator that fires has a confidence that is not negative. *)
Definition confident (c : FraudDetection.Checks) : Prop :=
  (FraudDetection.is_duplicate (FraudDetection.duplicate_check c) = true
   -> 0 <= FraudDetection.dc_confidence (FraudDetection.duplicate_check c))
  /\ (FraudDetection.pa_has_anomaly (FraudDetection.price_analysis c) = true
      -> 0 <= FraudDetection.pa_confidence (FraudDetection.price_analysis c))
  /\ (FraudDetection.is_rush (FraudDetection.rush_payment_check c) = true
      -> 0 <= FraudDetection.rc_confidence (FraudDetection.rush_payment_check c))
  /\ (FraudDetection.is_suspicious (FraudDetection.round_amount_check c) = true
      -> 0 <= FraudDetection.ra_confidence (FraudDetection.round_amount_check c))
  /\ (FraudDetection.va_is_new_vendor (FraudDetection.vendor_analysis c) = true
      -> 0 <= FraudDetection.va_confidence (FraudDetection.vendor_analysis c))
  /\ (FraudDetection.pt_has_anomaly (FraudDetection.pattern_analysis c) = true
      -> 0 <= FraudDetection.pt_confidence (FraudDetection.pattern_analysis c)).

(** The tier of a score. *)
Definition tier_of (score : Q) (tier : FraudDetection.Risk) : Prop :=
  (0.7 <= score -> tier = FraudDetection.risk_critical)
  /\ (0.5 <= score < 0.7 -> tier = FraudDetection.risk_high)
  /\ (0.3 <= score < 0.5 -> tier = FraudDetection.risk_medium)
  /\ (0.1 <= score < 0.3 -> tier = FraudDetection.risk_low)
  /\ (score < 0.1 -> tier = FraudDetection.risk_none).

(** *** Three-way match *)

(** The header score: 100 minus 20 for a purchase order number that
    differs and minus 15 for a vendor that does not match. *)
Definition header_score (invoice_data po_data : InvoiceML.Doc) : Q :=
  100
  - (if InvoiceML.matched (InvoiceML._match_po_number invoice_data po_data)
     then 0 else 20)
  - (if InvoiceML.matched (InvoiceML._match_vendor invoice_data po_data)
     then 0 else 15).

(** The score of one line from its two variances. *)
Definition per_line_score (price_variance quantity_variance : Q) : Q :=
  Qmax 0 (100 - Qmin 30 (price_variance * 100) - Qmin 30 (quantity_variance * 100)).

(** The mean of the line scores; the mean of no score is [0]. *)
Definition mean_line_score (lms : list InvoiceML.LineMatch) : Q :=
  match lms with
  | [] => 0
  | _ => Py.sum (map InvoiceML.lm_match_score lms) / Py.len lms
  end.

(** An invoice line agrees with the order and the receipt: the line of
    the order that it is matched to, the first one with a matching
    description, has its unit price, and the line of the receipt that it
    is matched to has its quantity. *)
Definition line_agrees (po_lines grn_lines : list InvoiceML.LineItem)
    (inv_line : InvoiceML.LineItem) : Prop :=
  let same (l : InvoiceML.LineItem) :=
    InvoiceML._descriptions_match (InvoiceML.description inv_line)
      (InvoiceML.description l) in
  exists po_line grn_line,
    find same po_lines = Some po_line
    /\ find same grn_lines = Some grn_line
    /\ Py.get (InvoiceML.unit_price inv_line) 0
       == Py.get (InvoiceML.unit_price po_line) 0
    /\ Py.get (InvoiceML.quantity inv_line) 0
       == Py.get (InvoiceML.quantity grn_line) 0.

(** *** Lists of candidates *)

(** The candidate that reports a historical invoice with an equal hash. *)
Definition exact_candidate (hist_inv : InvoiceML.Doc) : InvoiceML.Candidate :=
  {| InvoiceML.cand_invoice_id := InvoiceML._id hist_inv;
     InvoiceML.cand_match_type := InvoiceML.exact_hash;
     InvoiceML.cand_confidence := 1;
     InvoiceML.matched_fields := ["all"] |}.

(** A list of confidences in descending order. *)
Fixpoint descending (l : list Q) : Prop :=
  match l with
  | [] => True
  | x :: l' => Forall (fun y => y <= x) l' /\ descending l'
  end.

(** *** Price anomaly *)

(** The historical invoices of the vendor of an invoice. *)
Definition same_vendor (invoice : FraudDetection.Invoice)
    (historical : list FraudDetection.Invoice) : list FraudDetection.Invoice :=
  List.filter
    (fun h => Py.opt_eqb String.eqb (FraudDetection.vendor_of h)
                (FraudDetection.vendor_of invoice))
    historical.

(** *** One invocation *)

(** The results of the three operations when they are invoked with a
    given clock. *)
Definition match_result (invoice_data po_data grn_data : InvoiceML.Doc)
    (tolerance : Q) (clk : Py.Clock) : InvoiceML.MatchResult :=
  Py.run (InvoiceML.perform_three_way_match invoice_data po_data grn_data tolerance)
    clk.

Definition duplicate_verdict (json_dumps : InvoiceML.Canonical -> string)
    (sha256_hexdigest : string -> string) (invoice_data : InvoiceML.Doc)
    (historical_invoices : list InvoiceML.Doc) (clk : Py.Clock)
    : InvoiceML.DuplicateVerdict :=
  Py.run (InvoiceML.detect_duplicate json_dumps sha256_hexdigest invoice_data
            historical_invoices) clk.

Definition risk_verdict (np_std : list Q -> Q)
    (invoice_data : FraudDetection.Invoice)
    (historical_data : list FraudDetection.Invoice)
    (vendor_data : option FraudDetection.Vendor) (clk : Py.Clock)
    : FraudDetection.Analysis :=
  Py.run (FraudDetection.analyze_invoice np_std invoice_data historical_data
            vendor_data) clk.

End Spec.

(** ** Concrete inputs *)

Module Examples.

Local Open Scope string_scope.
Local Open Scope list_scope.
Local Open Scope Q_scope.

(** A clock that stands still at the epoch. *)
Definition epoch_clock : Py.Clock := fun _ => 0%Z.

Definition line (d : string) (q p : Q) : InvoiceML.LineItem :=
  InvoiceML.mkLineItem (Some d) (Some q) (Some p).

(** An invoice, its purchase order and its goods receipt note, in
    agreement on every value. *)
Definition widgets_invoice : InvoiceML.Doc :=
  InvoiceML.mkDoc (Some "inv-1") (Some "PO-1001") (Some "Acme Corp")
    (Some "INV-1") (Some 120) (Some "2024-01-01")
    [line "Blue Widget" 2 10; line "Steel Bolt M8" 100 1].

Definition widgets_po : InvoiceML.Doc :=
  InvoiceML.mkDoc None (Some " PO-1001") (Some "ACME corp ") None None None
    [line "blue widget" 2 10; line "steel bolt m8" 100 1].

Definition widgets_grn : InvoiceML.Doc :=
  InvoiceML.mkDoc None None None None None None
    [line "Blue widget" 2 10; line "Steel bolt M8" 100 1].

(** The same invoice and order without any line. *)
Definition no_lines_invoice : InvoiceML.Doc :=
  InvoiceML.mkDoc (Some "inv-2") (Some "PO-1001") (Some "Acme Corp")
    (Some "INV-2") (Some 120) (Some "2024-01-01") [].

Definition no_lines_po : InvoiceML.Doc :=
  InvoiceML.mkDoc None (Some "PO-1001") (Some "Acme Corp") None None None [].

(** A stand-in for the serialisation and for the hash, both injective on
    the inputs below. *)
Definition join_fields (c : InvoiceML.Canonical) : string :=
  InvoiceML.c_invoice_number c ++ "|" ++ InvoiceML.c_vendor_name c
  ++ "|" ++ InvoiceML.c_invoice_date c.

Definition identity_hash (s : string) : string := s.

(** A historical invoice equal to [widgets_invoice] in number, vendor and
    amount, dated four years earlier. *)
Definition widgets_four_years_before : InvoiceML.Doc :=
  InvoiceML.mkDoc (Some "inv-0") (Some "PO-0007") (Some "Acme Corp")
    (Some "INV-1") (Some 120) (Some "2020-01-01") [].

(** [widgets_invoice] stored six times. *)
Definition six_copies : list InvoiceML.Doc := repeat widgets_invoice 6.

(** *** Fraud detection *)

Definition plain_invoice (id number : string) (total : Q) (vendor : string)
    : FraudDetection.Invoice :=
  FraudDetection.mkInvoice (Some id) None (Some number) (Some total) None
    (Some vendor) None None None [].

(** An invoice and one earlier invoice with its number. *)
Definition resubmitted : FraudDetection.Invoice :=
  plain_invoice "a" "INV-1" 500 "v1".

Definition first_submission : FraudDetection.Invoice :=
  plain_invoice "b" "INV-1" 700 "v1".

(** The same invoice, due four days and a half after the epoch. *)
Definition resubmitted_due : FraudDetection.Invoice :=
  FraudDetection.mkInvoice (Some "a") None (Some "INV-1") (Some 500) None
    (Some "v1") None None (Some (4 * Py.day_us + 12 * Py.hour_us)%Z) [].

(** A clock that stands still one day after the epoch. *)
Definition next_day_clock : Py.Clock := fun _ => Py.day_us.

Definition round_item (a : Q) : FraudDetection.Item :=
  FraudDetection.mkItem (Some "Licence") (Some a) None None.

Definition invoice_of_total (total : Q) (its : list FraudDetection.Item)
    : FraudDetection.Invoice :=
  FraudDetection.mkInvoice (Some "r") None (Some "INV-9") (Some total) None
    (Some "v1") None None None its.

(** A total of exactly 1000 in one line. *)
Definition thousand : FraudDetection.Invoice :=
  invoice_of_total 1000 [round_item 1000].

(** Three earlier invoices of vendor [v1], of 100 each. *)
Definition three_of_hundred : list FraudDetection.Invoice :=
  [plain_invoice "h1" "INV-A" 100 "v1"; plain_invoice "h2" "INV-B" 100 "v1";
   plain_invoice "h3" "INV-C" 100 "v1"].

(** A deviation that is always zero, and a forest that raises. *)
Definition zero_std (l : list Q) : Q := 0.
Definition failing_forest (f : list FraudDetection.Features) : string + list Z :=
  inl "not fitted".

End Examples.

(** ** [invoice_ml.py]: the point-based fraud score *)

Module FraudScore.

Local Open Scope string_scope.
Local Open Scope list_scope.
Local Open Scope Z_scope.

(** [detect_fraud] reads values of any type from the invoice dictionary and
    fails on some of them: the values are kept as they come, [None] for an
    absent key in a field of type [option Value]. *)
Inductive Value :=
| v_null
| v_bool (b : bool)
| v_num (x : Q)
| v_str (s : string).

Record RawInvoice := mkRawInvoice {
  total_amount : option Value;
  vendor_name : option Value;
  invoice_number : option Value;
  invoice_date : option Value;
  bank_account_changed : option Value
}.

(** The exception that ends in the [except] branch. *)
Inductive PyError := TypeError | AttributeError | ValueError.

(** Truth value of [d.get(k)] *)
Definition truthy (o : option Value) : bool :=
  match o with
  | None | Some v_null => false
  | Some (v_bool b) => b
  | Some (v_num x) => Py.truthy_num x
  | Some (v_str s) => Py.truthy_str s
  end.

(** A value as a number in a comparison: a Boolean counts as 0 or 1. *)
Definition as_num (v : Value) : option Q :=
  match v with
  | v_num x => Some x
  | v_bool b => Some (if b then 1%Q else 0%Q)
  | v_null | v_str _ => None
  end.

Definition is_digit (c : ascii) : bool :=
  let n := Py.code c in ((48 <=? n) && (n <=? 57))%N.

Definition digit_value (c : ascii) : Z := Z.of_N (Py.code c) - 48.

(** [re.sub(r'[^\d.]', '', s)] *)
Fixpoint keep_digits_dots (s : string) : string :=
  match s with
  | EmptyString => EmptyString
  | String c s' =>
      if is_digit c || Ascii.eqb c "." then String c (keep_digits_dots s')
      else keep_digits_dots s'
  end.

(** [float(s)] on a string of digits and dots: the digits read so far,
    the power of ten of those after the dot, whether the dot and whether a
    digit was seen.  A second dot or no digit at all is a [ValueError]. *)
Fixpoint float_go (s : string) (mant : Z) (scale : positive) (dot digits : bool)
    : option Q :=
  match s with
  | EmptyString => if digits then Some (mant # scale) else None
  | String c s' =>
      if is_digit c then
        float_go s' (10 * mant + digit_value c)
          (if dot then (10 * scale)%positive else scale) dot true
      else if Ascii.eqb c "." then
        if dot then None else float_go s' mant scale true digits
      else None
  end.

Definition float_of (s : string) : option Q := float_go s 0 1%positive false false.

(** [self.fraud_indicators] *)
Definition suspicious_amounts : list Q := [9999.99; 10000.00; 5000.00]%Q.
Definition suspicious_vendors : list string := ["test"; "dummy"; "fake"; "temp"].

(** [total in suspicious_amounts] *)
Definition in_amounts (total : Value) (amounts : list Q) : bool :=
  match as_num total with
  | Some x => existsb (Qeq_bool x) amounts
  | None => false
  end.

Inductive FlagType :=
| suspicious_amount | round_amount | suspicious_vendor | missing_fields
| bank_account_change | unusual_invoice_format.

Inductive Severity := high | medium | low.

(** The detail of a flag, a text in the source, by the values it is
    formatted from. *)
Inductive FlagDetail :=
| amount_is (total : Value)
| manual_entry
| contains_keyword (suspicious : string)
| fields_missing (fields : list string)
| bank_differs
| unusual_format.

Record Flag := mkFlag {
  f_type : FlagType;
  f_severity : Severity;
  f_detail : FlagDetail
}.

Inductive RiskLevel := level_high | level_medium | level_low.
Inductive Recommendation := manual_review | auto_process.

(** The dictionary returned on success; on an exception the function
    returns [{'fraud_score': 0, 'error': ...}], here the exception. *)
Record Report := mkReport {
  fraud_score : Z;
  risk_level : RiskLevel;
  flags : list Flag;
  recommendation : Recommendation;
  requires_verification : bool;
  analyzed_at : Py.datetime
}.

Definition critical_fields (invoice_data : RawInvoice) : list (string * option Value) :=
  [("invoice_number", invoice_number invoice_data);
   ("vendor_name", vendor_name invoice_data);
   ("total_amount", total_amount invoice_data);
   ("invoice_date", invoice_date invoice_data)].

(** The score and the flags before the risk level is determined, or the
    exception raised on the way. *)
Definition score_and_flags (invoice_data : RawInvoice) : PyError + (Z * list Flag) :=
  let score := 0 in
  let flags : list Flag := [] in
  (* Check suspicious amounts *)
  let total := Py.get (total_amount invoice_data) (v_num 0) in
  let converted :=
    match total with
    | v_str s =>
        match float_of (keep_digits_dots s) with
        | Some x => inr (v_num x)
        | None => inl ValueError
        end
    | _ => inr total
    end in
  match converted with
  | inl e => inl e
  | inr total =>
  let '(score, flags) :=
    if in_amounts total suspicious_amounts
    then (score + 25, flags ++ [mkFlag suspicious_amount high (amount_is total)])
    else (score, flags) in
  (* Check round amounts *)
  match as_num total with
  | None => inl TypeError
  | Some x =>
  let '(score, flags) :=
    if Py.ltb 100 x && Qeq_bool (Py.mod_ x 100) 0
    then (score + 10, flags ++ [mkFlag round_amount low manual_entry])
    else (score, flags) in
  (* Check suspicious vendor names *)
  match Py.get (vendor_name invoice_data) (v_str "") with
  | v_null | v_bool _ | v_num _ => inl AttributeError
  | v_str name =>
  let vendor := Py.lower name in
  let '(score, flags) :=
    fold_left
      (fun '(score, flags) suspicious =>
         if Py.contains suspicious vendor
         then (score + 30,
               flags ++ [mkFlag suspicious_vendor high (contains_keyword suspicious)])
         else (score, flags))
      suspicious_vendors (score, flags) in
  (* Check for missing critical fields *)
  let missing :=
    map fst (List.filter (fun f => negb (truthy (snd f))) (critical_fields invoice_data)) in
  let '(score, flags) :=
    match missing with
    | [] => (score, flags)
    | _ => (score + 15 * Z.of_nat (length missing),
            flags ++ [mkFlag missing_fields medium (fields_missing missing)])
    end in
  (* Check bank account changes *)
  let '(score, flags) :=
    if truthy (bank_account_changed invoice_data)
    then (score + 20, flags ++ [mkFlag bank_account_change high bank_differs])
    else (score, flags) in
  (* Check invoice number format anomalies *)
  let inv_num := Py.get (invoice_number invoice_data) (v_str "") in
  if truthy (Some inv_num) then
    match inv_num with
    | v_str s =>
        if (Z.of_nat (String.length s) <? 3)
        then inr (score + 10,
                  flags ++ [mkFlag unusual_invoice_format low unusual_format])
        else inr (score, flags)
    | _ => inl TypeError
    end
  else inr (score, flags)
  end end end.

Definition detect_fraud (invoice_data : RawInvoice) : Py.IO (PyError + Report) :=
  match score_and_flags invoice_data with
  | inl e => Py.ret (inl e)
  | inr (score, flags) =>
      let level :=
        if 50 <=? score then level_high
        else if 25 <=? score then level_medium
        else level_low in
      t <- Py.now ;;
      Py.ret (inr {| fraud_score := Z.min score 100;
                     risk_level := level;
                     flags := flags;
                     recommendation :=
                       if 25 <=? score then manual_review else auto_process;
                     requires_verification := 25 <=? score;
                     analyzed_at := t |})
  end.

End FraudScore.

(** ** [invoice_ml.py]: the suggestion of a ledger account *)

Module GLCoding.

Local Open Scope string_scope.
Local Open Scope list_scope.

(** [self.gl_patterns], in the order of the dictionary. *)
Definition gl_patterns : list (string * list string) :=
  [("office_supplies", ["paper"; "pen"; "stapler"; "folder"; "envelope"; "office"]);
   ("computer_equipment",
    ["laptop"; "desktop"; "monitor"; "keyboard"; "mouse"; "computer"]);
   ("software", ["license"; "subscription"; "saas"; "software"; "adobe"; "microsoft"]);
   ("utilities", ["electric"; "water"; "gas"; "internet"; "phone"; "utility"]);
   ("travel", ["hotel"; "flight"; "airline"; "uber"; "taxi"; "rental car"]);
   ("meals", ["restaurant"; "lunch"; "dinner"; "catering"; "food"]);
   ("professional_services",
    ["consulting"; "legal"; "accounting"; "audit"; "advisory"]);
   ("marketing",
    ["advertising"; "marketing"; "social media"; "campaign"; "promotion"]);
   ("rent", ["rent"; "lease"; "facility"]);
   ("insurance", ["insurance"; "premium"; "coverage"]);
   ("maintenance", ["repair"; "maintenance"; "service"; "cleaning"]);
   ("shipping", ["shipping"; "freight"; "delivery"; "courier"; "fedex"; "ups"])].

(** An entry of [gl_accounts]. *)
Record Account := mkAccount {
  category : option string;
  account_code : option string;
  account_name : option string
}.

(** [sum(1 for keyword in keywords if keyword in description)] *)
Definition keyword_score (description : string) (keywords : list string) : nat :=
  length (List.filter (fun keyword => Py.contains keyword description) keywords).

(** [category_scores]: the categories with a positive score, in the order
    of [gl_patterns]. *)
Definition category_scores (patterns : list (string * list string))
    (description : string) : list (string * nat) :=
  List.filter (fun cs => Nat.ltb 0 (snd cs))
    (map (fun ck => (fst ck, keyword_score description (snd ck))) patterns).

(** [max(category_scores, key=category_scores.get)]: the maximum is replaced
    only by a greater score, so the first of the greatest wins. *)
Fixpoint max_by_score (best : string * nat) (rest : list (string * nat))
    : string * nat :=
  match rest with
  | [] => best
  | cs :: rest' =>
      if Nat.ltb (snd best) (snd cs) then max_by_score cs rest'
      else max_by_score best rest'
  end.

Inductive Suggestion :=
| no_category
| no_account (suggested_category : string)
| suggested (gl_account acc_name : option string) (best_category : string)
    (confidence : Q) (alternatives : list Account).

Definition suggest_with (patterns : list (string * list string))
    (description : option string) (gl_accounts : list Account) : Suggestion :=
  let text := Py.lower (Py.get description "") in
  match category_scores patterns text with
  | [] => no_category
  | first :: others =>
      let best := max_by_score first others in
      let matching_accounts :=
        List.filter
          (fun acc => Py.contains (fst best) (Py.lower (Py.get (category acc) "")))
          gl_accounts in
      match matching_accounts with
      | suggested_account :: _ =>
          let confidence :=
            Py.min (inject_Z (Z.of_nat (snd best)) / 3)%Q 1%Q in
          suggested (account_code suggested_account) (account_name suggested_account)
            (fst best) confidence
            (match matching_accounts with
             | _ :: _ :: _ => firstn 2 (skipn 1 matching_accounts)
             | _ => []
             end)
      | [] => no_account (fst best)
      end
  end.

(** [suggest_gl_coding] on a line item with the given description. *)
Definition suggest_gl_coding (description : option string)
    (gl_accounts : list Account) : Suggestion :=
  suggest_with gl_patterns description gl_accounts.

End GLCoding.

(** ** [fraud_detection.py]: batches and statistics *)

Module Batch.

Import FraudDetection.
Local Open Scope string_scope.
Local Open Scope list_scope.

Record AnalyzedEntry := mkAnalyzedEntry {
  ae_invoice_id : option string;
  ae_risk_level : Risk;
  ae_anomaly_score : Q
}.

Record HighRiskEntry := mkHighRiskEntry {
  hr_invoice_id : option string;
  hr_risk_level : Risk;
  hr_indicators : list Indicator
}.

(** The result of [batch_analyze].  An entry of [failed] is an invoice
    identifier and the message of its error. *)
Record BatchResult := mkBatchResult {
  b_analyzed_at : Py.datetime;
  total_invoices : nat;
  analyzed : list AnalyzedEntry;
  high_risk : list HighRiskEntry;
  failed : list (option string * string)
}.

(** [risk in ['high', 'critical']] *)
Definition is_high (r : Risk) : bool :=
  match r with
  | risk_high | risk_critical => true
  | _ => false
  end.

(** The names of the tiers and of the indicator types, the keys of the
    dictionaries of counts. *)
Definition risk_name (r : Risk) : string :=
  match r with
  | risk_none => "none"
  | risk_low => "low"
  | risk_medium => "medium"
  | risk_high => "high"
  | risk_critical => "critical"
  end.

Definition type_name (t : IndicatorType) : string :=
  match t with
  | DUPLICATE_INVOICE => "DUPLICATE_INVOICE"
  | PRICE_ANOMALY => "PRICE_ANOMALY"
  | NEW_VENDOR => "NEW_VENDOR"
  | RUSH_PAYMENT => "RUSH_PAYMENT"
  | ROUND_AMOUNT => "ROUND_AMOUNT"
  | PATTERN_ANOMALY => "PATTERN_ANOMALY"
  end.

(** [counts[key] += 1] on a [defaultdict(int)] *)
Definition increment (key : string) (counts : gmap string nat) : gmap string nat :=
  <[key := S (default 0%nat (counts !! key))]> counts.

(** The dictionary that [get_statistics] returns; the two last entries
    are absent when there is no data. *)
Record Statistics := mkStatistics {
  total_analyzed : nat;
  by_risk_level : gmap string nat;
  by_indicator_type : gmap string nat;
  total_flagged : option nat;
  average_risk_score : option Q
}.

Section Service.

Variable np_std : list Q -> Q.

(** The loop of [batch_analyze].  Every invoice is analysed without vendor
    data; with inputs of the expected types the analysis succeeds, and
    nothing is added to [failed]. *)
Fixpoint batch_loop (invoices : list Invoice) (historical_data : list Invoice)
    (analyzed : list AnalyzedEntry) (high_risk : list HighRiskEntry)
    : Py.IO (list AnalyzedEntry * list HighRiskEntry) :=
  match invoices with
  | [] => Py.ret (analyzed, high_risk)
  | invoice :: rest =>
      analysis <- analyze_invoice np_std invoice historical_data None ;;
      let analyzed :=
        analyzed ++ [ {| ae_invoice_id := an_invoice_id analysis;
                         ae_risk_level := risk_level analysis;
                         ae_anomaly_score := anomaly_score analysis |} ] in
      let high_risk :=
        if is_high (risk_level analysis)
        then high_risk ++ [ {| hr_invoice_id := an_invoice_id analysis;
                               hr_risk_level := risk_level analysis;
                               hr_indicators := fraud_indicators analysis |} ]
        else high_risk in
      batch_loop rest historical_data analyzed high_risk
  end.

Definition batch_analyze (invoices : list Invoice) (historical_data : list Invoice)
    : Py.IO BatchResult :=
  t <- Py.now ;;
  lists <- batch_loop invoices historical_data [] [] ;;
  Py.ret {| b_analyzed_at := t;
            total_invoices := length invoices;
            analyzed := fst lists;
            high_risk := snd lists;
            failed := [] |}.

(** [get_statistics] analyses the data as a batch without historical
    data. *)
Definition get_statistics (historical_data : list Invoice) : Py.IO Statistics :=
  match historical_data with
  | [] => Py.ret {| total_analyzed := 0;
                    by_risk_level := ∅;
                    by_indicator_type := ∅;
                    total_flagged := None;
                    average_risk_score := None |}
  | _ =>
      results <- batch_analyze historical_data [] ;;
      let risk_levels :=
        fold_left (fun counts inv => increment (risk_name (ae_risk_level inv)) counts)
          (analyzed results) ∅ in
      let total_score :=
        fold_left (fun total inv => (total + ae_anomaly_score inv)%Q)
          (analyzed results) 0%Q in
      let indicator_types :=
        fold_left
          (fun counts risk_inv =>
             fold_left (fun counts indicator =>
                          increment (type_name (ind_type indicator)) counts)
               (hr_indicators risk_inv) counts)
          (high_risk results) ∅ in
      Py.ret {| total_analyzed := length (analyzed results);
                by_risk_level := risk_levels;
                by_indicator_type := indicator_types;
                total_flagged := Some (length (high_risk results));
                average_risk_score :=
                  Some (match analyzed results with
                        | [] => 0%Q
                        | _ => (total_score / Py.len (analyzed results))%Q
                        end) |}
  end.

End Service.

End Batch.

(** ** [invoice_ml.py]: the three-way match of a request as it arrives *)

Module MatchRequest.

Local Open Scope string_scope.
Local Open Scope list_scope.
Local Open Scope Q_scope.

(** The documents of a request are JSON objects, and the invoice may be
    the output of the extraction step, which stores [None] for a field
    that it does not find.  The order number and the vendor name are kept
    as the values they are: [None] in a field of type [option Value] is an
    absent key, [Some v_null] is the value [None].  The lines are read as
    in [InvoiceML]. *)
Record RawDoc := mkRawDoc {
  po_number : option FraudScore.Value;
  vendor_name : option FraudScore.Value;
  line_items : list InvoiceML.LineItem
}.

Inductive Discrepancy :=
| po_number_mismatch (invoice_value po_value : option FraudScore.Value)
| vendor_mismatch (invoice_value po_value : option FraudScore.Value)
| price_variance_found (line_item : option string)
    (variance_pct inv_price po_price : Q)
| quantity_variance_found (line_item : option string)
    (variance_pct inv_qty grn_qty : Q).

(** The dictionary that the [try] block returns. *)
Record MatchResult := mkMatchResult {
  match_type : string;
  overall_match : bool;
  match_score : Q;
  discrepancies : list Discrepancy;
  po_match : InvoiceML.Match;
  line_matches : list InvoiceML.LineMatch;
  status : InvoiceML.Status;
  processed_at : Py.datetime
}.

(** [d.get('vendor_name', '').lower().strip()]: only a text has the method
    [lower], on any other value the call raises. *)
Definition lower_strip (field : option FraudScore.Value)
    : FraudScore.PyError + string :=
  match Py.get field (FraudScore.v_str "") with
  | FraudScore.v_str s => inr (Py.strip (Py.lower s))
  | _ => inl FraudScore.AttributeError
  end.

(** The discrepancies that one line contributes, price first. *)
Definition line_discrepancies (tolerance : Q) (lm : InvoiceML.LineMatch)
    : list Discrepancy :=
  (if Py.ltb tolerance (InvoiceML.price_variance lm)
   then [price_variance_found (InvoiceML.lm_description lm)
           (InvoiceML.price_variance lm) (InvoiceML.invoice_price lm)
           (InvoiceML.po_price lm)]
   else [])
  ++
  (if Py.ltb tolerance (InvoiceML.quantity_variance lm)
   then [quantity_variance_found (InvoiceML.lm_description lm)
           (InvoiceML.quantity_variance lm) (InvoiceML.invoice_qty lm)
           (InvoiceML.grn_qty lm)]
   else []).

Section Str.

(** [str] of a number: a library function. *)
Variable str_num : Q -> string.

(** [str(d.get('po_number', ''))] *)
Definition str_ (field : option FraudScore.Value) : string :=
  match Py.get field (FraudScore.v_str "") with
  | FraudScore.v_null => "None"
  | FraudScore.v_bool true => "True"
  | FraudScore.v_bool false => "False"
  | FraudScore.v_num x => str_num x
  | FraudScore.v_str s => s
  end.

Definition _match_po_number (invoice_data po_data : RawDoc) : InvoiceML.Match :=
  let inv_po := Py.strip (str_ (po_number invoice_data)) in
  let po_num := Py.strip (str_ (po_number po_data)) in
  let matched := String.eqb inv_po po_num in
  {| InvoiceML.matched := matched;
     InvoiceML.confidence := if matched then 1 else 0 |}.

(** The name of the invoice is lowered first, then that of the order. *)
Definition _match_vendor (invoice_data po_data : RawDoc)
    : FraudScore.PyError + InvoiceML.Match :=
  match lower_strip (vendor_name invoice_data) with
  | inl e => inl e
  | inr inv_vendor =>
      match lower_strip (vendor_name po_data) with
      | inl e => inl e
      | inr po_vendor =>
          if String.eqb inv_vendor po_vendor then
            inr {| InvoiceML.matched := true; InvoiceML.confidence := 1 |}
          else
            let inv_tokens := Py.set_ (Py.split inv_vendor) in
            let po_tokens := Py.set_ (Py.split po_vendor) in
            if Py.nonempty inv_tokens && Py.nonempty po_tokens then
              let similarity :=
                Py.card (inv_tokens ∩ po_tokens) / Py.card (inv_tokens ∪ po_tokens) in
              inr {| InvoiceML.matched := Py.ltb 0.6 similarity;
                     InvoiceML.confidence := similarity |}
            else
              inr {| InvoiceML.matched := false; InvoiceML.confidence := 0 |}
      end
  end.

(** [perform_three_way_match] with its [except] branch: an exception
    raised in the [try] block ends in the dictionary
    [{'success': False, 'error': str(e)}], which has neither a score nor a
    status and is not stamped with the time; it is the left summand. *)
Definition perform_three_way_match (invoice_data po_data grn_data : RawDoc)
    (tolerance : Q) : Py.IO (FraudScore.PyError + MatchResult) :=
  let overall := true in
  let score := 100 in
  let discs : list Discrepancy := [] in
  (* Match PO number *)
  let po_m := _match_po_number invoice_data po_data in
  let '(overall, score, discs) :=
    if negb (InvoiceML.matched po_m)
    then (false, score - 20,
          discs ++ [po_number_mismatch (po_number invoice_data)
                      (po_number po_data)])
    else (overall, score, discs) in
  (* Match vendor *)
  match _match_vendor invoice_data po_data with
  | inl e => Py.ret (inl e)
  | inr vendor_m =>
      let '(overall, score, discs) :=
        if negb (InvoiceML.matched vendor_m)
        then (false, score - 15,
              discs ++ [vendor_mismatch (vendor_name invoice_data)
                          (vendor_name po_data)])
        else (overall, score, discs) in
      (* Match line items *)
      let lms :=
        InvoiceML._match_line_items (line_items invoice_data) (line_items po_data)
          (line_items grn_data) tolerance in
      let score := score * 0.3 + InvoiceML.line_score lms * 0.7 in
      (* Check for quantity/price variances *)
      let discs := discs ++ flat_map (line_discrepancies tolerance) lms in
      (* Final match determination *)
      let overall := if Py.ltb score 90 then false else overall in
      t <- Py.now ;;
      Py.ret (inr {| match_type := "3-way";
                     overall_match := overall;
                     match_score := score;
                     discrepancies := discs;
                     po_match := po_m;
                     line_matches := lms;
                     status := if overall then InvoiceML.status_matched
                               else InvoiceML.status_exception;
                     processed_at := t |})
  end.

End Str.

(** A document whose order number and vendor name are texts or absent, as
    a request document. *)
Definition of_doc (d : InvoiceML.Doc) : RawDoc :=
  {| po_number := option_map FraudScore.v_str (InvoiceML.po_number d);
     vendor_name := option_map FraudScore.v_str (InvoiceML.vendor_name d);
     line_items := InvoiceML.line_items d |}.

End MatchRequest.

(** ** Terms of the further properties *)

Module Terms.

Local Open Scope string_scope.
Local Open Scope list_scope.

(** The three comparisons that decide the field score of a historical
    invoice: number, vendor and amount, with [==] as the code applies it
    to the values of [d.get(k)]. *)
Definition same_key_fields (inv hist_inv : InvoiceML.Doc) : bool :=
  Py.opt_eqb String.eqb (InvoiceML.invoice_number inv)
    (InvoiceML.invoice_number hist_inv)
  && Py.opt_eqb String.eqb (InvoiceML.vendor_name inv) (InvoiceML.vendor_name hist_inv)
  && Py.opt_eqb Qeq_bool (InvoiceML.total_amount inv) (InvoiceML.total_amount hist_inv).

(** *** The point-based score *)

(** The points that a flag of [detect_fraud] stands for. *)
Definition points (f : FraudScore.Flag) : Z :=
  match FraudScore.f_type f with
  | FraudScore.suspicious_amount => 25
  | FraudScore.round_amount => 10
  | FraudScore.suspicious_vendor => 30
  | FraudScore.missing_fields =>
      match FraudScore.f_detail f with
      | FraudScore.fields_missing fields => 15 * Z.of_nat (length fields)
      | _ => 0
      end
  | FraudScore.bank_account_change => 20
  | FraudScore.unusual_invoice_format => 10
  end%Z.

Definition sum_points (flags : list FraudScore.Flag) : Z :=
  fold_right (fun f total => (points f + total)%Z) 0%Z flags.

(** The names of the critical fields whose value is absent or false. *)
Definition missing_names (invoice_data : FraudScore.RawInvoice) : list string :=
  map fst
    (List.filter (fun f => negb (FraudScore.truthy (snd f)))
       (FraudScore.critical_fields invoice_data)).

(** The flags in the order in which [detect_fraud] raises them, for a
    total [total] of numeric value [x] and a vendor name [name]. *)
Definition flags_in_order (invoice_data : FraudScore.RawInvoice)
    (total : FraudScore.Value) (x : Q) (name : string) : list FraudScore.Flag :=
  (if FraudScore.in_amounts total FraudScore.suspicious_amounts
   then [FraudScore.mkFlag FraudScore.suspicious_amount FraudScore.high
           (FraudScore.amount_is total)]
   else [])
  ++ (if Py.ltb 100 x && Qeq_bool (Py.mod_ x 100) 0
      then [FraudScore.mkFlag FraudScore.round_amount FraudScore.low
              FraudScore.manual_entry]
      else [])
  ++ flat_map
       (fun suspicious =>
          if Py.contains suspicious (Py.lower name)
          then [FraudScore.mkFlag FraudScore.suspicious_vendor FraudScore.high
                  (FraudScore.contains_keyword suspicious)]
          else [])
       FraudScore.suspicious_vendors
  ++ (match missing_names invoice_data with
      | [] => []
      | missing => [FraudScore.mkFlag FraudScore.missing_fields FraudScore.medium
                      (FraudScore.fields_missing missing)]
      end)
  ++ (if FraudScore.truthy (FraudScore.bank_account_changed invoice_data)
      then [FraudScore.mkFlag FraudScore.bank_account_change FraudScore.high
              FraudScore.bank_differs]
      else [])
  ++ (match Py.get (FraudScore.invoice_number invoice_data) (FraudScore.v_str "") with
      | FraudScore.v_str s =>
          if Py.truthy_str s && (Z.of_nat (String.length s) <? 3)%Z
          then [FraudScore.mkFlag FraudScore.unusual_invoice_format FraudScore.low
                  FraudScore.unusual_format]
          else []
      | _ => []
      end).

(** The total as [detect_fraud] uses it: a text is replaced by the number
    that its digits and dots denote; [None] when they denote none. *)
Definition total_of (invoice_data : FraudScore.RawInvoice) : option FraudScore.Value :=
  match Py.get (FraudScore.total_amount invoice_data) (FraudScore.v_num 0) with
  | FraudScore.v_str s =>
      option_map FraudScore.v_num (FraudScore.float_of (FraudScore.keep_digits_dots s))
  | v => Some v
  end.

(** The invoice with another total. *)
Definition with_total (invoice_data : FraudScore.RawInvoice) (v : FraudScore.Value)
    : FraudScore.RawInvoice :=
  {| FraudScore.total_amount := Some v;
     FraudScore.vendor_name := FraudScore.vendor_name invoice_data;
     FraudScore.invoice_number := FraudScore.invoice_number invoice_data;
     FraudScore.invoice_date := FraudScore.invoice_date invoice_data;
     FraudScore.bank_account_changed := FraudScore.bank_account_changed invoice_data |}.

(** The conditions under which no statement of [detect_fraud] fails: the
    total is not [None] and, if it is a text, its digits and dots denote a
    number; the vendor name is absent or a text; the invoice number is
    false or a text. *)
Definition total_readable (invoice_data : FraudScore.RawInvoice) : Prop :=
  FraudScore.total_amount invoice_data <> Some FraudScore.v_null
  /\ forall s, FraudScore.total_amount invoice_data = Some (FraudScore.v_str s) ->
               FraudScore.float_of (FraudScore.keep_digits_dots s) <> None.

Definition vendor_is_text (invoice_data : FraudScore.RawInvoice) : Prop :=
  FraudScore.vendor_name invoice_data = None
  \/ exists name, FraudScore.vendor_name invoice_data = Some (FraudScore.v_str name).

Definition number_is_text_or_false (invoice_data : FraudScore.RawInvoice) : Prop :=
  FraudScore.truthy (FraudScore.invoice_number invoice_data) = false
  \/ exists s, FraudScore.invoice_number invoice_data = Some (FraudScore.v_str s).

(** *** The composite risk *)

(** The sum of what the six indicators add, before it is capped. *)
Definition contributions (c : FraudDetection.Checks) : Q :=
  (Spec.contribution (FraudDetection.is_duplicate (FraudDetection.duplicate_check c))
     0.35 (FraudDetection.dc_confidence (FraudDetection.duplicate_check c))
   + Spec.contribution (FraudDetection.pa_has_anomaly (FraudDetection.price_analysis c))
       0.25 (FraudDetection.pa_confidence (FraudDetection.price_analysis c))
   + Spec.contribution (FraudDetection.is_rush (FraudDetection.rush_payment_check c))
       0.15 (FraudDetection.rc_confidence (FraudDetection.rush_payment_check c))
   + Spec.contribution
       (FraudDetection.is_suspicious (FraudDetection.round_amount_check c))
       0.05 (FraudDetection.ra_confidence (FraudDetection.round_amount_check c))
   + Spec.contribution
       (FraudDetection.va_is_new_vendor (FraudDetection.vendor_analysis c))
       0.10 (FraudDetection.va_confidence (FraudDetection.vendor_analysis c))
   + Spec.contribution
       (FraudDetection.pt_has_anomaly (FraudDetection.pattern_analysis c))
       0.10 (FraudDetection.pt_confidence (FraudDetection.pattern_analysis c)))%Q.

(** The confidences as the checks set them: a fixed confidence for a
    check that fires, a range for the price and the pattern check; and a
    pattern anomaly comes with at least one of its three issues. *)
Definition calibrated (c : FraudDetection.Checks) : Prop :=
  (FraudDetection.is_duplicate (FraudDetection.duplicate_check c) = true
   -> FraudDetection.dc_confidence (FraudDetection.duplicate_check c) = 0.85%Q)
  /\ (0 <= FraudDetection.pa_confidence (FraudDetection.price_analysis c) <= 0.9)%Q
  /\ (FraudDetection.is_rush (FraudDetection.rush_payment_check c) = true
      -> FraudDetection.rc_confidence (FraudDetection.rush_payment_check c) = 0.6%Q)
  /\ (FraudDetection.is_suspicious (FraudDetection.round_amount_check c) = true
      -> FraudDetection.ra_confidence (FraudDetection.round_amount_check c) = 0.4%Q)
  /\ (FraudDetection.va_is_new_vendor (FraudDetection.vendor_analysis c) = true
      -> FraudDetection.va_confidence (FraudDetection.vendor_analysis c) = 0.6%Q)
  /\ (0 <= FraudDetection.pt_confidence (FraudDetection.pattern_analysis c) <= 0.8)%Q.

(** The check that stands behind a type of indicator. *)
Definition fired (c : FraudDetection.Checks) (t : FraudDetection.IndicatorType) : bool :=
  match t with
  | FraudDetection.DUPLICATE_INVOICE =>
      FraudDetection.is_duplicate (FraudDetection.duplicate_check c)
  | FraudDetection.PRICE_ANOMALY =>
      FraudDetection.pa_has_anomaly (FraudDetection.price_analysis c)
  | FraudDetection.NEW_VENDOR =>
      FraudDetection.va_is_new_vendor (FraudDetection.vendor_analysis c)
  | FraudDetection.RUSH_PAYMENT =>
      FraudDetection.is_rush (FraudDetection.rush_payment_check c)
  | FraudDetection.ROUND_AMOUNT =>
      FraudDetection.is_suspicious (FraudDetection.round_amount_check c)
  | FraudDetection.PATTERN_ANOMALY =>
      FraudDetection.pt_has_anomaly (FraudDetection.pattern_analysis c)
  end.

(** The tiers in their order. *)
Definition rank (r : FraudDetection.Risk) : nat :=
  match r with
  | FraudDetection.risk_none => 0
  | FraudDetection.risk_low => 1
  | FraudDetection.risk_medium => 2
  | FraudDetection.risk_high => 3
  | FraudDetection.risk_critical => 4
  end%nat.

(** *** Duplicates *)

(** A historical invoice has the number of the invoice, which is not
    empty. *)
Definition same_number (invoice hist : FraudDetection.Invoice) : Prop :=
  FraudDetection.invoice_number hist
  = Some (Py.get (FraudDetection.invoice_number invoice) "")
  /\ Py.get (FraudDetection.invoice_number invoice) "" <> "".

(** Both amounts are present and not zero. *)
Definition both_amounts (invoice hist : FraudDetection.Invoice) : Prop :=
  ~ (Py.get (FraudDetection.total_amount hist) 0 == 0)%Q
  /\ ~ (Py.get (FraudDetection.total_amount invoice) 0 == 0)%Q.

(** A historical invoice has exactly the amount of the invoice, which is
    not zero. *)
Definition equal_amount (invoice hist : FraudDetection.Invoice) : Prop :=
  ~ (Py.get (FraudDetection.total_amount invoice) 0 == 0)%Q
  /\ (Py.get (FraudDetection.total_amount hist) 0
      == Py.get (FraudDetection.total_amount invoice) 0)%Q.

(** What makes a historical invoice a potential duplicate: it is another
    record, and it has the number of the invoice, or the two amounts are
    not zero and their distance divided by the greater of the historical
    amount and 1 is below 0.01, in exact arithmetic. *)
Definition resembles (invoice hist : FraudDetection.Invoice) : Prop :=
  FraudDetection._id hist <> FraudDetection._id invoice
  /\ ((FraudDetection.invoice_number hist
       = Some (Py.get (FraudDetection.invoice_number invoice) "")
       /\ Py.get (FraudDetection.invoice_number invoice) "" <> "")
      \/ (~ (Py.get (FraudDetection.total_amount hist) 0 == 0)%Q
          /\ ~ (Py.get (FraudDetection.total_amount invoice) 0 == 0)%Q
          /\ (Qabs (Py.get (FraudDetection.total_amount hist) 0
                    - Py.get (FraudDetection.total_amount invoice) 0)
              / Py.max (Py.get (FraudDetection.total_amount hist) 0) 1 < 0.01)%Q)).

(** The types of indicators in the order in which they are compiled. *)
Definition indicator_types : list FraudDetection.IndicatorType :=
  [FraudDetection.DUPLICATE_INVOICE; FraudDetection.PRICE_ANOMALY;
   FraudDetection.NEW_VENDOR; FraudDetection.RUSH_PAYMENT;
   FraudDetection.ROUND_AMOUNT; FraudDetection.PATTERN_ANOMALY].

(** *** The three-way match of a request *)

(** A field that is a text or absent: what [.lower()] accepts of
    [d.get(k, '')]. *)
Definition text_or_absent (field : option FraudScore.Value) : bool :=
  match field with
  | None | Some (FraudScore.v_str _) => true
  | Some _ => false
  end.

(** The header score by the two header matches. *)
Definition header_points (po_matched vendor_matched : bool) : Q :=
  (100 - (if po_matched then 0 else 20) - (if vendor_matched then 0 else 15))%Q.

End Terms.

(** ** Further inputs *)

Module MoreExamples.

Local Open Scope string_scope.
Local Open Scope list_scope.
Local Open Scope Q_scope.

(** A purchase order of another vendor, without number and without
    lines. *)
Definition bolt_brothers_po : InvoiceML.Doc :=
  InvoiceML.mkDoc None None (Some "Bolt Brothers") None None None [].

(** The invoice for the widgets at a unit price five per cent above the
    order. *)
Definition five_percent_invoice : InvoiceML.Doc :=
  InvoiceML.mkDoc (Some "inv-3") (Some "PO-1001") (Some "Acme Corp")
    (Some "INV-3") (Some 121) (Some "2024-01-01")
    [Examples.line "Blue Widget" 2 10.5; Examples.line "Steel Bolt M8" 100 1].

(** An invoice of a vendor with a keyword in its name, the total as a
    text with a sign and a thousands separator. *)
Definition text_total_invoice : FraudScore.RawInvoice :=
  FraudScore.mkRawInvoice (Some (FraudScore.v_str "-5,000.00"))
    (Some (FraudScore.v_str "Test Supplies Ltd")) (Some (FraudScore.v_str "INV-77"))
    (Some (FraudScore.v_str "2024-03-01")) None.

(** An invoice whose only finding is the changed bank account. *)
Definition bank_change_invoice : FraudScore.RawInvoice :=
  FraudScore.mkRawInvoice (Some (FraudScore.v_num 1234.5))
    (Some (FraudScore.v_str "Acme Corp")) (Some (FraudScore.v_str "INV-78"))
    (Some (FraudScore.v_str "2024-03-01")) (Some (FraudScore.v_bool true)).

(** An invoice with a total of zero. *)
Definition zero_total_invoice : FraudScore.RawInvoice :=
  FraudScore.mkRawInvoice (Some (FraudScore.v_num 0))
    (Some (FraudScore.v_str "Acme Corp")) (Some (FraudScore.v_str "INV-79"))
    (Some (FraudScore.v_str "2024-03-01")) None.

(** An invoice whose number is a number, not a text. *)
Definition numeric_number_invoice : FraudScore.RawInvoice :=
  FraudScore.mkRawInvoice (Some (FraudScore.v_num 1234.5))
    (Some (FraudScore.v_str "Acme Corp")) (Some (FraudScore.v_num 42))
    (Some (FraudScore.v_str "2024-03-01")) None.

(** Ledger accounts, two of them for meals. *)
Definition ledger : list GLCoding.Account :=
  [GLCoding.mkAccount (Some "Travel") (Some "6100") (Some "Travel expenses");
   GLCoding.mkAccount (Some "Meals and Entertainment") (Some "6200") (Some "Meals");
   GLCoding.mkAccount (Some "Office_Supplies") (Some "6300") (Some "Office supplies");
   GLCoding.mkAccount (Some "Staff meals") (Some "6210") (Some "Canteen")].

(** A deviation that is always 1. *)
Definition unit_std (l : list Q) : Q := 1.

(** An invoice with the number of an earlier one of
    [Examples.three_of_hundred], at a higher amount. *)
Definition inflated_copy : FraudDetection.Invoice :=
  Examples.plain_invoice "n" "INV-A" 130 "v1".

(** Two invoices with the same number and amount that are identified by
    [invoice_id], not by [_id]. *)
Definition no_id_invoice : FraudDetection.Invoice :=
  FraudDetection.mkInvoice None (Some "x1") (Some "INV-1") (Some 500) None
    (Some "v1") None None None [].

Definition no_id_copy : FraudDetection.Invoice :=
  FraudDetection.mkInvoice None (Some "x2") (Some "INV-1") (Some 500) None
    (Some "v1") None None None [].

(** A vendor created ten days before [next_month_clock]. *)
Definition next_month_clock : Py.Clock := fun _ => (30 * Py.day_us)%Z.

Definition recent_vendor : FraudDetection.Vendor :=
  FraudDetection.mkVendor (Some (20 * Py.day_us)%Z).

(** Four earlier invoices of vendor [v1], of 99, 99, 101 and 101: their
    mean is 100 and their population standard deviation is 1, the value
    of [unit_std]. *)
Definition steady_history : list FraudDetection.Invoice :=
  [Examples.plain_invoice "h1" "INV-A" 99 "v1";
   Examples.plain_invoice "h2" "INV-B" 99 "v1";
   Examples.plain_invoice "h3" "INV-C" 101 "v1";
   Examples.plain_invoice "h4" "INV-D" 101 "v1"].

(** An invoice of that vendor three per cent above the mean. *)
Definition slightly_higher : FraudDetection.Invoice :=
  Examples.plain_invoice "n" "INV-E" 103 "v1".

(** Three earlier credit notes of vendor [v1], of -100 each, and a credit
    note of -500. *)
Definition three_credits : list FraudDetection.Invoice :=
  [Examples.plain_invoice "h1" "INV-A" (-100) "v1";
   Examples.plain_invoice "h2" "INV-B" (-100) "v1";
   Examples.plain_invoice "h3" "INV-C" (-100) "v1"].

Definition larger_credit : FraudDetection.Invoice :=
  Examples.plain_invoice "n" "INV-D" (-500) "v1".

(** Requests for a three-way match without invoice lines: an extracted
    invoice whose vendor name was not found, the same invoice with the
    name of the vendor, and the order. *)
Definition unnamed_invoice : MatchRequest.RawDoc :=
  MatchRequest.mkRawDoc (Some (FraudScore.v_str "PO-1001"))
    (Some FraudScore.v_null) [].

Definition named_invoice : MatchRequest.RawDoc :=
  MatchRequest.mkRawDoc (Some (FraudScore.v_str "PO-1001"))
    (Some (FraudScore.v_str "ACME Corp")) [].

Definition acme_order : MatchRequest.RawDoc :=
  MatchRequest.mkRawDoc (Some (FraudScore.v_str "PO-1001"))
    (Some (FraudScore.v_str "Acme Corp"))
    [Examples.line "Blue Widget" 2 10].

(** A rendering of numbers, for requests that hold none. *)
Definition no_number (x : Q) : string := "0".

(** An order of the same vendor for other goods, at other prices. *)
Definition gaskets_po : InvoiceML.Doc :=
  InvoiceML.mkDoc None (Some "PO-1001") (Some "Acme Corp") None None None
    [Examples.line "Rubber Gasket 40mm" 5 3].

End MoreExamples.

(** ** Facts about the Python primitives *)

Module PyFacts.

Local Open Scope Q_scope.

Lemma ltb_lt (x y : Q) : Py.ltb x y = true <-> x < y.
Proof.
  unfold Py.ltb. rewrite negb_true_iff, <- not_true_iff_false, Qle_bool_iff.
  split; [apply Qnot_le_lt | apply Qlt_not_le].
Qed.

Lemma ltb_ge (x y : Q) : Py.ltb x y = false <-> y <= x.
Proof.
  unfold Py.ltb. rewrite negb_false_iff. apply Qle_bool_iff.
Qed.

Lemma leb_le (x y : Q) : Py.leb x y = true <-> x <= y.
Proof. apply Qle_bool_iff. Qed.

Lemma leb_gt (x y : Q) : Py.leb x y = false <-> y < x.
Proof.
  unfold Py.leb. rewrite <- not_true_iff_false, Qle_bool_iff.
  split; [apply Qnot_le_lt | apply Qlt_not_le].
Qed.

(** Case analysis on a comparison, with the order fact in the context. *)
Ltac cases_ltb x y :=
  let H := fresh "Hlt" in
  destruct (Py.ltb x y) eqn:H;
  [apply ltb_lt in H | apply ltb_ge in H].

Ltac cases_leb x y :=
  let H := fresh "Hle" in
  destruct (Py.leb x y) eqn:H;
  [apply leb_le in H | apply leb_gt in H].

Lemma min_Qmin (a b : Q) : Py.min a b == Qmin b a.
Proof.
  unfold Py.min. cases_ltb b a.
  - symmetry. apply Q.min_l. lra.
  - symmetry. apply Q.min_r. lra.
Qed.

Lemma max_Qmax (a b : Q) : Py.max a b == Qmax a b.
Proof.
  unfold Py.max. cases_ltb a b.
  - symmetry. apply Q.max_r. lra.
  - symmetry. apply Q.max_l. lra.
Qed.

Lemma min_cases (a b : Q) : (b < a /\ Py.min a b = b) \/ (a <= b /\ Py.min a b = a).
Proof. unfold Py.min. cases_ltb b a; auto. Qed.

(** A quotient of a non-negative number by a positive one. *)
Lemma div_nonneg (x y : Q) : 0 <= x -> 0 < y -> 0 <= x / y.
Proof.
  intros Hx Hy. unfold Qdiv. apply Qmult_le_0_compat; [exact Hx |].
  apply Qlt_le_weak, Qinv_lt_0_compat, Hy.
Qed.

(** A set that [Py.nonempty] rejects shares nothing with another set. *)
Lemma card_inter_empty_l (a b : gset string) :
  Py.nonempty a = false -> Py.card (a ∩ b) = inject_Z 0.
Proof.
  unfold Py.nonempty, Py.card. intros H.
  apply negb_false_iff, Nat.eqb_eq in H.
  assert (Hle : (size (a ∩ b) <= size a)%nat)
    by apply subseteq_size, intersection_subseteq_l.
  replace (size (a ∩ b)) with 0%nat by lia. reflexivity.
Qed.

Lemma card_inter_empty_r (a b : gset string) :
  Py.nonempty b = false -> Py.card (a ∩ b) = inject_Z 0.
Proof.
  unfold Py.nonempty, Py.card. intros H.
  apply negb_false_iff, Nat.eqb_eq in H.
  assert (Hle : (size (a ∩ b) <= size b)%nat)
    by apply subseteq_size, intersection_subseteq_r.
  replace (size (a ∩ b)) with 0%nat by lia. reflexivity.
Qed.

(** The sum of a list, by the head. *)
Lemma sum_fold (l : list Q) (acc : Q) : fold_left Qplus l acc == acc + Py.sum l.
Proof.
  unfold Py.sum. revert acc.
  induction l as [| x l IH]; intros acc; simpl.
  - lra.
  - rewrite (IH (acc + x)), (IH (0 + x)). lra.
Qed.

Lemma sum_cons (x : Q) (l : list Q) : Py.sum (x :: l) == x + Py.sum l.
Proof. unfold Py.sum at 1. simpl. rewrite sum_fold. lra. Qed.

End PyFacts.

(** ** The fuzzy matcher and the three-way match *)

Module MatchingFacts.

Import InvoiceML.
Local Open Scope string_scope.
Local Open Scope list_scope.
Local Open Scope Q_scope.

(** When one of the token sets is empty the Jaccard similarity is zero,
    which is what the fall-through branch of the code answers. *)
Lemma jaccard_empty (a b : gset string) :
  Py.nonempty a && Py.nonempty b = false -> Spec.jaccard a b == 0.
Proof.
  intros H. unfold Spec.jaccard.
  apply andb_false_iff in H as [H | H].
  - rewrite (PyFacts.card_inter_empty_l a b H). unfold Qdiv. ring.
  - rewrite (PyFacts.card_inter_empty_r a b H). unfold Qdiv. ring.
Qed.

(** The Jaccard similarity lies in the unit interval. *)
Lemma jaccard_range (a b : gset string) : 0 <= Spec.jaccard a b <= 1.
Proof.
  unfold Spec.jaccard, Py.card.
  assert (Hle : (size (a ∩ b) <= size (a ∪ b))%nat).
  { apply subseteq_size. intros x Hx. apply elem_of_union. left.
    apply elem_of_intersection in Hx. apply Hx. }
  destruct (size (a ∪ b)) as [| u] eqn:Eu.
  - replace (size (a ∩ b)) with 0%nat by lia. split; discriminate.
  - assert (Hpos : 0 < inject_Z (Z.of_nat (S u)))
      by (change 0 with (inject_Z 0); rewrite <- Zlt_Qlt; lia).
    split.
    + apply Qle_shift_div_l; [exact Hpos |].
      rewrite Qmult_0_l. change 0 with (inject_Z 0). rewrite <- Zle_Qle. lia.
    + apply Qle_shift_div_r; [exact Hpos |].
      rewrite Qmult_1_l, <- Zle_Qle. lia.
Qed.

Lemma ltb_zero_threshold (x : Q) : x == 0 -> Py.ltb 0.6 x = false.
Proof. intros H. apply PyFacts.ltb_ge. rewrite H. lra. Qed.

(** [_match_vendor] on two vendor names is the fuzzy matcher. *)
Lemma match_vendor_fuzzy (inv po : Doc) :
  matched (_match_vendor inv po)
  = Spec.fuzzy_match (Py.get (vendor_name inv) "") (Py.get (vendor_name po) "")
  /\ confidence (_match_vendor inv po)
     == Spec.similarity (Py.get (vendor_name inv) "") (Py.get (vendor_name po) "").
Proof.
  unfold _match_vendor, Spec.fuzzy_match, Spec.similarity, Spec.normalize,
    Spec.token_set.
  destruct (String.eqb _ _); [split; reflexivity |].
  destruct (Py.nonempty _ && Py.nonempty _) eqn:Hne; simpl.
  - split; reflexivity.
  - apply jaccard_empty in Hne. split.
    + symmetry. apply ltb_zero_threshold, Hne.
    + symmetry. exact Hne.
Qed.

Lemma truthy_nonempty (d : string) : d <> "" -> Py.truthy Py.truthy_str (Some d) = true.
Proof.
  intros H. simpl. unfold Py.truthy_str.
  destruct (String.eqb d "") eqn:E; [apply String.eqb_eq in E; contradiction |].
  reflexivity.
Qed.

(** [_descriptions_match] on two descriptions that are not empty is the
    fuzzy matcher. *)
Lemma descriptions_match_fuzzy (d1 d2 : string) :
  d1 <> "" -> d2 <> "" ->
  _descriptions_match (Some d1) (Some d2) = Spec.fuzzy_match d1 d2.
Proof.
  intros H1 H2. unfold _descriptions_match.
  rewrite (truthy_nonempty d1 H1), (truthy_nonempty d2 H2). simpl.
  unfold Spec.fuzzy_match, Spec.similarity, Spec.normalize, Spec.token_set.
  destruct (String.eqb _ _); [reflexivity |].
  destruct (Py.nonempty _ && Py.nonempty _) eqn:Hne; [reflexivity |].
  apply jaccard_empty in Hne. symmetry. apply ltb_zero_threshold, Hne.
Qed.

(** A description that is missing or empty matches nothing. *)
Lemma descriptions_match_empty (d : option string) :
  _descriptions_match None d = false
  /\ _descriptions_match (Some "") d = false
  /\ _descriptions_match d None = false
  /\ _descriptions_match d (Some "") = false.
Proof.
  unfold _descriptions_match. repeat split; try reflexivity.
  - destruct (negb (Py.truthy Py.truthy_str d)); reflexivity.
  - destruct (negb (Py.truthy Py.truthy_str d)); reflexivity.
Qed.




(** *** Line scores *)

(** Reads the fields of a line match that is given by its constructor. *)
Ltac line_fields :=
  cbv beta iota zeta delta [price_variance quantity_variance lm_match_score].

Lemma abs_div_nonneg (x y : Q) : 0 < y -> 0 <= Qabs x / y.
Proof. intros H. apply PyFacts.div_nonneg; [apply Qabs_nonneg | exact H]. Qed.

(** The variances of a matched line are not negative. *)
Lemma match_line_variances (po_lines grn_lines : list LineItem) (inv_line : LineItem) :
  0 <= price_variance (match_line po_lines grn_lines inv_line)
  /\ 0 <= quantity_variance (match_line po_lines grn_lines inv_line).
Proof.
  unfold match_line.
  destruct (find _ po_lines) as [po_line |]; [| line_fields; split; lra].
  destruct (find _ grn_lines) as [grn_line |]; line_fields.
  - split.
    + PyFacts.cases_ltb 0 (Py.get (unit_price po_line) 0);
        [apply abs_div_nonneg; assumption | lra].
    + PyFacts.cases_ltb 0 (Py.get (quantity grn_line) 0);
        [apply abs_div_nonneg; assumption | lra].
  - split; [| lra].
    PyFacts.cases_ltb 0 (Py.get (unit_price po_line) 0);
      [apply abs_div_nonneg; assumption | lra].
Qed.

(** The score of a line from its variances, as the code computes it. *)
Lemma match_line_score_eq (po_lines grn_lines : list LineItem) (inv_line : LineItem) :
  lm_match_score (match_line po_lines grn_lines inv_line)
  = Py.max
      ((if Py.ltb 0 (quantity_variance (match_line po_lines grn_lines inv_line))
        then fun s => s - Py.min (quantity_variance (match_line po_lines grn_lines inv_line) * 100) 30
        else fun s => s)
         (if Py.ltb 0 (price_variance (match_line po_lines grn_lines inv_line))
          then 100 - Py.min (price_variance (match_line po_lines grn_lines inv_line) * 100) 30
          else 100))
      0.
Proof.
  unfold match_line.
  destruct (find _ po_lines) as [po_line |]; [| reflexivity].
  destruct (find _ grn_lines) as [grn_line |]; line_fields.
  - destruct (Py.ltb 0 (if Py.ltb 0 (Py.get (quantity grn_line) 0) then _ else _));
      reflexivity.
  - reflexivity.
Qed.

(** The penalty of a variance that is not negative. *)
Lemma penalty_Qmin (v s : Q) :
  0 <= v ->
  (if Py.ltb 0 v then s - Py.min (v * 100) 30 else s) == s - Qmin 30 (v * 100).
Proof.
  intros Hv. PyFacts.cases_ltb 0 v.
  - rewrite PyFacts.min_Qmin. reflexivity.
  - assert (E : v == 0) by lra.
    destruct (Q.min_spec 30 (v * 100)) as [[? Hm] | [? Hm]]; rewrite Hm; lra.
Qed.

(** Every line score is [100] minus the two capped penalties, floored at
    zero. *)
Lemma match_line_per_line_score (po_lines grn_lines : list LineItem)
    (inv_line : LineItem) :
  lm_match_score (match_line po_lines grn_lines inv_line)
  == Spec.per_line_score
       (price_variance (match_line po_lines grn_lines inv_line))
       (quantity_variance (match_line po_lines grn_lines inv_line)).
Proof.
  rewrite match_line_score_eq.
  destruct (match_line_variances po_lines grn_lines inv_line) as [Hp Hq].
  set (pv := price_variance _) in *. set (qv := quantity_variance _) in *.
  unfold Spec.per_line_score.
  rewrite PyFacts.max_Qmax, Q.max_comm.
  apply Q.max_compat; [reflexivity |].
  pose proof (penalty_Qmin pv 100 Hp) as E1.
  assert (E2 : (if Py.ltb 0 qv then fun s : Q => s - Py.min (qv * 100) 30
                else fun s : Q => s)
                 (if Py.ltb 0 pv then 100 - Py.min (pv * 100) 30 else 100)
               == (if Py.ltb 0 pv then 100 - Py.min (pv * 100) 30 else 100)
                  - Qmin 30 (qv * 100)).
  { pose proof (penalty_Qmin qv
                  (if Py.ltb 0 pv then 100 - Py.min (pv * 100) 30 else 100) Hq) as E.
    destruct (Py.ltb 0 qv); exact E. }
  rewrite E2, E1. reflexivity.
Qed.

(** A line without any variance scores [100]. *)
Lemma per_line_score_zero (pv qv : Q) :
  pv == 0 -> qv == 0 -> Spec.per_line_score pv qv == 100.
Proof.
  intros Hp Hq. unfold Spec.per_line_score.
  destruct (Q.min_spec 30 (pv * 100)) as [[? Hm1] | [? Hm1]];
    destruct (Q.min_spec 30 (qv * 100)) as [[? Hm2] | [? Hm2]];
    try lra.
  destruct (Q.max_spec 0 (100 - Qmin 30 (pv * 100) - Qmin 30 (qv * 100)))
    as [[? Hx] | [? Hx]]; lra.
Qed.

(** A line that agrees with the order and the receipt has no variance. *)
Lemma line_agrees_no_variance (po_lines grn_lines : list LineItem)
    (inv_line : LineItem) :
  Spec.line_agrees po_lines grn_lines inv_line ->
  price_variance (match_line po_lines grn_lines inv_line) == 0
  /\ quantity_variance (match_line po_lines grn_lines inv_line) == 0.
Proof.
  intros (po_line & grn_line & Hpo & Hgrn & Hprice & Hqty).
  unfold match_line. cbv zeta in Hpo, Hgrn. rewrite Hpo, Hgrn. line_fields.
  assert (Hz : forall a b c : Q, a == b ->
            (if Py.ltb 0 c then Qabs (a - b) / c else 0) == 0).
  { intros a b c E. destruct (Py.ltb 0 c); [| reflexivity].
    assert (E0 : a - b == 0) by lra.
    rewrite E0. change (Qabs 0) with 0. unfold Qdiv. ring. }
  split; apply Hz; assumption.
Qed.

Lemma len_cons {A : Type} (x : A) (l : list A) : Py.len (x :: l) == 1 + Py.len l.
Proof.
  unfold Py.len. simpl length. rewrite Nat2Z.inj_succ, <- Z.add_1_l, inject_Z_plus.
  reflexivity.
Qed.

Lemma len_nonneg {A : Type} (l : list A) : 0 <= Py.len l.
Proof. unfold Py.len. change 0 with (inject_Z 0). rewrite <- Zle_Qle. lia. Qed.

(** The sum of scores that are all equal. *)
Lemma sum_const (c : Q) (l : list Q) :
  Forall (fun x => x == c) l -> Py.sum l == c * Py.len l.
Proof.
  induction 1 as [| x l Hx _ IH].
  - unfold Py.sum, Py.len. simpl. ring.
  - rewrite PyFacts.sum_cons, len_cons, IH, Hx. ring.
Qed.

Lemma mean_const (c : Q) (l : list Q) :
  l <> [] -> Forall (fun x => x == c) l -> Py.sum l / Py.len l == c.
Proof.
  intros Hne Hall. rewrite (sum_const c l Hall).
  assert (Hpos : 0 < Py.len l).
  { destruct l as [| x l]; [contradiction |].
    rewrite len_cons. pose proof (len_nonneg l). lra. }
  field. lra.
Qed.

(** *** The result of [perform_three_way_match] *)

Lemma three_way_result (inv po grn : Doc) (tol : Q) (clk : Py.Clock) :
  line_matches (Spec.match_result inv po grn tol clk)
  = map (match_line (line_items po) (line_items grn)) (line_items inv)
  /\ match_score (Spec.match_result inv po grn tol clk)
     == 0.3 * Spec.header_score inv po
        + 0.7 * Spec.mean_line_score (line_matches (Spec.match_result inv po grn tol clk))
  /\ overall_match (Spec.match_result inv po grn tol clk)
     = matched (_match_po_number inv po) && matched (_match_vendor inv po)
       && negb (Py.ltb (match_score (Spec.match_result inv po grn tol clk)) 90)
  /\ status (Spec.match_result inv po grn tol clk)
     = (if overall_match (Spec.match_result inv po grn tol clk)
        then status_matched else status_exception)
  /\ processed_at (Spec.match_result inv po grn tol clk) = clk 0%nat.
Proof.
  unfold Spec.match_result, perform_three_way_match, Spec.header_score,
    Spec.mean_line_score, _match_line_items.
  destruct (matched (_match_po_number inv po));
    destruct (matched (_match_vendor inv po));
    cbv beta iota zeta delta
      [Py.run Py.bind Py.now Py.ret fst negb andb
       line_matches match_score overall_match status processed_at];
    (split; [reflexivity |]);
    (split; [unfold line_score; ring |]);
    (split; [| split; reflexivity]);
    try reflexivity;
    destruct (Py.ltb _ 90); reflexivity.
Qed.

(** The header score is one of four values. *)
Lemma header_score_range (inv po : Doc) :
  65 <= Spec.header_score inv po <= 100
  /\ (matched (_match_po_number inv po) = true ->
      matched (_match_vendor inv po) = true -> Spec.header_score inv po == 100).
Proof.
  unfold Spec.header_score.
  destruct (matched (_match_po_number inv po));
    destruct (matched (_match_vendor inv po));
    (split; [lra | intros; try discriminate; lra]).
Qed.

Lemma line_scores_formula (po_lines grn_lines inv_lines : list LineItem) :
  Forall (fun lm => lm_match_score lm
                    == Spec.per_line_score (price_variance lm) (quantity_variance lm))
         (map (match_line po_lines grn_lines) inv_lines).
Proof.
  apply Forall_map, Forall_forall. intros inv_line _.
  apply match_line_per_line_score.
Qed.

(** The mean line score of lines that all agree with the order and the
    receipt. *)
Lemma mean_of_agreeing_lines (po_lines grn_lines inv_lines : list LineItem) :
  inv_lines <> [] ->
  Forall (Spec.line_agrees po_lines grn_lines) inv_lines ->
  Spec.mean_line_score (map (match_line po_lines grn_lines) inv_lines) == 100.
Proof.
  intros Hne Hagree.
  assert (Hall : Forall (fun x => x == 100)
                   (map lm_match_score (map (match_line po_lines grn_lines) inv_lines))).
  { apply Forall_map, Forall_map, Forall_forall. intros inv_line Hin.
    rewrite Forall_forall in Hagree.
    rewrite match_line_per_line_score.
    destruct (line_agrees_no_variance _ _ _ (Hagree inv_line Hin)) as [Hp Hq].
    apply per_line_score_zero; assumption. }
  assert (Hne' : map lm_match_score (map (match_line po_lines grn_lines) inv_lines) <> [])
    by (destruct inv_lines; [contradiction | discriminate]).
  unfold Spec.mean_line_score.
  destruct (map (match_line po_lines grn_lines) inv_lines) as [| lm lms];
    [contradiction |].
  unfold Py.len. rewrite <- (length_map lm_match_score).
  apply mean_const; assumption.
Qed.

(** C2, as stated, fails: for an invoice without lines every line agrees
    with the order and the receipt, the order number and the vendor match,
    and the score is [30] with status [exception]. *)
Lemma no_lines_counterexample :
  matched (_match_po_number Examples.no_lines_invoice Examples.no_lines_po) = true
  /\ matched (_match_vendor Examples.no_lines_invoice Examples.no_lines_po) = true
  /\ Forall (Spec.line_agrees (line_items Examples.no_lines_po)
               (line_items Examples.no_lines_po))
       (line_items Examples.no_lines_invoice)
  /\ match_score (Spec.match_result Examples.no_lines_invoice Examples.no_lines_po
                    Examples.no_lines_po 0.05 Examples.epoch_clock) == 30
  /\ ~ match_score (Spec.match_result Examples.no_lines_invoice Examples.no_lines_po
                      Examples.no_lines_po 0.05 Examples.epoch_clock) == 100
  /\ status (Spec.match_result Examples.no_lines_invoice Examples.no_lines_po
               Examples.no_lines_po 0.05 Examples.epoch_clock) = status_exception.
Proof.
  split; [reflexivity |]. split; [reflexivity |].
  split; [constructor |].
  split; [reflexivity |]. split; [discriminate | reflexivity].
Qed.

(** C2, amended: the overall score is 0.3 times the header score (100
    minus 20 for the order number and minus 15 for the vendor) plus 0.7
    times the mean line score, the mean of no line being 0, and each line
    score is 100 - min(30, price variance x 100) - min(30, quantity
    variance x 100), floored at 0; when the invoice has at least one
    line, the order numbers are equal, the vendor names match and every
    invoice line has the unit price of the order line and the quantity of
    the receipt line that it is matched to, the score is 100 and the
    status is [matched]. *)
Theorem three_way_match_score (inv po grn : Doc) (tol : Q) (clk : Py.Clock) :
  (match_score (Spec.match_result inv po grn tol clk)
   == 0.3 * Spec.header_score inv po
      + 0.7 * Spec.mean_line_score (line_matches (Spec.match_result inv po grn tol clk))
   /\ Forall (fun lm => lm_match_score lm
                        == Spec.per_line_score (price_variance lm)
                             (quantity_variance lm))
        (line_matches (Spec.match_result inv po grn tol clk)))
  /\ (line_items inv <> [] ->
      matched (_match_po_number inv po) = true ->
      matched (_match_vendor inv po) = true ->
      Forall (Spec.line_agrees (line_items po) (line_items grn)) (line_items inv) ->
      match_score (Spec.match_result inv po grn tol clk) == 100
      /\ status (Spec.match_result inv po grn tol clk) = status_matched).
Proof.
  destruct (three_way_result inv po grn tol clk)
    as (Hlines & Hscore & Hoverall & Hstatus & _).
  split.
  - split; [exact Hscore |]. rewrite Hlines. apply line_scores_formula.
  - intros Hne Hpo Hvendor Hagree.
    assert (Hmean : Spec.mean_line_score
                      (line_matches (Spec.match_result inv po grn tol clk)) == 100)
      by (rewrite Hlines; apply mean_of_agreeing_lines; assumption).
    destruct (header_score_range inv po) as [_ Hheader].
    specialize (Hheader Hpo Hvendor).
    assert (H100 : match_score (Spec.match_result inv po grn tol clk) == 100)
      by (rewrite Hscore, Hmean, Hheader; reflexivity).
    split; [exact H100 |].
    rewrite Hstatus, Hoverall, Hpo, Hvendor.
    assert (Hge : Py.ltb (match_score (Spec.match_result inv po grn tol clk)) 90 = false)
      by (apply PyFacts.ltb_ge; rewrite H100; lra).
    rewrite Hge. reflexivity.
Qed.

Lemma widgets_lines_agree :
  Forall (Spec.line_agrees (line_items Examples.widgets_po)
            (line_items Examples.widgets_grn))
         (line_items Examples.widgets_invoice).
Proof.
  repeat constructor.
  - exists (Examples.line "blue widget" 2 10), (Examples.line "Blue widget" 2 10).
    repeat split.
  - exists (Examples.line "steel bolt m8" 100 1), (Examples.line "Steel bolt M8" 100 1).
    repeat split.
Defined.

Lemma three_way_match_score_witness :
  match_score (Spec.match_result Examples.widgets_invoice Examples.widgets_po
                 Examples.widgets_grn 0.05 Examples.epoch_clock) == 100
  /\ status (Spec.match_result Examples.widgets_invoice Examples.widgets_po
               Examples.widgets_grn 0.05 Examples.epoch_clock) = status_matched.
Proof.
  apply (three_way_match_score Examples.widgets_invoice Examples.widgets_po
           Examples.widgets_grn 0.05 Examples.epoch_clock).
  - discriminate.
  - reflexivity.
  - reflexivity.
  - exact widgets_lines_agree.
Defined.

(** *** A request as it arrives *)

(** [.lower()] succeeds on a text and on an absent key, and on nothing
    else. *)
Lemma lower_strip_text (field : option FraudScore.Value) :
  if Terms.text_or_absent field
  then exists s, MatchRequest.lower_strip field = inr s
  else MatchRequest.lower_strip field = inl FraudScore.AttributeError.
Proof.
  destruct field as [[| b | x | s] |]; cbn; eauto.
Qed.

(** The vendor match of a request raises exactly when one of the two
    names is neither a text nor absent. *)
Lemma match_vendor_outcome (inv po : MatchRequest.RawDoc) :
  if Terms.text_or_absent (MatchRequest.vendor_name inv)
     && Terms.text_or_absent (MatchRequest.vendor_name po)
  then exists m, MatchRequest._match_vendor inv po = inr m
  else MatchRequest._match_vendor inv po = inl FraudScore.AttributeError.
Proof.
  unfold MatchRequest._match_vendor.
  pose proof (lower_strip_text (MatchRequest.vendor_name inv)) as Hinv.
  pose proof (lower_strip_text (MatchRequest.vendor_name po)) as Hpo.
  destruct (Terms.text_or_absent (MatchRequest.vendor_name inv)).
  - destruct Hinv as (s1 & ->).
    destruct (Terms.text_or_absent (MatchRequest.vendor_name po)); cbn [andb].
    + destruct Hpo as (s2 & ->).
      destruct (String.eqb s1 s2); [eauto |].
      destruct (Py.nonempty _ && Py.nonempty _); eauto.
    + rewrite Hpo. reflexivity.
  - rewrite Hinv. reflexivity.
Qed.

(** The outcome of a request: the exception of the vendor match, or the
    result with its score and its status. *)
Lemma request_outcome (str_num : Q -> string) (inv po grn : MatchRequest.RawDoc)
    (tol : Q) (clk : Py.Clock) :
  match MatchRequest._match_vendor inv po with
  | inl e =>
      Py.run (MatchRequest.perform_three_way_match str_num inv po grn tol) clk = inl e
  | inr m =>
      exists r,
        Py.run (MatchRequest.perform_three_way_match str_num inv po grn tol) clk = inr r
        /\ MatchRequest.line_matches r
           = map (match_line (MatchRequest.line_items po) (MatchRequest.line_items grn))
               (MatchRequest.line_items inv)
        /\ MatchRequest.match_score r
           == 0.3 * Terms.header_points
                      (matched (MatchRequest._match_po_number str_num inv po))
                      (matched m)
              + 0.7 * Spec.mean_line_score (MatchRequest.line_matches r)
        /\ MatchRequest.status r
           = (if matched (MatchRequest._match_po_number str_num inv po) && matched m
                 && negb (Py.ltb (MatchRequest.match_score r) 90)
              then status_matched else status_exception)
  end.
Proof.
  unfold MatchRequest.perform_three_way_match, Terms.header_points,
    Spec.mean_line_score, _match_line_items.
  destruct (MatchRequest._match_vendor inv po) as [e | m];
    [destruct (matched (MatchRequest._match_po_number str_num inv po)); reflexivity |].
  destruct (matched (MatchRequest._match_po_number str_num inv po));
    destruct (matched m);
    cbv beta iota zeta delta [Py.run Py.bind Py.now Py.ret fst negb andb];
    eexists; (split; [reflexivity |]);
    cbv beta iota zeta delta
      [MatchRequest.line_matches MatchRequest.match_score MatchRequest.status];
    (split; [reflexivity |]);
    (split; [unfold line_score; ring |]);
    try reflexivity;
    destruct (Py.ltb _ 90); reflexivity.
Qed.

(** C10, as stated, fails: the extraction step stores [None] for a vendor
    name that it does not find, [.lower()] raises on it, and the request,
    whose invoice has no line, returns the error dictionary, which has
    neither a score nor a status. *)
Lemma unnamed_vendor_counterexample :
  MatchRequest.line_items MoreExamples.unnamed_invoice = []
  /\ Py.run (MatchRequest.perform_three_way_match MoreExamples.no_number
               MoreExamples.unnamed_invoice MoreExamples.acme_order
               MoreExamples.acme_order 0.05) Examples.epoch_clock
     = inl FraudScore.AttributeError
  /\ ~ exists r,
         Py.run (MatchRequest.perform_three_way_match MoreExamples.no_number
                   MoreExamples.unnamed_invoice MoreExamples.acme_order
                   MoreExamples.acme_order 0.05) Examples.epoch_clock
         = inr r
         /\ MatchRequest.status r = status_exception.
Proof.
  split; [reflexivity |]. split; [reflexivity |].
  intros (r & H & _). discriminate H.
Qed.

(** C10, amended: a request whose invoice has no line and whose two vendor
    names are texts or absent has mean line score 0, so its match score
    is 0.3 times the header score, at most 30, and its status is
    [exception], whatever the order numbers and the vendor names; a
    request in which a vendor name is present and not a text returns the
    error dictionary, without score and status. *)
Theorem empty_invoice_is_exception (str_num : Q -> string)
    (inv po grn : MatchRequest.RawDoc) (tol : Q) (clk : Py.Clock) :
  MatchRequest.line_items inv = [] ->
  (Terms.text_or_absent (MatchRequest.vendor_name inv)
   && Terms.text_or_absent (MatchRequest.vendor_name po) = true ->
   exists r m,
     Py.run (MatchRequest.perform_three_way_match str_num inv po grn tol) clk = inr r
     /\ MatchRequest._match_vendor inv po = inr m
     /\ Spec.mean_line_score (MatchRequest.line_matches r) = 0
     /\ MatchRequest.match_score r
        == 0.3 * Terms.header_points
                   (matched (MatchRequest._match_po_number str_num inv po))
                   (matched m)
     /\ MatchRequest.match_score r <= 30
     /\ MatchRequest.status r = status_exception)
  /\ (Terms.text_or_absent (MatchRequest.vendor_name inv)
      && Terms.text_or_absent (MatchRequest.vendor_name po) = false ->
      Py.run (MatchRequest.perform_three_way_match str_num inv po grn tol) clk
      = inl FraudScore.AttributeError).
Proof.
  intros Hempty.
  pose proof (match_vendor_outcome inv po) as Hvendor.
  pose proof (request_outcome str_num inv po grn tol clk) as Hout.
  split; intros Htext; rewrite Htext in Hvendor.
  - destruct Hvendor as (m & Hm). rewrite Hm in Hout.
    destruct Hout as (r & Hrun & Hlines & Hscore & Hstatus).
    rewrite Hempty in Hlines. cbn [map] in Hlines.
    rewrite Hlines in Hscore. unfold Spec.mean_line_score in Hscore.
    assert (E : MatchRequest.match_score r
                == 0.3 * Terms.header_points
                           (matched (MatchRequest._match_po_number str_num inv po))
                           (matched m))
      by (rewrite Hscore; ring).
    assert (H30 : MatchRequest.match_score r <= 30).
    { rewrite E. unfold Terms.header_points.
      destruct (matched (MatchRequest._match_po_number str_num inv po));
        destruct (matched m); lra. }
    exists r, m. split; [exact Hrun |]. split; [exact Hm |].
    split; [rewrite Hlines; reflexivity |].
    split; [exact E |]. split; [exact H30 |].
    rewrite Hstatus.
    assert (Hlt : Py.ltb (MatchRequest.match_score r) 90 = true)
      by (apply PyFacts.ltb_lt; lra).
    rewrite Hlt, andb_false_r. reflexivity.
  - rewrite Hvendor in Hout. exact Hout.
Qed.

Lemma empty_invoice_is_exception_witness :
  (exists r,
     Py.run (MatchRequest.perform_three_way_match MoreExamples.no_number
               MoreExamples.named_invoice MoreExamples.acme_order
               MoreExamples.acme_order 0.05) Examples.epoch_clock = inr r
     /\ MatchRequest.match_score r <= 30
     /\ MatchRequest.status r = status_exception)
  /\ Py.run (MatchRequest.perform_three_way_match MoreExamples.no_number
               MoreExamples.unnamed_invoice MoreExamples.acme_order
               MoreExamples.acme_order 0.05) Examples.epoch_clock
     = inl FraudScore.AttributeError.
Proof.
  split.
  - destruct (empty_invoice_is_exception MoreExamples.no_number
                MoreExamples.named_invoice MoreExamples.acme_order
                MoreExamples.acme_order 0.05 Examples.epoch_clock)
      as [H _]; [reflexivity |].
    destruct H as (r & m & Hrun & _ & _ & _ & Hle & Hst); [reflexivity |].
    exists r. split; [exact Hrun |]. split; [exact Hle | exact Hst].
  - destruct (empty_invoice_is_exception MoreExamples.no_number
                MoreExamples.unnamed_invoice MoreExamples.acme_order
                MoreExamples.acme_order 0.05 Examples.epoch_clock)
      as [_ H]; [reflexivity |].
    apply H. reflexivity.
Defined.

(** On documents whose order number and vendor name are texts or absent
    the request never raises, and it returns the score, the status and the
    line matches of [InvoiceML.perform_three_way_match]. *)
Lemma match_po_number_of_doc (str_num : Q -> string) (inv po : Doc) :
  MatchRequest._match_po_number str_num (MatchRequest.of_doc inv)
    (MatchRequest.of_doc po)
  = _match_po_number inv po.
Proof.
  unfold MatchRequest._match_po_number, _match_po_number, MatchRequest.of_doc,
    MatchRequest.str_.
  cbn [MatchRequest.po_number].
  destruct (po_number inv); destruct (po_number po); reflexivity.
Qed.

Lemma match_vendor_of_doc (inv po : Doc) :
  MatchRequest._match_vendor (MatchRequest.of_doc inv) (MatchRequest.of_doc po)
  = inr (_match_vendor inv po).
Proof.
  unfold MatchRequest._match_vendor, _match_vendor, MatchRequest.of_doc,
    MatchRequest.lower_strip.
  cbn [MatchRequest.vendor_name].
  destruct (vendor_name inv); destruct (vendor_name po);
    cbv beta iota zeta delta [option_map Py.get];
    repeat match goal with |- context [if ?c then _ else _] => destruct c end;
    reflexivity.
Qed.

Lemma request_of_docs (str_num : Q -> string) (inv po grn : Doc) (tol : Q)
    (clk : Py.Clock) :
  exists r,
    Py.run (MatchRequest.perform_three_way_match str_num (MatchRequest.of_doc inv)
              (MatchRequest.of_doc po) (MatchRequest.of_doc grn) tol) clk
    = inr r
    /\ MatchRequest.match_score r = match_score (Spec.match_result inv po grn tol clk)
    /\ MatchRequest.overall_match r
       = overall_match (Spec.match_result inv po grn tol clk)
    /\ MatchRequest.status r = status (Spec.match_result inv po grn tol clk)
    /\ MatchRequest.line_matches r
       = line_matches (Spec.match_result inv po grn tol clk)
    /\ MatchRequest.po_match r = po_match (Spec.match_result inv po grn tol clk)
    /\ MatchRequest.processed_at r
       = processed_at (Spec.match_result inv po grn tol clk).
Proof.
  unfold Spec.match_result, MatchRequest.perform_three_way_match,
    perform_three_way_match.
  rewrite match_po_number_of_doc, match_vendor_of_doc.
  destruct (matched (_match_po_number inv po));
    destruct (matched (_match_vendor inv po));
    cbv beta iota zeta delta [Py.run Py.bind Py.now Py.ret fst negb];
    eexists; (split; [reflexivity |]); repeat split.
Qed.

End MatchingFacts.

(** ** Duplicate detection *)

Module DuplicateFacts.

Import InvoiceML.
Local Open Scope string_scope.
Local Open Scope list_scope.
Local Open Scope Q_scope.

Section Detector.

Variable json_dumps : Canonical -> string.
Variable sha256_hexdigest : string -> string.

Local Abbreviation hash := (_calculate_invoice_hash json_dumps sha256_hexdigest).
Local Abbreviation step := (check_historical json_dumps sha256_hexdigest).
Local Abbreviation verdict := (Spec.duplicate_verdict json_dumps sha256_hexdigest).

(** One iteration only appends to the list, and what it appends does not
    depend on the list. *)
Lemma step_appends (inv hist_inv : Doc) (acc : list Candidate) :
  step inv acc hist_inv = acc ++ step inv [] hist_inv.
Proof.
  unfold check_historical.
  destruct (String.eqb _ _); [reflexivity |].
  destruct (field_score inv hist_inv) as [ms fields].
  destruct (Py.leb _ ms); [reflexivity | symmetry; apply app_nil_r].
Qed.

Lemma loop_flat_map (inv : Doc) (historical : list Doc) (acc : list Candidate) :
  fold_left (step inv) historical acc
  = acc ++ flat_map (step inv []) historical.
Proof.
  revert acc. induction historical as [| h hs IH]; intros acc; simpl.
  - symmetry. apply app_nil_r.
  - rewrite IH, (step_appends inv h acc), <- app_assoc. reflexivity.
Qed.

Lemma verdict_duplicates (inv : Doc) (historical : list Doc) (clk : Py.Clock) :
  duplicates (verdict inv historical clk) = flat_map (step inv []) historical
  /\ is_duplicate (verdict inv historical clk)
     = Nat.ltb 0 (length (duplicates (verdict inv historical clk)))
  /\ duplicate_count (verdict inv historical clk)
     = length (duplicates (verdict inv historical clk))
  /\ recommendation (verdict inv historical clk)
     = (if is_duplicate (verdict inv historical clk) then reject else approve)
  /\ checked_at (verdict inv historical clk) = clk 0%nat.
Proof.
  unfold Spec.duplicate_verdict, detect_duplicate.
  cbv beta iota zeta delta
    [Py.run Py.bind Py.now Py.ret fst duplicates is_duplicate duplicate_count
     recommendation checked_at].
  rewrite loop_flat_map. repeat split; reflexivity.
Qed.

(** Equal fields give equal hashes. *)
Lemma hash_same_fields (inv hist_inv : Doc) :
  invoice_number inv = invoice_number hist_inv ->
  vendor_name inv = vendor_name hist_inv ->
  total_amount inv = total_amount hist_inv ->
  invoice_date inv = invoice_date hist_inv ->
  hash inv = hash hist_inv.
Proof.
  intros Hn Hv Ha Hd. unfold _calculate_invoice_hash.
  rewrite Hn, Hv, Ha, Hd. reflexivity.
Qed.

(** The field score is one of five values, and reaches the threshold
    only at [100]. *)
Lemma field_score_values (inv hist_inv : Doc) :
  let ms := fst (field_score inv hist_inv) in
  ms = 0 \/ ms = 0 + 40 \/ ms = 0 + 20 \/ ms = 0 + 20 + 30 + 10
  \/ ms = 0 + 40 + 20 \/ ms = 0 + 40 + 20 + 30 + 10.
Proof.
  unfold field_score, _dates_close.
  destruct (Py.opt_eqb String.eqb (invoice_number inv) (invoice_number hist_inv));
    destruct (Py.opt_eqb String.eqb (vendor_name inv) (vendor_name hist_inv));
    destruct (Py.opt_eqb Qeq_bool (total_amount inv) (total_amount hist_inv));
    simpl; auto 10.
Qed.

Lemma field_score_threshold (inv hist_inv : Doc) :
  Py.leb (duplicate_threshold * 100) (fst (field_score inv hist_inv)) = true ->
  fst (field_score inv hist_inv) / 100 == 1.
Proof.
  intros H.
  destruct (field_score_values inv hist_inv) as [E | [E | [E | [E | [E | E]]]]];
    cbv zeta in E; rewrite E in *; try discriminate H; reflexivity.
Qed.

(** Every candidate that one iteration reports has confidence [1]. *)
Lemma step_confidence (inv hist_inv : Doc) :
  Forall (fun c => cand_confidence c == 1) (step inv [] hist_inv).
Proof.
  unfold check_historical.
  destruct (String.eqb _ _); [repeat constructor |].
  destruct (field_score inv hist_inv) as [ms fields] eqn:E.
  destruct (Py.leb _ ms) eqn:Hle; [| constructor].
  constructor; [| constructor]. simpl.
  pose proof (field_score_threshold inv hist_inv) as H.
  rewrite E in H. apply H, Hle.
Qed.

Lemma step_length (inv hist_inv : Doc) : (length (step inv [] hist_inv) <= 1)%nat.
Proof.
  unfold check_historical.
  destruct (String.eqb _ _); [simpl; lia |].
  destruct (field_score inv hist_inv) as [ms fields].
  destruct (Py.leb _ ms); simpl; lia.
Qed.

Lemma duplicates_confidence (inv : Doc) (historical : list Doc) (clk : Py.Clock) :
  Forall (fun c => cand_confidence c == 1) (duplicates (verdict inv historical clk)).
Proof.
  destruct (verdict_duplicates inv historical clk) as [-> _].
  induction historical as [| h hs IH]; simpl.
  - constructor.
  - apply Forall_app. split; [apply step_confidence | exact IH].
Qed.

Lemma duplicates_length (inv : Doc) (historical : list Doc) (clk : Py.Clock) :
  (length (duplicates (verdict inv historical clk)) <= length historical)%nat.
Proof.
  destruct (verdict_duplicates inv historical clk) as [-> _].
  induction historical as [| h hs IH]; simpl.
  - lia.
  - rewrite length_app. pose proof (step_length inv h). lia.
Qed.

End Detector.

(** A list whose elements are all equal to one value is in descending
    order. *)
Lemma constant_descending (c : Q) (l : list Q) :
  Forall (fun x => x == c) l -> Spec.descending l.
Proof.
  induction 1 as [| x l Hx Hl IH]; simpl; [exact I |].
  split; [| exact IH].
  eapply List.Forall_impl; [| exact Hl].
  intros y Hy. cbv beta in *. rewrite Hx, Hy. apply Qle_refl.
Qed.

(** C3, at the failing input: the invoice and a historical invoice with
    its number, vendor and amount are dated four years apart, the date
    check answers [true], the field score is 100 with the date among the
    matched fields, and the historical invoice is reported as a
    field-based duplicate. *)
Theorem dates_far_apart_score :
  invoice_date Examples.widgets_invoice = Some "2024-01-01"
  /\ invoice_date Examples.widgets_four_years_before = Some "2020-01-01"
  /\ _dates_close (invoice_date Examples.widgets_invoice)
       (invoice_date Examples.widgets_four_years_before) 7 = true
  /\ fst (field_score Examples.widgets_invoice Examples.widgets_four_years_before)
     == 100
  /\ snd (field_score Examples.widgets_invoice Examples.widgets_four_years_before)
     = ["invoice_number"; "vendor"; "amount"; "date"]
  /\ _calculate_invoice_hash Examples.join_fields Examples.identity_hash
       Examples.widgets_invoice
     <> _calculate_invoice_hash Examples.join_fields Examples.identity_hash
          Examples.widgets_four_years_before
  /\ map (fun c => (cand_invoice_id c, cand_match_type c, matched_fields c))
       (duplicates
          (Spec.duplicate_verdict Examples.join_fields Examples.identity_hash
             Examples.widgets_invoice [Examples.widgets_four_years_before]
             Examples.epoch_clock))
     = [(Some "inv-0", field_based, ["invoice_number"; "vendor"; "amount"; "date"])].
Proof.
  repeat split. discriminate.
Qed.

(** C4: an invoice equal to a historical record in number, vendor, amount
    and date is a duplicate, and the record is reported with match type
    [exact_hash] and confidence 1; whenever the hashes of the invoice and
    of a historical record are equal, the iteration on that record
    reports this candidate and no other, and the result lists what the
    iterations report, record by record. *)
Theorem exact_duplicate_reported (json_dumps : Canonical -> string)
    (sha256_hexdigest : string -> string) (inv hist_inv : Doc)
    (historical : list Doc) (clk : Py.Clock) :
  (In hist_inv historical ->
   invoice_number inv = invoice_number hist_inv ->
   vendor_name inv = vendor_name hist_inv ->
   total_amount inv = total_amount hist_inv ->
   invoice_date inv = invoice_date hist_inv ->
   is_duplicate (Spec.duplicate_verdict json_dumps sha256_hexdigest inv historical clk)
   = true
   /\ In (Spec.exact_candidate hist_inv)
        (duplicates
           (Spec.duplicate_verdict json_dumps sha256_hexdigest inv historical clk))
   /\ cand_invoice_id (Spec.exact_candidate hist_inv) = _id hist_inv
   /\ cand_match_type (Spec.exact_candidate hist_inv) = exact_hash
   /\ cand_confidence (Spec.exact_candidate hist_inv) = 1)
  /\ (_calculate_invoice_hash json_dumps sha256_hexdigest inv
      = _calculate_invoice_hash json_dumps sha256_hexdigest hist_inv ->
      forall acc : list Candidate,
        check_historical json_dumps sha256_hexdigest inv acc hist_inv
        = acc ++ [Spec.exact_candidate hist_inv])
  /\ duplicates
       (Spec.duplicate_verdict json_dumps sha256_hexdigest inv historical clk)
     = flat_map (check_historical json_dumps sha256_hexdigest inv []) historical.
Proof.
  assert (Hstep : _calculate_invoice_hash json_dumps sha256_hexdigest inv
                  = _calculate_invoice_hash json_dumps sha256_hexdigest hist_inv ->
                  forall acc : list Candidate,
                    check_historical json_dumps sha256_hexdigest inv acc hist_inv
                    = acc ++ [Spec.exact_candidate hist_inv]).
  { intros Hhash acc. unfold check_historical. rewrite Hhash, String.eqb_refl.
    reflexivity. }
  destruct (verdict_duplicates json_dumps sha256_hexdigest inv historical clk)
    as (Hdups & Hflag & _).
  split; [| split; assumption].
  intros Hin Hn Hv Ha Hd.
  pose proof (hash_same_fields json_dumps sha256_hexdigest inv hist_inv Hn Hv Ha Hd)
    as Hhash.
  assert (Hmem : In (Spec.exact_candidate hist_inv)
                   (duplicates (Spec.duplicate_verdict json_dumps sha256_hexdigest
                                  inv historical clk))).
  { rewrite Hdups. apply in_flat_map. exists hist_inv. split; [exact Hin |].
    rewrite (Hstep Hhash []). left. reflexivity. }
  split; [| repeat split; assumption].
  rewrite Hflag.
  destruct (duplicates (Spec.duplicate_verdict json_dumps sha256_hexdigest
                          inv historical clk)); [destruct Hmem | reflexivity].
Qed.

Lemma exact_duplicate_reported_witness :
  is_duplicate (Spec.duplicate_verdict Examples.join_fields Examples.identity_hash
                  Examples.widgets_invoice
                  [Examples.widgets_four_years_before; Examples.widgets_invoice]
                  Examples.epoch_clock) = true
  /\ In (Spec.exact_candidate Examples.widgets_invoice)
       (duplicates
          (Spec.duplicate_verdict Examples.join_fields Examples.identity_hash
             Examples.widgets_invoice
             [Examples.widgets_four_years_before; Examples.widgets_invoice]
             Examples.epoch_clock)).
Proof.
  destruct (exact_duplicate_reported Examples.join_fields Examples.identity_hash
              Examples.widgets_invoice Examples.widgets_invoice
              [Examples.widgets_four_years_before; Examples.widgets_invoice]
              Examples.epoch_clock)
    as [H _].
  destruct H as (Hdup & Hin & _); try reflexivity.
  - right. left. reflexivity.
  - split; [exact Hdup | exact Hin].
Defined.

(** C6, as stated, fails for [detect_duplicate]: six historical copies of
    an invoice give six candidates. *)
Lemma six_copies_counterexample :
  length (duplicates
            (Spec.duplicate_verdict Examples.join_fields Examples.identity_hash
               Examples.widgets_invoice Examples.six_copies Examples.epoch_clock))
  = 6%nat
  /\ ~ (length (duplicates
                  (Spec.duplicate_verdict Examples.join_fields Examples.identity_hash
                     Examples.widgets_invoice Examples.six_copies
                     Examples.epoch_clock)) <= 5)%nat.
Proof.
  split; [reflexivity |]. vm_compute. lia.
Qed.

(** C6, amended: the list [potential_duplicates] of [_check_duplicate]
    has at most 5 entries, the first five matches; [detect_duplicate]
    returns every candidate, at most one for each historical invoice, each
    with confidence 1, so that its list is in descending order of
    confidence. *)
Theorem duplicate_lists_bounded (json_dumps : Canonical -> string)
    (sha256_hexdigest : string -> string) (inv : Doc) (historical : list Doc)
    (clk : Py.Clock) (invoice : FraudDetection.Invoice)
    (history : list FraudDetection.Invoice) :
  (length (Py.get (FraudDetection.potential_duplicates
                     (FraudDetection._check_duplicate invoice history)) []) <= 5)%nat
  /\ (forall entries,
        FraudDetection.potential_duplicates
          (FraudDetection._check_duplicate invoice history) = Some entries ->
        entries
        = firstn 5 (fold_left (FraudDetection.check_historical invoice) history []))
  /\ Spec.descending
       (map cand_confidence
          (duplicates
             (Spec.duplicate_verdict json_dumps sha256_hexdigest inv historical clk)))
  /\ Forall (fun c => cand_confidence c == 1)
       (duplicates
          (Spec.duplicate_verdict json_dumps sha256_hexdigest inv historical clk))
  /\ (length (duplicates
                (Spec.duplicate_verdict json_dumps sha256_hexdigest inv historical clk))
      <= length historical)%nat.
Proof.
  split; [| split].
  - unfold FraudDetection._check_duplicate.
    destruct history as [| h hs]; [simpl; lia |].
    cbv beta iota zeta delta [FraudDetection.potential_duplicates Py.get].
    rewrite length_firstn. lia.
  - intros entries. unfold FraudDetection._check_duplicate.
    destruct history as [| h hs]; [discriminate |].
    cbv beta iota zeta delta [FraudDetection.potential_duplicates].
    intros E. injection E as <-. reflexivity.
  - pose proof (duplicates_confidence json_dumps sha256_hexdigest inv historical clk)
      as Hall.
    split; [| split; [exact Hall | apply duplicates_length]].
    apply (constant_descending 1), Forall_map. exact Hall.
Qed.

End DuplicateFacts.

(** ** Indicators and the composite score *)

Module FraudFacts.

Import FraudDetection.
Local Open Scope string_scope.
Local Open Scope list_scope.
Local Open Scope Q_scope.

(** *** Confidences of the checks *)

Lemma check_duplicate_confidence (invoice : Invoice) (historical : list Invoice) :
  is_duplicate (_check_duplicate invoice historical) = true ->
  dc_confidence (_check_duplicate invoice historical) = 0.85.
Proof.
  unfold _check_duplicate. destruct historical as [| h hs]; [discriminate |].
  cbv beta iota zeta delta [is_duplicate dc_confidence].
  intros ->. reflexivity.
Qed.

Lemma analyze_price_confidence (np_std : list Q -> Q) (invoice : Invoice)
    (historical : list Invoice) :
  0 <= pa_confidence (_analyze_price np_std invoice historical) <= 0.9.
Proof.
  unfold _analyze_price.
  destruct historical as [| h hs]; [simpl; lra |].
  destruct (Nat.ltb _ 3); [simpl; lra |].
  destruct (amounts_of _) as [| a l]; [simpl; lra |].
  cbv beta iota zeta delta [pa_confidence].
  set (amounts := a :: l). set (cur := Py.get (total_amount invoice) 0).
  set (z := if Py.ltb 0 (np_std amounts) then _ else 0).
  assert (Hz : 0 <= z).
  { subst z. PyFacts.cases_ltb 0 (np_std amounts); [| lra].
    apply PyFacts.div_nonneg; [apply Qabs_nonneg | assumption]. }
  destruct (Py.ltb 2 z || _); [| lra].
  destruct (PyFacts.min_cases 0.9 (z * 0.3)) as [[? ->] | [? ->]]; lra.
Qed.

Lemma analyze_vendor_confidence (vendor : option Vendor) (clk : Py.Clock) (k : nat) :
  va_is_new_vendor (fst (_analyze_vendor vendor clk k)) = true ->
  va_confidence (fst (_analyze_vendor vendor clk k)) = 0.6.
Proof.
  unfold _analyze_vendor.
  destruct vendor as [[[created |]] |]; cbn; try discriminate.
  intros ->. reflexivity.
Qed.

Lemma check_rush_confidence (invoice : Invoice) (clk : Py.Clock) (k : nat) :
  is_rush (fst (_check_rush_payment invoice clk k)) = true ->
  rc_confidence (fst (_check_rush_payment invoice clk k)) = 0.6.
Proof.
  unfold _check_rush_payment.
  destruct (due_date invoice) as [due |]; cbn; [| discriminate].
  intros ->. reflexivity.
Qed.

Lemma check_round_confidence (invoice : Invoice) :
  is_suspicious (_check_round_amount invoice) = true ->
  ra_confidence (_check_round_amount invoice) = 0.4.
Proof.
  unfold _check_round_amount.
  cbv beta iota zeta delta [is_suspicious ra_confidence].
  intros ->. reflexivity.
Qed.

Lemma analyze_patterns_confidence (invoice : Invoice) :
  0 <= pt_confidence (_analyze_patterns invoice) <= 0.8.
Proof.
  unfold _analyze_patterns.
  destruct (match created_at invoice with Some _ => _ | None => _ end)
    as [weekend after_hours].
  set (unusual := match items invoice with [] => false | _ => _ end).
  cbv beta iota zeta delta [pt_confidence].
  destruct weekend, after_hours, unusual; vm_compute; split; discriminate.
Qed.

(** *** The score of given checks *)

Lemma contribution_nonneg (fires : bool) (w x : Q) :
  0 <= w -> (fires = true -> 0 <= x) -> 0 <= Spec.contribution fires w x.
Proof.
  intros Hw Hx. unfold Spec.contribution. destruct fires; [| lra].
  apply Qmult_le_0_compat; [exact Hw | apply Hx; reflexivity].
Qed.

Lemma add_contribution (fires : bool) (s w x : Q) :
  (if fires then s + w * x else s) == s + Spec.contribution fires w x.
Proof. unfold Spec.contribution. destruct fires; ring. Qed.

Lemma clamp01_unit (x : Q) : 0 <= x -> Spec.clamp01 x == Qmin 1 x.
Proof.
  intros Hx. unfold Spec.clamp01.
  destruct (Q.min_spec 1 x) as [[? Hm] | [? Hm]];
    destruct (Q.max_spec 0 (Qmin 1 x)) as [[? Hx'] | [? Hx']]; lra.
Qed.

Lemma clamp01_range (x : Q) : 0 <= Spec.clamp01 x <= 1.
Proof.
  unfold Spec.clamp01.
  destruct (Q.min_spec 1 x) as [[? Hm] | [? Hm]];
    destruct (Q.max_spec 0 (Qmin 1 x)) as [[? Hx'] | [? Hx']]; lra.
Qed.

(** [_calculate_anomaly_score] is the clamped weighted sum. *)
Lemma score_weighted (c : Checks) :
  Spec.confident c -> _calculate_anomaly_score c == Spec.weighted_score c.
Proof.
  intros (H1 & H2 & H3 & H4 & H5 & H6).
  unfold _calculate_anomaly_score, Spec.weighted_score.
  cbv beta iota zeta delta
    [fraud_weights w_duplicate_invoice w_price_anomaly w_rush_payment
     w_round_amount w_new_vendor w_frequency_anomaly].
  rewrite PyFacts.min_Qmin, Q.min_comm.
  rewrite clamp01_unit.
  - apply Q.min_compat; [reflexivity |].
    rewrite !add_contribution. ring.
  - pose proof (contribution_nonneg _ 0.35 _ ltac:(lra) H1).
    pose proof (contribution_nonneg _ 0.25 _ ltac:(lra) H2).
    pose proof (contribution_nonneg _ 0.15 _ ltac:(lra) H3).
    pose proof (contribution_nonneg _ 0.05 _ ltac:(lra) H4).
    pose proof (contribution_nonneg _ 0.10 _ ltac:(lra) H5).
    pose proof (contribution_nonneg _ 0.10 _ ltac:(lra) H6).
    lra.
Qed.

(** [_determine_risk_level] follows the thresholds. *)
Lemma risk_level_tier (score : Q) : Spec.tier_of score (_determine_risk_level score).
Proof.
  unfold Spec.tier_of, _determine_risk_level.
  PyFacts.cases_leb 0.7 score; [repeat split; intros; try reflexivity; lra |].
  PyFacts.cases_leb 0.5 score; [repeat split; intros; try reflexivity; lra |].
  PyFacts.cases_leb 0.3 score; [repeat split; intros; try reflexivity; lra |].
  PyFacts.cases_leb 0.1 score; repeat split; intros; try reflexivity; lra.
Qed.

(** *** The result of [analyze_invoice] *)

Section Analysis.

Variable np_std : list Q -> Q.

Local Abbreviation verdict := (Spec.risk_verdict np_std).

(** The checks of one invocation: the vendor check reads the clock
    after the time stamp was taken, the rush check after that. *)
Lemma verdict_checks (invoice : Invoice) (historical : list Invoice)
    (vendor : option Vendor) (clk : Py.Clock) :
  checks (verdict invoice historical vendor clk)
  = {| duplicate_check := _check_duplicate invoice historical;
       price_analysis := _analyze_price np_std invoice historical;
       vendor_analysis := fst (_analyze_vendor vendor clk 1%nat);
       pattern_analysis := _analyze_patterns invoice;
       rush_payment_check :=
         fst (_check_rush_payment invoice clk
                (snd (_analyze_vendor vendor clk 1%nat)));
       round_amount_check := _check_round_amount invoice |}
  /\ anomaly_score (verdict invoice historical vendor clk)
     = _calculate_anomaly_score (checks (verdict invoice historical vendor clk))
  /\ risk_level (verdict invoice historical vendor clk)
     = _determine_risk_level (anomaly_score (verdict invoice historical vendor clk))
  /\ analyzed_at (verdict invoice historical vendor clk) = clk 0%nat.
Proof.
  unfold Spec.risk_verdict, analyze_invoice, _analyze_vendor, _check_rush_payment.
  destruct vendor as [[[created |]] |]; destruct (due_date invoice) as [due |];
    repeat split; reflexivity.
Qed.

Lemma verdict_confident (invoice : Invoice) (historical : list Invoice)
    (vendor : option Vendor) (clk : Py.Clock) :
  Spec.confident (checks (verdict invoice historical vendor clk)).
Proof.
  destruct (verdict_checks invoice historical vendor clk) as [-> _].
  unfold Spec.confident.
  cbv beta iota delta
    [duplicate_check price_analysis vendor_analysis pattern_analysis
     rush_payment_check round_amount_check].
  repeat split.
  - intros H. rewrite (check_duplicate_confidence _ _ H). lra.
  - intros _. apply analyze_price_confidence.
  - intros H. rewrite (check_rush_confidence _ _ _ H). lra.
  - intros H. rewrite (check_round_confidence _ H). lra.
  - intros H. rewrite (analyze_vendor_confidence _ _ _ H). lra.
  - intros _. apply analyze_patterns_confidence.
Qed.

End Analysis.

(** C1: the anomaly score of an analysed invoice is the sum over the
    firing indicators of weight times confidence, with the weights 0.35,
    0.25, 0.15, 0.05, 0.10 and 0.10, clamped to the unit interval; the
    tier follows the thresholds 0.7, 0.5, 0.3 and 0.1; when only the
    duplicate indicator fires, its confidence is 0.85, the score is 0.2975
    and the tier is low. *)
Theorem anomaly_score_weighted_sum (np_std : list Q -> Q) (invoice : Invoice)
    (historical : list Invoice) (vendor : option Vendor) (clk : Py.Clock) :
  (anomaly_score (Spec.risk_verdict np_std invoice historical vendor clk)
   == Spec.weighted_score
        (checks (Spec.risk_verdict np_std invoice historical vendor clk))
   /\ 0 <= anomaly_score (Spec.risk_verdict np_std invoice historical vendor clk) <= 1
   /\ Spec.tier_of
        (anomaly_score (Spec.risk_verdict np_std invoice historical vendor clk))
        (risk_level (Spec.risk_verdict np_std invoice historical vendor clk)))
  /\ (is_duplicate
        (duplicate_check
           (checks (Spec.risk_verdict np_std invoice historical vendor clk))) = true ->
      pa_has_anomaly
        (price_analysis
           (checks (Spec.risk_verdict np_std invoice historical vendor clk))) = false ->
      is_rush
        (rush_payment_check
           (checks (Spec.risk_verdict np_std invoice historical vendor clk))) = false ->
      is_suspicious
        (round_amount_check
           (checks (Spec.risk_verdict np_std invoice historical vendor clk))) = false ->
      va_is_new_vendor
        (vendor_analysis
           (checks (Spec.risk_verdict np_std invoice historical vendor clk))) = false ->
      pt_has_anomaly
        (pattern_analysis
           (checks (Spec.risk_verdict np_std invoice historical vendor clk))) = false ->
      dc_confidence
        (duplicate_check
           (checks (Spec.risk_verdict np_std invoice historical vendor clk))) = 0.85
      /\ anomaly_score (Spec.risk_verdict np_std invoice historical vendor clk)
         == 0.35 * 0.85
      /\ anomaly_score (Spec.risk_verdict np_std invoice historical vendor clk)
         == 0.2975
      /\ risk_level (Spec.risk_verdict np_std invoice historical vendor clk)
         = risk_low).
Proof.
  pose proof (verdict_confident np_std invoice historical vendor clk) as Hconf.
  destruct (verdict_checks np_std invoice historical vendor clk)
    as (Hchecks & Hscore & Hlevel & _).
  pose proof (score_weighted _ Hconf) as Hw. rewrite <- Hscore in Hw.
  split.
  - split; [exact Hw |]. split.
    + rewrite Hw. apply clamp01_range.
    + rewrite Hlevel. apply risk_level_tier.
  - intros Hdup Hprice Hrush Hround Hvendor Hpattern.
    assert (Hc : dc_confidence
                   (duplicate_check
                      (checks (Spec.risk_verdict np_std invoice historical vendor clk)))
                 = 0.85).
    { rewrite Hchecks in Hdup |- *.
      cbv beta iota delta [duplicate_check] in Hdup |- *.
      apply check_duplicate_confidence, Hdup. }
    assert (Hval : anomaly_score (Spec.risk_verdict np_std invoice historical vendor clk)
                   == 0.2975).
    { rewrite Hw. unfold Spec.weighted_score.
      rewrite Hdup, Hprice, Hrush, Hround, Hvendor, Hpattern, Hc.
      reflexivity. }
    split; [exact Hc |]. split; [rewrite Hval; reflexivity |].
    split; [exact Hval |].
    pose proof (risk_level_tier
                  (anomaly_score (Spec.risk_verdict np_std invoice historical vendor clk)))
      as (_ & _ & _ & Hlow & _).
    rewrite Hlevel. apply Hlow. rewrite Hval. lra.
Qed.

Lemma anomaly_score_weighted_sum_witness :
  anomaly_score (Spec.risk_verdict Examples.zero_std Examples.resubmitted
                   [Examples.first_submission] None Examples.epoch_clock) == 0.2975
  /\ risk_level (Spec.risk_verdict Examples.zero_std Examples.resubmitted
                   [Examples.first_submission] None Examples.epoch_clock) = risk_low.
Proof.
  destruct (anomaly_score_weighted_sum Examples.zero_std Examples.resubmitted
              [Examples.first_submission] None Examples.epoch_clock)
    as [_ H].
  destruct H as (_ & _ & Hval & Htier); try reflexivity.
  split; [exact Hval | exact Htier].
Defined.

(** *** The round-amount check *)

(** C8, at the failing input: a total of exactly 1000, which is not
    above 1000, in one line of 1000 is reported as round and as
    suspicious, and adds 0.05 x 0.4 to the score. *)
Theorem round_amount_at_threshold :
  total_amount Examples.thousand = Some 1000
  /\ ~ 1000 < 1000
  /\ is_round (_check_round_amount Examples.thousand) = true
  /\ all_items_round (_check_round_amount Examples.thousand) = true
  /\ is_suspicious (_check_round_amount Examples.thousand) = true
  /\ ra_confidence (_check_round_amount Examples.thousand) = 0.4
  /\ anomaly_score (Spec.risk_verdict Examples.zero_std Examples.thousand [] None
                      Examples.epoch_clock) == 0.05 * 0.4.
Proof.
  repeat split. discriminate.
Qed.

(** *** The price check and training *)

Lemma analyze_price_few (np_std : list Q -> Q) (invoice : Invoice)
    (historical : list Invoice) :
  (length (Spec.same_vendor invoice historical) < 3)%nat ->
  _analyze_price np_std invoice historical
  = price_no_data "No historical data for comparison"
  \/ _analyze_price np_std invoice historical
     = price_no_data "Insufficient historical data".
Proof.
  intros Hlt. unfold _analyze_price.
  destruct historical as [| h hs]; [left; reflexivity |].
  right. fold (Spec.same_vendor invoice (h :: hs)).
  apply Nat.ltb_lt in Hlt. rewrite Hlt. reflexivity.
Qed.

Lemma analyze_price_enough (np_std : list Q -> Q) (invoice : Invoice)
    (historical : list Invoice) :
  (3 <= length (Spec.same_vendor invoice historical))%nat ->
  let amounts := amounts_of (Spec.same_vendor invoice historical) in
  let current := Py.get (total_amount invoice) 0 in
  pa_has_anomaly (_analyze_price np_std invoice historical) = true
  <-> amounts <> []
      /\ ((0 < np_std amounts
           /\ 2 < Qabs (current - np_mean amounts) / np_std amounts)
          \/ (0 < np_mean amounts
              /\ 20 < Qabs ((current - np_mean amounts) / np_mean amounts * 100))).
Proof.
  intros Hge amounts current. unfold _analyze_price.
  destruct historical as [| h hs]; [simpl in Hge; lia |].
  fold (Spec.same_vendor invoice (h :: hs)).
  apply Nat.ltb_ge in Hge. rewrite Hge.
  subst amounts.
  destruct (amounts_of (Spec.same_vendor invoice (h :: hs))) as [| a l].
  { simpl. split; [discriminate | intros [H _]; contradiction]. }
  set (amounts := a :: l).
  cbv beta iota zeta delta [pa_has_anomaly price_variance_pct thresholds].
  fold current. rewrite orb_true_iff, !PyFacts.ltb_lt.
  split.
  - intros H. split; [discriminate |].
    destruct H as [H | H].
    + left. PyFacts.cases_ltb 0 (np_std amounts); [split; assumption | lra].
    + right. PyFacts.cases_ltb 0 (np_mean amounts); [split; assumption |].
      change (Qabs 0) with 0 in H. lra.
  - intros [_ [[Hs H] | [Hm H]]].
    + left. apply PyFacts.ltb_lt in Hs. rewrite Hs. exact H.
    + right. apply PyFacts.ltb_lt in Hm. rewrite Hm. exact H.
Qed.

Lemma train_model_few (isolation_forest : list Features -> string + list Z)
    (training_data : list Invoice) (clk : Py.Clock) :
  (length training_data < 10)%nat ->
  Py.run (train_model isolation_forest training_data) clk
  = training_failed "Insufficient data for training (minimum 10 records)".
Proof.
  intros Hlt. unfold train_model. apply Nat.ltb_lt in Hlt. rewrite Hlt.
  reflexivity.
Qed.




End FraudFacts.

(** ** The clock *)

Module ClockFacts.

Local Open Scope string_scope.
Local Open Scope list_scope.
Local Open Scope Q_scope.

(** The match result depends on the clock through [processed_at] only. *)
Lemma match_result_clock (inv po grn : InvoiceML.Doc) (tol : Q)
    (clk1 clk2 : Py.Clock) :
  InvoiceML.overall_match (Spec.match_result inv po grn tol clk1)
  = InvoiceML.overall_match (Spec.match_result inv po grn tol clk2)
  /\ InvoiceML.match_score (Spec.match_result inv po grn tol clk1)
     = InvoiceML.match_score (Spec.match_result inv po grn tol clk2)
  /\ InvoiceML.discrepancies (Spec.match_result inv po grn tol clk1)
     = InvoiceML.discrepancies (Spec.match_result inv po grn tol clk2)
  /\ InvoiceML.line_matches (Spec.match_result inv po grn tol clk1)
     = InvoiceML.line_matches (Spec.match_result inv po grn tol clk2)
  /\ InvoiceML.status (Spec.match_result inv po grn tol clk1)
     = InvoiceML.status (Spec.match_result inv po grn tol clk2)
  /\ (clk1 0%nat = clk2 0%nat ->
      Spec.match_result inv po grn tol clk1 = Spec.match_result inv po grn tol clk2).
Proof.
  unfold Spec.match_result, InvoiceML.perform_three_way_match.
  destruct (InvoiceML.matched (InvoiceML._match_po_number inv po));
    destruct (InvoiceML.matched (InvoiceML._match_vendor inv po));
    cbv beta iota zeta delta [Py.run Py.bind Py.now Py.ret fst negb];
    repeat split; try reflexivity; intros ->; reflexivity.
Qed.

(** The duplicate verdict depends on it through [checked_at] only. *)
Lemma duplicate_verdict_clock (json_dumps : InvoiceML.Canonical -> string)
    (sha256_hexdigest : string -> string) (inv : InvoiceML.Doc)
    (historical : list InvoiceML.Doc) (clk1 clk2 : Py.Clock) :
  InvoiceML.is_duplicate
    (Spec.duplicate_verdict json_dumps sha256_hexdigest inv historical clk1)
  = InvoiceML.is_duplicate
      (Spec.duplicate_verdict json_dumps sha256_hexdigest inv historical clk2)
  /\ InvoiceML.duplicates
       (Spec.duplicate_verdict json_dumps sha256_hexdigest inv historical clk1)
     = InvoiceML.duplicates
         (Spec.duplicate_verdict json_dumps sha256_hexdigest inv historical clk2)
  /\ InvoiceML.recommendation
       (Spec.duplicate_verdict json_dumps sha256_hexdigest inv historical clk1)
     = InvoiceML.recommendation
         (Spec.duplicate_verdict json_dumps sha256_hexdigest inv historical clk2)
  /\ (clk1 0%nat = clk2 0%nat ->
      Spec.duplicate_verdict json_dumps sha256_hexdigest inv historical clk1
      = Spec.duplicate_verdict json_dumps sha256_hexdigest inv historical clk2).
Proof.
  unfold Spec.duplicate_verdict, InvoiceML.detect_duplicate.
  cbv beta iota zeta delta [Py.run Py.bind Py.now Py.ret fst].
  repeat split; try reflexivity. intros ->. reflexivity.
Qed.

(** The risk verdict reads the clock at most three times. *)
Lemma risk_verdict_clock (np_std : list Q -> Q) (invoice : FraudDetection.Invoice)
    (history : list FraudDetection.Invoice) (vendor : option FraudDetection.Vendor)
    (clk1 clk2 : Py.Clock) :
  (forall k : nat, (k < 3)%nat -> clk1 k = clk2 k) ->
  Spec.risk_verdict np_std invoice history vendor clk1
  = Spec.risk_verdict np_std invoice history vendor clk2.
Proof.
  intros H.
  pose proof (H 0%nat ltac:(lia)) as H0.
  pose proof (H 1%nat ltac:(lia)) as H1.
  pose proof (H 2%nat ltac:(lia)) as H2.
  unfold Spec.risk_verdict, FraudDetection.analyze_invoice,
    FraudDetection._analyze_vendor, FraudDetection._check_rush_payment.
  destruct vendor as [[[created |]] |];
    destruct (FraudDetection.due_date invoice) as [due |];
    cbv beta iota zeta delta
      [Py.run Py.bind Py.now Py.ret fst FraudDetection.v_created_at];
    rewrite ?H0, ?H1, ?H2; reflexivity.
Qed.

(** Without a due date and without a creation date of the vendor, it
    depends on the clock through [analyzed_at] only. *)
Lemma risk_verdict_no_dates (np_std : list Q -> Q) (invoice : FraudDetection.Invoice)
    (history : list FraudDetection.Invoice) (vendor : option FraudDetection.Vendor)
    (clk1 clk2 : Py.Clock) :
  FraudDetection.due_date invoice = None ->
  match vendor with
  | Some v => FraudDetection.v_created_at v = None
  | None => True
  end ->
  FraudDetection.checks (Spec.risk_verdict np_std invoice history vendor clk1)
  = FraudDetection.checks (Spec.risk_verdict np_std invoice history vendor clk2)
  /\ FraudDetection.anomaly_score (Spec.risk_verdict np_std invoice history vendor clk1)
     = FraudDetection.anomaly_score
         (Spec.risk_verdict np_std invoice history vendor clk2)
  /\ FraudDetection.risk_level (Spec.risk_verdict np_std invoice history vendor clk1)
     = FraudDetection.risk_level (Spec.risk_verdict np_std invoice history vendor clk2)
  /\ FraudDetection.fraud_indicators
       (Spec.risk_verdict np_std invoice history vendor clk1)
     = FraudDetection.fraud_indicators
         (Spec.risk_verdict np_std invoice history vendor clk2)
  /\ FraudDetection.recommendations
       (Spec.risk_verdict np_std invoice history vendor clk1)
     = FraudDetection.recommendations
         (Spec.risk_verdict np_std invoice history vendor clk2).
Proof.
  intros Hdue Hvendor.
  unfold Spec.risk_verdict, FraudDetection.analyze_invoice,
    FraudDetection._analyze_vendor, FraudDetection._check_rush_payment.
  rewrite Hdue.
  destruct vendor as [[created] |]; [simpl in Hvendor; rewrite Hvendor |];
    repeat split; reflexivity.
Qed.

(** C5, as stated, fails: the same invoice and history scored at two
    readings of the clock get two tiers, and the results of the three
    operations differ. *)
Lemma two_readings_counterexample :
  FraudDetection.risk_level
    (Spec.risk_verdict Examples.zero_std Examples.resubmitted_due
       [Examples.first_submission] None Examples.epoch_clock)
  = FraudDetection.risk_low
  /\ FraudDetection.risk_level
       (Spec.risk_verdict Examples.zero_std Examples.resubmitted_due
          [Examples.first_submission] None Examples.next_day_clock)
     = FraudDetection.risk_medium
  /\ Spec.risk_verdict Examples.zero_std Examples.resubmitted_due
       [Examples.first_submission] None Examples.epoch_clock
     <> Spec.risk_verdict Examples.zero_std Examples.resubmitted_due
          [Examples.first_submission] None Examples.next_day_clock
  /\ Spec.match_result Examples.widgets_invoice Examples.widgets_po
       Examples.widgets_grn 0.05 Examples.epoch_clock
     <> Spec.match_result Examples.widgets_invoice Examples.widgets_po
          Examples.widgets_grn 0.05 Examples.next_day_clock
  /\ Spec.duplicate_verdict Examples.join_fields Examples.identity_hash
       Examples.widgets_invoice [Examples.widgets_invoice] Examples.epoch_clock
     <> Spec.duplicate_verdict Examples.join_fields Examples.identity_hash
          Examples.widgets_invoice [Examples.widgets_invoice] Examples.next_day_clock.
Proof.
  split; [reflexivity |]. split; [reflexivity |].
  split; [| split].
  - intros H. apply (f_equal FraudDetection.risk_level) in H. discriminate H.
  - intros H. apply (f_equal InvoiceML.processed_at) in H. discriminate H.
  - intros H. apply (f_equal InvoiceML.checked_at) in H. discriminate H.
Qed.

(** C5, amended: for fixed inputs the results of two invocations are
    identical whenever the invocations read the same values from the
    clock; the match result and the duplicate verdict depend on the clock
    through their time stamps [processed_at] and [checked_at] only, and
    so does the risk verdict, through [analyzed_at], when the invoice has
    no due date and the vendor no creation date. *)
Theorem scoring_deterministic_up_to_clock
    (json_dumps : InvoiceML.Canonical -> string) (sha256_hexdigest : string -> string)
    (np_std : list Q -> Q) (inv po grn : InvoiceML.Doc) (tol : Q)
    (historical : list InvoiceML.Doc) (invoice : FraudDetection.Invoice)
    (history : list FraudDetection.Invoice) (vendor : option FraudDetection.Vendor)
    (clk1 clk2 : Py.Clock) :
  ((forall k : nat, (k < 3)%nat -> clk1 k = clk2 k) ->
   Spec.match_result inv po grn tol clk1 = Spec.match_result inv po grn tol clk2
   /\ Spec.duplicate_verdict json_dumps sha256_hexdigest inv historical clk1
      = Spec.duplicate_verdict json_dumps sha256_hexdigest inv historical clk2
   /\ Spec.risk_verdict np_std invoice history vendor clk1
      = Spec.risk_verdict np_std invoice history vendor clk2)
  /\ (InvoiceML.overall_match (Spec.match_result inv po grn tol clk1)
      = InvoiceML.overall_match (Spec.match_result inv po grn tol clk2)
      /\ InvoiceML.match_score (Spec.match_result inv po grn tol clk1)
         = InvoiceML.match_score (Spec.match_result inv po grn tol clk2)
      /\ InvoiceML.discrepancies (Spec.match_result inv po grn tol clk1)
         = InvoiceML.discrepancies (Spec.match_result inv po grn tol clk2)
      /\ InvoiceML.line_matches (Spec.match_result inv po grn tol clk1)
         = InvoiceML.line_matches (Spec.match_result inv po grn tol clk2)
      /\ InvoiceML.status (Spec.match_result inv po grn tol clk1)
         = InvoiceML.status (Spec.match_result inv po grn tol clk2))
  /\ (InvoiceML.is_duplicate
        (Spec.duplicate_verdict json_dumps sha256_hexdigest inv historical clk1)
      = InvoiceML.is_duplicate
          (Spec.duplicate_verdict json_dumps sha256_hexdigest inv historical clk2)
      /\ InvoiceML.duplicates
           (Spec.duplicate_verdict json_dumps sha256_hexdigest inv historical clk1)
         = InvoiceML.duplicates
             (Spec.duplicate_verdict json_dumps sha256_hexdigest inv historical clk2)
      /\ InvoiceML.recommendation
           (Spec.duplicate_verdict json_dumps sha256_hexdigest inv historical clk1)
         = InvoiceML.recommendation
             (Spec.duplicate_verdict json_dumps sha256_hexdigest inv historical clk2))
  /\ (FraudDetection.due_date invoice = None ->
      match vendor with
      | Some v => FraudDetection.v_created_at v = None
      | None => True
      end ->
      FraudDetection.checks (Spec.risk_verdict np_std invoice history vendor clk1)
      = FraudDetection.checks (Spec.risk_verdict np_std invoice history vendor clk2)
      /\ FraudDetection.anomaly_score
           (Spec.risk_verdict np_std invoice history vendor clk1)
         = FraudDetection.anomaly_score
             (Spec.risk_verdict np_std invoice history vendor clk2)
      /\ FraudDetection.risk_level
           (Spec.risk_verdict np_std invoice history vendor clk1)
         = FraudDetection.risk_level
             (Spec.risk_verdict np_std invoice history vendor clk2)
      /\ FraudDetection.fraud_indicators
           (Spec.risk_verdict np_std invoice history vendor clk1)
         = FraudDetection.fraud_indicators
             (Spec.risk_verdict np_std invoice history vendor clk2)
      /\ FraudDetection.recommendations
           (Spec.risk_verdict np_std invoice history vendor clk1)
         = FraudDetection.recommendations
             (Spec.risk_verdict np_std invoice history vendor clk2)).
Proof.
  pose proof (match_result_clock inv po grn tol clk1 clk2)
    as (M1 & M2 & M3 & M4 & M5 & M6).
  pose proof (duplicate_verdict_clock json_dumps sha256_hexdigest inv historical
                clk1 clk2) as (D1 & D2 & D3 & D4).
  split; [| split; [| split]].
  - intros H. pose proof (H 0%nat ltac:(lia)) as H0.
    split; [apply M6, H0 |]. split; [apply D4, H0 |].
    apply risk_verdict_clock, H.
  - repeat split; assumption.
  - repeat split; assumption.
  - apply risk_verdict_no_dates.
Qed.

Lemma scoring_deterministic_up_to_clock_witness :
  Spec.risk_verdict Examples.zero_std Examples.resubmitted_due
    [Examples.first_submission] None Examples.epoch_clock
  = Spec.risk_verdict Examples.zero_std Examples.resubmitted_due
      [Examples.first_submission] None (fun k : nat => Z.of_nat (k / 3) * Py.day_us)%Z
  /\ FraudDetection.risk_level
       (Spec.risk_verdict Examples.zero_std Examples.resubmitted
          [Examples.first_submission] None Examples.epoch_clock)
     = FraudDetection.risk_level
         (Spec.risk_verdict Examples.zero_std Examples.resubmitted
            [Examples.first_submission] None Examples.next_day_clock).
Proof.
  split.
  - apply (scoring_deterministic_up_to_clock Examples.join_fields
             Examples.identity_hash Examples.zero_std Examples.widgets_invoice
             Examples.widgets_po Examples.widgets_grn 0.05 []
             Examples.resubmitted_due [Examples.first_submission] None
             Examples.epoch_clock (fun k : nat => Z.of_nat (k / 3) * Py.day_us)%Z).
    intros k Hk. unfold Examples.epoch_clock.
    destruct k as [| [| [| k]]]; [reflexivity | reflexivity | reflexivity | lia].
  - apply (scoring_deterministic_up_to_clock Examples.join_fields
             Examples.identity_hash Examples.zero_std Examples.widgets_invoice
             Examples.widgets_po Examples.widgets_grn 0.05 []
             Examples.resubmitted [Examples.first_submission] None
             Examples.epoch_clock Examples.next_day_clock).
    + reflexivity.
    + exact I.
Defined.

End ClockFacts.

(** ** More on the matchers *)

Module MatcherProperties.

Import InvoiceML.
Local Open Scope string_scope.
Local Open Scope list_scope.
Local Open Scope Q_scope.

Lemma similarity_range (s1 s2 : string) : 0 <= Spec.similarity s1 s2 <= 1.
Proof.
  unfold Spec.similarity. destruct (String.eqb _ _); [split; discriminate |].
  apply MatchingFacts.jaccard_range.
Qed.

(** X1: the confidence of a vendor comparison lies between 0 and 1; the
    vendors match exactly when it exceeds 0.6, and it is 1 for names that
    are equal once lower-cased and trimmed, two absent names included. *)
Theorem match_vendor_confidence (inv po : Doc) :
  0 <= confidence (_match_vendor inv po) <= 1
  /\ (matched (_match_vendor inv po) = true <-> 0.6 < confidence (_match_vendor inv po))
  /\ (Py.strip (Py.lower (Py.get (vendor_name inv) "")) =
      Py.strip (Py.lower (Py.get (vendor_name po) "")) ->
      _match_vendor inv po = {| matched := true; confidence := 1 |})
  /\ (vendor_name inv = None -> vendor_name po = None ->
      matched (_match_vendor inv po) = true).
Proof.
  destruct (MatchingFacts.match_vendor_fuzzy inv po) as [Hm Hc].
  pose proof (similarity_range (Py.get (vendor_name inv) "") (Py.get (vendor_name po) ""))
    as Hr.
  split; [rewrite Hc; exact Hr |].
  split.
  - rewrite Hm, Hc. unfold Spec.fuzzy_match. apply PyFacts.ltb_lt.
  - split.
    + intros E. unfold _match_vendor. apply String.eqb_eq in E. rewrite E.
      reflexivity.
    + intros H1 H2. unfold _match_vendor. rewrite H1, H2. reflexivity.
Qed.

Lemma match_vendor_confidence_witness :
  _match_vendor Examples.widgets_invoice Examples.widgets_po
  = {| matched := true; confidence := 1 |}.
Proof.
  apply (match_vendor_confidence Examples.widgets_invoice Examples.widgets_po).
  reflexivity.
Defined.

Lemma nonempty_comm (a b : gset string) :
  Py.nonempty a && Py.nonempty b = Py.nonempty b && Py.nonempty a.
Proof. apply andb_comm. Qed.

Lemma jaccard_terms_comm (a b : gset string) :
  (Py.card (a ∩ b) / Py.card (a ∪ b) = Py.card (b ∩ a) / Py.card (b ∪ a))%Q.
Proof.
  rewrite (comm_L (∩) a b), (comm_L (∪) a b). reflexivity.
Qed.

(** X2: the fuzzy comparisons do not depend on the order of their
    arguments: comparing the invoice with the order gives what comparing
    the order with the invoice gives, for vendors and for descriptions. *)
Theorem fuzzy_comparisons_symmetric (inv po : Doc) (desc1 desc2 : option string) :
  _match_vendor inv po = _match_vendor po inv
  /\ _descriptions_match desc1 desc2 = _descriptions_match desc2 desc1.
Proof.
  split.
  - unfold _match_vendor.
    rewrite (String.eqb_sym (Py.strip (Py.lower (Py.get (vendor_name inv) "")))).
    destruct (String.eqb _ _); [reflexivity |].
    rewrite nonempty_comm, jaccard_terms_comm. reflexivity.
  - unfold _descriptions_match.
    rewrite (orb_comm (negb (Py.truthy Py.truthy_str desc1))).
    destruct (negb (Py.truthy Py.truthy_str desc2) || _); [reflexivity |].
    rewrite (String.eqb_sym (Py.strip (Py.lower (Py.get desc1 "")))).
    destruct (String.eqb _ _); [reflexivity |].
    rewrite nonempty_comm, jaccard_terms_comm. reflexivity.
Qed.

End MatcherProperties.

(** ** More on the three-way match *)

Module ThreeWayProperties.

Import InvoiceML.
Local Open Scope string_scope.
Local Open Scope list_scope.
Local Open Scope Q_scope.

(** The test that the line loops apply to the lines of the order and of
    the receipt. *)
Local Abbreviation same_as inv_line :=
  (fun l : LineItem => _descriptions_match (description inv_line) (description l)).

Lemma find_none_all {A : Type} (f : A -> bool) (l : list A) :
  (forall x, In x l -> f x = false) -> find f l = None.
Proof.
  induction l as [| x l IH]; intros H; simpl; [reflexivity |].
  rewrite (H x (or_introl eq_refl)). apply IH. intros y Hy. apply H. right. exact Hy.
Qed.

(** The line match of an invoice line that no line of the order matches. *)
Lemma match_line_unmatched (po_lines grn_lines : list LineItem) (inv_line : LineItem) :
  find (same_as inv_line) po_lines = None ->
  match_line po_lines grn_lines inv_line
  = {| lm_description := description inv_line;
       lm_match_score := 100;
       invoice_qty := Py.get (quantity inv_line) 0;
       invoice_price := Py.get (unit_price inv_line) 0;
       po_qty := 0; po_price := 0; grn_qty := 0;
       price_variance := 0; quantity_variance := 0 |}.
Proof. intros H. unfold match_line. rewrite H. reflexivity. Qed.

(** The discrepancies of a result: the two of the header, then those of
    the lines in the order of the lines. *)
Lemma result_discrepancies (inv po grn : Doc) (tol : Q) (clk : Py.Clock) :
  discrepancies (Spec.match_result inv po grn tol clk)
  = (if matched (_match_po_number inv po) then []
     else [po_number_mismatch (po_number inv) (po_number po)])
    ++ (if matched (_match_vendor inv po) then []
        else [vendor_mismatch (vendor_name inv) (vendor_name po)])
    ++ flat_map (line_discrepancies tol)
         (line_matches (Spec.match_result inv po grn tol clk)).
Proof.
  unfold Spec.match_result, perform_three_way_match, _match_line_items.
  destruct (matched (_match_po_number inv po));
    destruct (matched (_match_vendor inv po)); reflexivity.
Qed.

Lemma line_discrepancies_none (tol : Q) (lm : LineMatch) :
  price_variance lm <= tol -> quantity_variance lm <= tol ->
  line_discrepancies tol lm = [].
Proof.
  intros Hp Hq. unfold line_discrepancies.
  apply PyFacts.ltb_ge in Hp, Hq. rewrite Hp, Hq. reflexivity.
Qed.

Lemma status_rule (inv po grn : Doc) (tol : Q) (clk : Py.Clock) :
  status (Spec.match_result inv po grn tol clk) = status_matched
  <-> matched (_match_po_number inv po) = true
      /\ matched (_match_vendor inv po) = true
      /\ 90 <= match_score (Spec.match_result inv po grn tol clk).
Proof.
  destruct (MatchingFacts.three_way_result inv po grn tol clk)
    as (_ & _ & Hoverall & Hstatus & _).
  rewrite Hstatus, Hoverall.
  destruct (matched (_match_po_number inv po));
    destruct (matched (_match_vendor inv po)); simpl;
    try (split; [discriminate | intros (? & ? & ?); discriminate]).
  PyFacts.cases_ltb (match_score (Spec.match_result inv po grn tol clk)) 90; simpl.
  - split; [discriminate | intros (_ & _ & H); lra].
  - split; [intros _; repeat split; assumption | reflexivity].
Qed.

(** X3: an invoice line whose description matches no line of the order is
    not penalised, whatever the other lines and the header are: the line
    match at its place has variances 0 and score 100, and nothing of the
    order or of the receipt.  When the invoice has at least one line, the
    header matches and no invoice line matches any line of the order,
    the score is 100 and the status is [matched], and no discrepancy is
    reported exactly when the tolerance is not negative. *)
Theorem unmatched_lines_score_full (inv po grn : Doc) (tol : Q) (clk : Py.Clock) :
  (forall (i : nat) (inv_line : LineItem),
      nth_error (line_items inv) i = Some inv_line ->
      (forall po_line, In po_line (line_items po) ->
         _descriptions_match (description inv_line) (description po_line) = false) ->
      exists lm,
        nth_error (line_matches (Spec.match_result inv po grn tol clk)) i = Some lm
        /\ lm_description lm = description inv_line
        /\ lm_match_score lm = 100 /\ price_variance lm = 0
        /\ quantity_variance lm = 0 /\ po_qty lm = 0 /\ po_price lm = 0
        /\ grn_qty lm = 0)
  /\ (line_items inv <> [] ->
      matched (_match_po_number inv po) = true ->
      matched (_match_vendor inv po) = true ->
      (forall inv_line po_line,
          In inv_line (line_items inv) -> In po_line (line_items po) ->
          _descriptions_match (description inv_line) (description po_line) = false) ->
      match_score (Spec.match_result inv po grn tol clk) == 100
      /\ status (Spec.match_result inv po grn tol clk) = status_matched
      /\ (discrepancies (Spec.match_result inv po grn tol clk) = [] <-> 0 <= tol)).
Proof.
  destruct (MatchingFacts.three_way_result inv po grn tol clk)
    as (Hlines & Hscore & _).
  split.
  - intros i inv_line Hi Hnone.
    exists (match_line (line_items po) (line_items grn) inv_line).
    split; [rewrite Hlines, nth_error_map, Hi; reflexivity |].
    rewrite match_line_unmatched; [repeat split |].
    apply find_none_all. exact Hnone.
  - intros Hne Hpo Hvendor Hnone.
    assert (Hall : Forall (fun lm => lm_match_score lm = 100 /\ price_variance lm = 0
                            /\ quantity_variance lm = 0)
                     (line_matches (Spec.match_result inv po grn tol clk))).
    { rewrite Hlines. apply Forall_map, List.Forall_forall. intros inv_line Hin.
      rewrite match_line_unmatched; [repeat split |].
      apply find_none_all. intros po_line Hpl. apply (Hnone inv_line po_line Hin Hpl). }
    assert (Hmean : Spec.mean_line_score
                      (line_matches (Spec.match_result inv po grn tol clk)) == 100).
    { unfold Spec.mean_line_score.
      destruct (line_matches (Spec.match_result inv po grn tol clk)) as [| lm lms] eqn:E.
      { rewrite Hlines in E. destruct (line_items inv); [contradiction | discriminate]. }
      unfold Py.len. rewrite <- (length_map lm_match_score).
      apply MatchingFacts.mean_const; [discriminate |].
      apply Forall_map. eapply List.Forall_impl; [| exact Hall].
      intros x (Hx & _). cbv beta. rewrite Hx. reflexivity. }
    destruct (MatchingFacts.header_score_range inv po) as [_ Hheader].
    assert (H100 : match_score (Spec.match_result inv po grn tol clk) == 100)
      by (rewrite Hscore, Hmean, (Hheader Hpo Hvendor); reflexivity).
    split; [exact H100 |]. split.
    + apply status_rule. repeat split; try assumption. rewrite H100. lra.
    + rewrite result_discrepancies, Hpo, Hvendor. cbn [app].
      assert (Hsome : line_matches (Spec.match_result inv po grn tol clk) <> []).
      { rewrite Hlines. destruct (line_items inv); [contradiction | discriminate]. }
      revert Hall Hsome.
      generalize (line_matches (Spec.match_result inv po grn tol clk)).
      intros lms0 Hall Hsome. split.
      * intros Hnil. destruct lms0 as [| lm lms]; [contradiction Hsome; reflexivity |].
        apply List.Forall_cons_iff in Hall. destruct Hall as [(_ & Hp & _) _].
        cbn [flat_map] in Hnil. apply app_eq_nil in Hnil. destruct Hnil as [Hnil _].
        unfold line_discrepancies in Hnil. rewrite Hp in Hnil.
        PyFacts.cases_ltb tol 0; [discriminate Hnil | exact Hlt].
      * intros Htol. clear Hsome.
        induction Hall as [| lm lms (_ & Hp & Hq) _ IH]; [reflexivity |].
        cbn [flat_map]. rewrite IH, app_nil_r.
        apply line_discrepancies_none; [rewrite Hp | rewrite Hq]; exact Htol.
Qed.

Lemma unmatched_lines_score_full_witness :
  (exists lm,
     nth_error (line_matches (Spec.match_result Examples.widgets_invoice
                                MoreExamples.gaskets_po Examples.widgets_grn 0.05
                                Examples.epoch_clock)) 1 = Some lm
     /\ lm_match_score lm = 100)
  /\ match_score (Spec.match_result Examples.widgets_invoice MoreExamples.gaskets_po
                    Examples.widgets_grn 0.05 Examples.epoch_clock) == 100
  /\ status (Spec.match_result Examples.widgets_invoice MoreExamples.gaskets_po
               Examples.widgets_grn 0.05 Examples.epoch_clock) = status_matched.
Proof.
  destruct (unmatched_lines_score_full Examples.widgets_invoice MoreExamples.gaskets_po
              Examples.widgets_grn 0.05 Examples.epoch_clock)
    as (Hline & Hall).
  split.
  - destruct (Hline 1%nat (Examples.line "Steel Bolt M8" 100 1))
      as (lm & Hlm & _ & Hs & _).
    + reflexivity.
    + intros po_line [<- | []]. reflexivity.
    + exists lm. split; [exact Hlm | exact Hs].
  - destruct Hall as (Hs & Hst & _).
    + discriminate.
    + reflexivity.
    + reflexivity.
    + intros inv_line po_line [<- | [<- | []]] [<- | []]; reflexivity.
    + split; [exact Hs | exact Hst].
Defined.

(** X4: a line of the order without a positive unit price gives price
    variance 0 whatever the invoice charges, and a line of the receipt
    without a positive quantity gives quantity variance 0 whatever the
    invoice bills. *)
Theorem no_variance_without_reference (po_lines grn_lines : list LineItem)
    (inv_line po_line grn_line : LineItem) :
  find (same_as inv_line) po_lines = Some po_line ->
  (Py.get (unit_price po_line) 0 <= 0 ->
   price_variance (match_line po_lines grn_lines inv_line) = 0)
  /\ (find (same_as inv_line) grn_lines = Some grn_line ->
      Py.get (quantity grn_line) 0 <= 0 ->
      quantity_variance (match_line po_lines grn_lines inv_line) = 0)
  /\ (find (same_as inv_line) grn_lines = None ->
      quantity_variance (match_line po_lines grn_lines inv_line) = 0
      /\ grn_qty (match_line po_lines grn_lines inv_line) = 0).
Proof.
  intros Hpo. unfold match_line. rewrite Hpo.
  split; [| split].
  - intros Hp. apply PyFacts.ltb_ge in Hp.
    destruct (find _ grn_lines);
      cbv beta iota zeta delta [price_variance]; rewrite Hp; reflexivity.
  - intros Hgrn Hq. rewrite Hgrn. apply PyFacts.ltb_ge in Hq.
    cbv beta iota zeta delta [quantity_variance]. rewrite Hq. reflexivity.
  - intros Hgrn. rewrite Hgrn. split; reflexivity.
Qed.

Lemma no_variance_without_reference_witness :
  price_variance
    (match_line [Examples.line "blue widget" 2 0] [] (Examples.line "Blue Widget" 2 10))
  = 0.
Proof.
  destruct (no_variance_without_reference [Examples.line "blue widget" 2 0] []
              (Examples.line "Blue Widget" 2 10) (Examples.line "blue widget" 2 0)
              (Examples.line "blue widget" 2 0)) as [H _]; [reflexivity |].
  apply H. unfold Qle. simpl. lia.
Defined.

Lemma per_line_score_bounds (pv qv : Q) :
  0 <= pv -> 0 <= qv -> 40 <= Spec.per_line_score pv qv <= 100.
Proof.
  intros Hp Hq. unfold Spec.per_line_score.
  destruct (Q.min_spec 30 (pv * 100)) as [[? Hm1] | [? Hm1]];
    destruct (Q.min_spec 30 (qv * 100)) as [[? Hm2] | [? Hm2]];
    destruct (Q.max_spec 0 (100 - Qmin 30 (pv * 100) - Qmin 30 (qv * 100)))
      as [[? Hx] | [? Hx]]; lra.
Qed.

Lemma line_scores_bounds (po_lines grn_lines inv_lines : list LineItem) :
  Forall (fun x => 40 <= x <= 100)
    (map lm_match_score (map (match_line po_lines grn_lines) inv_lines)).
Proof.
  apply Forall_map, Forall_map, List.Forall_forall. intros inv_line _.
  rewrite MatchingFacts.match_line_per_line_score.
  destruct (MatchingFacts.match_line_variances po_lines grn_lines inv_line).
  apply per_line_score_bounds; assumption.
Qed.

Lemma sum_bounds (l : list Q) :
  Forall (fun x => 40 <= x <= 100) l ->
  40 * Py.len l <= Py.sum l <= 100 * Py.len l.
Proof.
  induction 1 as [| x l Hx _ IH].
  - unfold Py.sum, Py.len. simpl. split; discriminate.
  - rewrite PyFacts.sum_cons, MatchingFacts.len_cons. lra.
Qed.

Lemma mean_bounds (l : list Q) :
  l <> [] -> Forall (fun x => 40 <= x <= 100) l ->
  40 <= Py.sum l / Py.len l <= 100.
Proof.
  intros Hne Hall. pose proof (sum_bounds l Hall) as [Hlo Hhi].
  assert (Hpos : 0 < Py.len l).
  { destruct l as [| x l]; [contradiction |].
    rewrite MatchingFacts.len_cons. pose proof (MatchingFacts.len_nonneg l). lra. }
  split.
  - apply Qle_shift_div_l; assumption.
  - apply Qle_shift_div_r; assumption.
Qed.

Lemma mean_line_score_range (lms : list LineMatch) :
  Forall (fun x => 40 <= x <= 100) (map lm_match_score lms) ->
  0 <= Spec.mean_line_score lms <= 100
  /\ (lms <> [] -> 40 <= Spec.mean_line_score lms).
Proof.
  intros Hall. destruct lms as [| lm lms'].
  - simpl. split; [split; discriminate | intros H; contradiction].
  - assert (Hm : 40 <= Spec.mean_line_score (lm :: lms') <= 100).
    { unfold Spec.mean_line_score, Py.len. rewrite <- (length_map lm_match_score).
      apply mean_bounds; [discriminate | exact Hall]. }
    split; [lra | intros _; lra].
Qed.

Lemma mean_line_score_bounds (po_lines grn_lines inv_lines : list LineItem) :
  0 <= Spec.mean_line_score (map (match_line po_lines grn_lines) inv_lines) <= 100
  /\ (inv_lines <> [] ->
      40 <= Spec.mean_line_score (map (match_line po_lines grn_lines) inv_lines)).
Proof.
  destruct (mean_line_score_range (map (match_line po_lines grn_lines) inv_lines)
              (line_scores_bounds po_lines grn_lines inv_lines)) as [H1 H2].
  split; [exact H1 |]. intros Hne. apply H2.
  destruct inv_lines; [contradiction | discriminate].
Qed.

(** X5: the match score always lies between 19.5 and 100, and is at least
    47.5 for an invoice with a line; every line score lies between 40 and
    100, because each of the two penalties is capped at 30. *)
Theorem match_score_bounds (inv po grn : Doc) (tol : Q) (clk : Py.Clock) :
  19.5 <= match_score (Spec.match_result inv po grn tol clk) <= 100
  /\ (line_items inv <> [] ->
      47.5 <= match_score (Spec.match_result inv po grn tol clk))
  /\ Forall (fun lm => 40 <= lm_match_score lm <= 100)
       (line_matches (Spec.match_result inv po grn tol clk)).
Proof.
  destruct (MatchingFacts.three_way_result inv po grn tol clk)
    as (Hlines & Hscore & _).
  destruct (MatchingFacts.header_score_range inv po) as [Hheader _].
  destruct (mean_line_score_bounds (line_items po) (line_items grn) (line_items inv))
    as [Hmean Hmean'].
  rewrite <- Hlines in Hmean, Hmean'.
  split; [rewrite Hscore; lra |].
  split; [intros Hne; specialize (Hmean' Hne); rewrite Hscore; lra |].
  rewrite Hlines.
  pose proof (line_scores_bounds (line_items po) (line_items grn) (line_items inv)) as H.
  apply Forall_map in H. exact H.
Qed.

Lemma match_score_bounds_witness :
  47.5 <= match_score (Spec.match_result Examples.widgets_invoice
                         MoreExamples.bolt_brothers_po Examples.widgets_grn 0.05
                         Examples.epoch_clock).
Proof.
  apply (match_score_bounds Examples.widgets_invoice MoreExamples.bolt_brothers_po
           Examples.widgets_grn 0.05 Examples.epoch_clock).
  discriminate.
Defined.

Lemma line_discrepancies_medium (tol : Q) (lm : LineMatch) :
  Forall (fun d => severity d = medium) (line_discrepancies tol lm).
Proof.
  unfold line_discrepancies.
  destruct (Py.ltb tol (price_variance lm));
    destruct (Py.ltb tol (quantity_variance lm)); repeat constructor.
Qed.

(** X6: the status is [matched] exactly when the order number matches, the
    vendor matches and the score is at least 90; a result with status
    [matched] lists discrepancies of medium severity only, since a
    mismatch of the order number or of the vendor is always listed, with
    high severity, and makes the status [exception]. *)
Theorem status_and_discrepancies (inv po grn : Doc) (tol : Q) (clk : Py.Clock) :
  (status (Spec.match_result inv po grn tol clk) = status_matched
   <-> matched (_match_po_number inv po) = true
       /\ matched (_match_vendor inv po) = true
       /\ 90 <= match_score (Spec.match_result inv po grn tol clk))
  /\ (status (Spec.match_result inv po grn tol clk) = status_matched ->
      overall_match (Spec.match_result inv po grn tol clk) = true
      /\ Forall (fun d => severity d = medium)
           (discrepancies (Spec.match_result inv po grn tol clk)))
  /\ (matched (_match_po_number inv po) = false ->
      In (po_number_mismatch (po_number inv) (po_number po))
        (discrepancies (Spec.match_result inv po grn tol clk))
      /\ severity (po_number_mismatch (po_number inv) (po_number po)) = high
      /\ status (Spec.match_result inv po grn tol clk) = status_exception)
  /\ (matched (_match_vendor inv po) = false ->
      In (vendor_mismatch (vendor_name inv) (vendor_name po))
        (discrepancies (Spec.match_result inv po grn tol clk))
      /\ severity (vendor_mismatch (vendor_name inv) (vendor_name po)) = high
      /\ status (Spec.match_result inv po grn tol clk) = status_exception).
Proof.
  pose proof (status_rule inv po grn tol clk) as Hrule.
  destruct (MatchingFacts.three_way_result inv po grn tol clk)
    as (_ & _ & _ & Hstatus & _).
  pose proof (result_discrepancies inv po grn tol clk) as Hd.
  assert (Hexc : forall b : bool, b = false ->
            (status (Spec.match_result inv po grn tol clk) = status_matched -> b = true) ->
            status (Spec.match_result inv po grn tol clk) = status_exception).
  { intros b Hb Himp.
    destruct (status (Spec.match_result inv po grn tol clk));
      [rewrite Himp in Hb by reflexivity; discriminate | reflexivity]. }
  split; [exact Hrule |]. split; [| split].
  - intros Hm. split.
    + rewrite Hstatus in Hm.
      destruct (overall_match (Spec.match_result inv po grn tol clk));
        [reflexivity | discriminate].
    + apply Hrule in Hm as (Hpo & Hvendor & _).
      rewrite Hd, Hpo, Hvendor. simpl.
      generalize (line_matches (Spec.match_result inv po grn tol clk)).
      intros lms. induction lms as [| lm lms IH]; simpl; [constructor |].
      apply Forall_app. split; [apply line_discrepancies_medium | exact IH].
  - intros Hpo. split; [rewrite Hd, Hpo; left; reflexivity |].
    split; [reflexivity |].
    apply (Hexc _ Hpo). intros Hm. apply Hrule in Hm. apply Hm.
  - intros Hvendor. split.
    + rewrite Hd, Hvendor. apply in_or_app. right. left. reflexivity.
    + split; [reflexivity |].
      apply (Hexc _ Hvendor). intros Hm. apply Hrule in Hm. apply Hm.
Qed.

Lemma status_and_discrepancies_witness :
  status (Spec.match_result Examples.widgets_invoice
            (MoreExamples.bolt_brothers_po) Examples.widgets_grn 0.05
            Examples.epoch_clock) = status_exception.
Proof.
  destruct (status_and_discrepancies Examples.widgets_invoice
              (MoreExamples.bolt_brothers_po) Examples.widgets_grn 0.05
              Examples.epoch_clock) as (_ & _ & H & _).
  apply H. reflexivity.
Defined.

Lemma in_line_discrepancies (tol : Q) (lm : LineMatch) (d : Discrepancy) :
  In d (line_discrepancies tol lm) <->
  (tol < price_variance lm
   /\ d = price_variance_found (lm_description lm) (price_variance lm)
           (invoice_price lm) (po_price lm))
  \/ (tol < quantity_variance lm
      /\ d = quantity_variance_found (lm_description lm) (quantity_variance lm)
              (invoice_qty lm) (grn_qty lm)).
Proof.
  unfold line_discrepancies.
  PyFacts.cases_ltb tol (price_variance lm);
    PyFacts.cases_ltb tol (quantity_variance lm); simpl; split.
  - intros [<- | [<- | []]]; auto.
  - intros [[_ ->] | [_ ->]]; auto.
  - intros [<- | []]; auto.
  - intros [[_ ->] | [H _]]; [auto | lra].
  - intros [<- | []]; auto.
  - intros [[H _] | [_ ->]]; [lra | auto].
  - intros [].
  - intros [[H _] | [H _]]; lra.
Qed.

Lemma in_result_discrepancies (inv po grn : Doc) (tol : Q) (clk : Py.Clock)
    (d : Discrepancy) :
  severity d = medium ->
  (In d (discrepancies (Spec.match_result inv po grn tol clk))
   <-> exists lm, In lm (line_matches (Spec.match_result inv po grn tol clk))
                  /\ In d (line_discrepancies tol lm)).
Proof.
  intros Hmed. rewrite result_discrepancies, !in_app_iff, in_flat_map.
  split.
  - intros [H | [H | H]]; [| | exact H].
    + destruct (matched (_match_po_number inv po)); [destruct H |].
      destruct H as [<- | []]. discriminate Hmed.
    + destruct (matched (_match_vendor inv po)); [destruct H |].
      destruct H as [<- | []]. discriminate Hmed.
  - intros H. right. right. exact H.
Qed.

(** X7: a price or quantity discrepancy is listed for a line exactly when
    the variance of the line exceeds the tolerance: every listed variance
    is greater than the tolerance, so a variance equal to the tolerance is
    not listed, and every line with a greater variance is listed with its
    values; at most two discrepancies are listed for the header and two
    for each line. *)
Theorem discrepancies_follow_tolerance (inv po grn : Doc) (tol : Q) (clk : Py.Clock) :
  (forall d v p1 p2,
      In (price_variance_found d v p1 p2)
        (discrepancies (Spec.match_result inv po grn tol clk)) -> tol < v)
  /\ (forall d v q1 q2,
        In (quantity_variance_found d v q1 q2)
          (discrepancies (Spec.match_result inv po grn tol clk)) -> tol < v)
  /\ (forall lm,
        In lm (line_matches (Spec.match_result inv po grn tol clk)) ->
        (tol < price_variance lm ->
         In (price_variance_found (lm_description lm) (price_variance lm)
               (invoice_price lm) (po_price lm))
           (discrepancies (Spec.match_result inv po grn tol clk)))
        /\ (tol < quantity_variance lm ->
            In (quantity_variance_found (lm_description lm) (quantity_variance lm)
                  (invoice_qty lm) (grn_qty lm))
              (discrepancies (Spec.match_result inv po grn tol clk))))
  /\ (length (discrepancies (Spec.match_result inv po grn tol clk))
      <= 2 + 2 * length (line_items inv))%nat.
Proof.
  split; [| split; [| split]].
  - intros d v p1 p2 H.
    apply in_result_discrepancies in H as (lm & _ & H); [| reflexivity].
    apply in_line_discrepancies in H as [[Hlt E] | [_ E]]; [| discriminate E].
    injection E as _ -> _ _. exact Hlt.
  - intros d v q1 q2 H.
    apply in_result_discrepancies in H as (lm & _ & H); [| reflexivity].
    apply in_line_discrepancies in H as [[_ E] | [Hlt E]]; [discriminate E |].
    injection E as _ -> _ _. exact Hlt.
  - intros lm Hin. split; intros Hlt.
    + apply in_result_discrepancies; [reflexivity |]. exists lm. split; [exact Hin |].
      apply in_line_discrepancies. left. split; [exact Hlt | reflexivity].
    + apply in_result_discrepancies; [reflexivity |]. exists lm. split; [exact Hin |].
      apply in_line_discrepancies. right. split; [exact Hlt | reflexivity].
  - rewrite result_discrepancies, !length_app.
    destruct (MatchingFacts.three_way_result inv po grn tol clk) as (-> & _).
    assert (Hfm : forall lms : list LineMatch,
               (length (flat_map (line_discrepancies tol) lms) <= 2 * length lms)%nat).
    { induction lms as [| lm lms IH]; simpl; [lia |].
      rewrite length_app.
      assert (length (line_discrepancies tol lm) <= 2)%nat.
      { unfold line_discrepancies.
        destruct (Py.ltb tol (price_variance lm));
          destruct (Py.ltb tol (quantity_variance lm)); simpl; lia. }
      lia. }
    specialize (Hfm (map (match_line (line_items po) (line_items grn)) (line_items inv))).
    rewrite length_map in Hfm.
    destruct (matched (_match_po_number inv po));
      destruct (matched (_match_vendor inv po)); simpl; lia.
Qed.

Lemma discrepancies_follow_tolerance_witness :
  ~ In (price_variance_found (Some "Blue Widget") 0.05 10.5 10)
      (discrepancies
         (Spec.match_result MoreExamples.five_percent_invoice Examples.widgets_po
            Examples.widgets_grn 0.05 Examples.epoch_clock)).
Proof.
  intros H.
  destruct (discrepancies_follow_tolerance MoreExamples.five_percent_invoice
              Examples.widgets_po Examples.widgets_grn 0.05 Examples.epoch_clock)
    as [Hprice _].
  pose proof (Hprice (Some "Blue Widget") 0.05 10.5 10 H) as Hlt.
  vm_compute in Hlt. discriminate Hlt.
Defined.

End ThreeWayProperties.

(** ** More on duplicate detection *)

Module DuplicateProperties.

Import InvoiceML.
Local Open Scope string_scope.
Local Open Scope list_scope.
Local Open Scope Q_scope.

Lemma field_score_cases (inv hist_inv : Doc) :
  (Terms.same_key_fields inv hist_inv = true
   /\ field_score inv hist_inv
      = (0 + 40 + 20 + 30 + 10, ["invoice_number"; "vendor"; "amount"; "date"]))
  \/ (Terms.same_key_fields inv hist_inv = false
      /\ Py.leb (duplicate_threshold * 100) (fst (field_score inv hist_inv)) = false).
Proof.
  unfold Terms.same_key_fields, field_score, _dates_close.
  destruct (Py.opt_eqb String.eqb (invoice_number inv) (invoice_number hist_inv));
    destruct (Py.opt_eqb String.eqb (vendor_name inv) (vendor_name hist_inv));
    destruct (Py.opt_eqb Qeq_bool (total_amount inv) (total_amount hist_inv));
    simpl; auto.
Qed.

(** X8: a historical invoice whose hash differs from that of the invoice
    is reported exactly when its invoice number, its vendor name and its
    total amount equal those of the invoice, whatever the two dates; it is
    then reported once, as a field-based match of confidence 1 on the
    four fields.  Keys that both invoices lack count as equal. *)
Theorem field_match_needs_three_keys (json_dumps : Canonical -> string)
    (sha256_hexdigest : string -> string) (inv hist_inv : Doc) :
  _calculate_invoice_hash json_dumps sha256_hexdigest inv
  <> _calculate_invoice_hash json_dumps sha256_hexdigest hist_inv ->
  (Terms.same_key_fields inv hist_inv = true ->
   exists c,
     check_historical json_dumps sha256_hexdigest inv [] hist_inv = [c]
     /\ cand_invoice_id c = _id hist_inv
     /\ cand_match_type c = field_based
     /\ cand_confidence c == 1
     /\ matched_fields c = ["invoice_number"; "vendor"; "amount"; "date"])
  /\ (Terms.same_key_fields inv hist_inv = false ->
      check_historical json_dumps sha256_hexdigest inv [] hist_inv = [])
  /\ (invoice_number inv = None -> invoice_number hist_inv = None ->
      Py.opt_eqb String.eqb (invoice_number inv) (invoice_number hist_inv) = true).
Proof.
  intros Hhash. apply String.eqb_neq in Hhash.
  unfold check_historical. rewrite Hhash.
  destruct (field_score_cases inv hist_inv) as [[Hk Hs] | [Hk Hs]].
  - split; [| split].
    + intros _. rewrite Hs. eexists. split; [reflexivity |]. repeat split.
    + intros H. rewrite H in Hk. discriminate.
    + intros -> ->. reflexivity.
  - split; [| split].
    + intros H. rewrite H in Hk. discriminate.
    + intros _. destruct (field_score inv hist_inv) as [ms fields].
      simpl in Hs. rewrite Hs. reflexivity.
    + intros -> ->. reflexivity.
Qed.

Lemma field_match_needs_three_keys_witness :
  exists c,
    check_historical Examples.join_fields Examples.identity_hash
      Examples.widgets_invoice [] Examples.widgets_four_years_before = [c]
    /\ cand_match_type c = field_based.
Proof.
  destruct (field_match_needs_three_keys Examples.join_fields Examples.identity_hash
              Examples.widgets_invoice Examples.widgets_four_years_before)
    as [H _]; [discriminate |].
  destruct H as (c & Hc & _ & Ht & _); [reflexivity |].
  exists c. split; [exact Hc | exact Ht].
Defined.

(** X9: the candidates follow the historical invoices in their order: the
    candidates for two lists of historical invoices one after the other
    are the candidates for the first followed by those for the second, the
    invoice is a duplicate when it is one against either list, and against
    no historical invoice it is no duplicate and is approved. *)
Theorem detection_splits_over_history (json_dumps : Canonical -> string)
    (sha256_hexdigest : string -> string) (inv : Doc) (older newer : list Doc)
    (clk : Py.Clock) :
  duplicates (Spec.duplicate_verdict json_dumps sha256_hexdigest inv
                (older ++ newer) clk)
  = duplicates (Spec.duplicate_verdict json_dumps sha256_hexdigest inv older clk)
    ++ duplicates (Spec.duplicate_verdict json_dumps sha256_hexdigest inv newer clk)
  /\ is_duplicate (Spec.duplicate_verdict json_dumps sha256_hexdigest inv
                     (older ++ newer) clk)
     = is_duplicate (Spec.duplicate_verdict json_dumps sha256_hexdigest inv older clk)
       || is_duplicate (Spec.duplicate_verdict json_dumps sha256_hexdigest inv newer clk)
  /\ duplicate_count (Spec.duplicate_verdict json_dumps sha256_hexdigest inv
                        (older ++ newer) clk)
     = (duplicate_count
          (Spec.duplicate_verdict json_dumps sha256_hexdigest inv older clk)
        + duplicate_count
            (Spec.duplicate_verdict json_dumps sha256_hexdigest inv newer clk))%nat
  /\ is_duplicate (Spec.duplicate_verdict json_dumps sha256_hexdigest inv [] clk)
     = false
  /\ recommendation (Spec.duplicate_verdict json_dumps sha256_hexdigest inv [] clk)
     = approve
  /\ (recommendation (Spec.duplicate_verdict json_dumps sha256_hexdigest inv
                        (older ++ newer) clk) = reject
      <-> duplicates (Spec.duplicate_verdict json_dumps sha256_hexdigest inv
                        (older ++ newer) clk) <> []).
Proof.
  destruct (DuplicateFacts.verdict_duplicates json_dumps sha256_hexdigest inv
              (older ++ newer) clk) as (Hd & Hf & Hc & Hr & _).
  destruct (DuplicateFacts.verdict_duplicates json_dumps sha256_hexdigest inv
              older clk) as (Hd1 & Hf1 & Hc1 & _).
  destruct (DuplicateFacts.verdict_duplicates json_dumps sha256_hexdigest inv
              newer clk) as (Hd2 & Hf2 & Hc2 & _).
  assert (Happ : duplicates (Spec.duplicate_verdict json_dumps sha256_hexdigest inv
                               (older ++ newer) clk)
                 = duplicates (Spec.duplicate_verdict json_dumps sha256_hexdigest
                                 inv older clk)
                   ++ duplicates (Spec.duplicate_verdict json_dumps sha256_hexdigest
                                    inv newer clk))
    by (rewrite Hd, Hd1, Hd2; apply flat_map_app).
  split; [exact Happ |]. split; [| split; [| split; [| split]]].
  - rewrite Hf, Hf1, Hf2, Happ, length_app.
    destruct (duplicates (Spec.duplicate_verdict json_dumps sha256_hexdigest
                            inv older clk));
      destruct (duplicates (Spec.duplicate_verdict json_dumps sha256_hexdigest
                              inv newer clk)); reflexivity.
  - rewrite Hc, Hc1, Hc2, Happ. apply length_app.
  - reflexivity.
  - reflexivity.
  - rewrite Hr, Hf.
    destruct (duplicates (Spec.duplicate_verdict json_dumps sha256_hexdigest inv
                            (older ++ newer) clk)); simpl.
    + split; [discriminate | intros H; contradiction].
    + split; [discriminate | reflexivity].
Qed.

End DuplicateProperties.

(** ** The point-based fraud score *)

Module FraudScoreFacts.

Import FraudScore.
Local Open Scope string_scope.
Local Open Scope list_scope.
Local Open Scope Z_scope.

Lemma sum_points_app (l1 l2 : list Flag) :
  Terms.sum_points (l1 ++ l2) = Terms.sum_points l1 + Terms.sum_points l2.
Proof.
  unfold Terms.sum_points. induction l1 as [| f l1 IH]; simpl; [reflexivity |].
  rewrite IH. lia.
Qed.

Lemma sum_points_cons (f : Flag) (l : list Flag) :
  Terms.sum_points (f :: l) = Terms.points f + Terms.sum_points l.
Proof. reflexivity. Qed.

Lemma sum_points_nil : Terms.sum_points [] = 0.
Proof. reflexivity. Qed.

(** The loop over the suspicious keywords, from any state. *)
Lemma keyword_loop (vendor : string) (keywords : list string) (score : Z)
    (flags : list Flag) :
  fold_left
    (fun '(score, flags) suspicious =>
       if Py.contains suspicious vendor
       then (score + 30,
             flags ++ [mkFlag suspicious_vendor high (contains_keyword suspicious)])
       else (score, flags))
    keywords (score, flags)
  = (score
     + Terms.sum_points
         (flat_map (fun suspicious =>
                      if Py.contains suspicious vendor
                      then [mkFlag suspicious_vendor high (contains_keyword suspicious)]
                      else [])
            keywords),
     flags
     ++ flat_map (fun suspicious =>
                    if Py.contains suspicious vendor
                    then [mkFlag suspicious_vendor high (contains_keyword suspicious)]
                    else [])
          keywords).
Proof.
  revert score flags. induction keywords as [| k ks IH]; intros score flags; simpl.
  - f_equal; [unfold Terms.sum_points; simpl; lia | symmetry; apply app_nil_r].
  - destruct (Py.contains k vendor); rewrite IH; simpl.
    + f_equal; [| rewrite <- app_assoc; reflexivity].
      unfold Terms.sum_points. simpl. unfold Terms.points. simpl. lia.
    + reflexivity.
Qed.

(** The outcome of [score_and_flags] by the values read from the invoice:
    the exception of the first statement that fails, or the flags in their
    order and the sum of their points. *)
Lemma score_and_flags_outcome (invoice_data : RawInvoice) :
  match Terms.total_of invoice_data with
  | None => score_and_flags invoice_data = inl ValueError
  | Some total =>
      match as_num total with
      | None => score_and_flags invoice_data = inl TypeError
      | Some x =>
          match Py.get (vendor_name invoice_data) (v_str "") with
          | v_str name =>
              let flags := Terms.flags_in_order invoice_data total x name in
              match Py.get (invoice_number invoice_data) (v_str "") with
              | v_str _ =>
                  score_and_flags invoice_data = inr (Terms.sum_points flags, flags)
              | v =>
                  if truthy (Some v)
                  then score_and_flags invoice_data = inl TypeError
                  else score_and_flags invoice_data
                       = inr (Terms.sum_points flags, flags)
              end
          | _ => score_and_flags invoice_data = inl AttributeError
          end
      end
  end.
Proof.
  unfold score_and_flags, Terms.total_of.
  fold (Terms.missing_names invoice_data).
  destruct (Py.get (total_amount invoice_data) (v_num 0)) as [| b0 | x0 | s0];
    [| | | destruct (float_of (keep_digits_dots s0)) as [x0 |]; [| reflexivity]];
    cbn [option_map];
    match goal with
    | |- context [as_num ?t] =>
        destruct (as_num t) as [x |] eqn:Hx;
        [| destruct (in_amounts _ _); reflexivity];
        destruct (Py.get (vendor_name invoice_data) (v_str "")) as [| b | y | name];
        try (destruct (in_amounts _ _); destruct (Py.ltb 100 x && _); reflexivity);
        unfold Terms.flags_in_order;
        destruct (in_amounts t suspicious_amounts);
        destruct (Py.ltb 100 x && Qeq_bool (Py.mod_ x 100) 0);
        cbv beta iota zeta; rewrite keyword_loop;
        destruct (Terms.missing_names invoice_data) as [| m ms];
        destruct (truthy (bank_account_changed invoice_data));
        destruct (Py.get (invoice_number invoice_data) (v_str "")) as [| b | y | s];
        cbn [truthy]; try destruct b; try destruct (Py.truthy_num y);
        try destruct (Py.truthy_str s);
        try destruct (Z.of_nat (String.length s) <? 3);
        cbn [andb]; try reflexivity;
        match goal with
        | |- inr (?a, ?b) = inr (_, ?d) =>
            assert (Hflags : b = d)
              by (cbn [flat_map suspicious_vendors app]; rewrite <- ?app_assoc;
                  cbn [app]; rewrite ?app_nil_r; reflexivity);
            rewrite <- Hflags; do 2 f_equal
        end;
        repeat (rewrite sum_points_cons || rewrite sum_points_app
                || rewrite sum_points_nil);
        cbn [Terms.points f_type f_detail length]; lia
    end.
Qed.

(** What [score_and_flags] returns when no exception is raised: the flags
    in their order, and the sum of their points. *)
Lemma score_and_flags_ok (invoice_data : RawInvoice) (score : Z) (flags : list Flag) :
  score_and_flags invoice_data = inr (score, flags) ->
  exists total x name,
    Terms.total_of invoice_data = Some total
    /\ as_num total = Some x
    /\ Py.get (vendor_name invoice_data) (v_str "") = v_str name
    /\ flags = Terms.flags_in_order invoice_data total x name
    /\ score = Terms.sum_points flags.
Proof.
  intros H. pose proof (score_and_flags_outcome invoice_data) as Hout.
  rewrite H in Hout.
  destruct (Terms.total_of invoice_data) as [total |]; [| discriminate].
  destruct (as_num total) as [x |] eqn:Hx; [| discriminate].
  destruct (Py.get (vendor_name invoice_data) (v_str "")) as [| b | y | name];
    try discriminate.
  exists total, x, name. do 3 (split; [reflexivity || exact Hx |]).
  cbv zeta in Hout.
  destruct (Py.get (invoice_number invoice_data) (v_str "")) as [| b | y | s];
    try destruct (truthy _); try discriminate; injection Hout as -> ->;
    split; reflexivity.
Qed.

End FraudScoreFacts.

(** ** [detect_fraud]: the report *)

Module FraudScoreProperties.

Import FraudScore.
Local Open Scope string_scope.
Local Open Scope list_scope.
Local Open Scope Z_scope.

(** The report by the score and the flags. *)
Lemma detect_fraud_result (invoice_data : RawInvoice) (clk : Py.Clock) :
  Py.run (detect_fraud invoice_data) clk
  = match score_and_flags invoice_data with
    | inl e => inl e
    | inr (score, fl) =>
        inr {| fraud_score := Z.min score 100;
               risk_level :=
                 if 50 <=? score then level_high
                 else if 25 <=? score then level_medium
                 else level_low;
               flags := fl;
               recommendation :=
                 if 25 <=? score then manual_review else auto_process;
               requires_verification := 25 <=? score;
               analyzed_at := clk 0%nat |}
    end.
Proof.
  unfold detect_fraud.
  destruct (score_and_flags invoice_data) as [e | [score fl]]; reflexivity.
Qed.

(** A report comes with the flags in their order and the sum of their
    points. *)
Lemma report_flags (invoice_data : RawInvoice) (clk : Py.Clock) (r : Report) :
  Py.run (detect_fraud invoice_data) clk = inr r ->
  exists total x name,
    Terms.total_of invoice_data = Some total
    /\ as_num total = Some x
    /\ Py.get (vendor_name invoice_data) (v_str "") = v_str name
    /\ flags r = Terms.flags_in_order invoice_data total x name
    /\ score_and_flags invoice_data = inr (Terms.sum_points (flags r), flags r).
Proof.
  rewrite detect_fraud_result.
  destruct (score_and_flags invoice_data) as [e | [score fl]] eqn:Hs; [discriminate |].
  intros H. injection H as <-. cbn [flags].
  destruct (FraudScoreFacts.score_and_flags_ok _ _ _ Hs)
    as (total & x & name & Ht & Hx & Hv & Hf & Hsum).
  exists total, x, name. subst score. repeat split; assumption || reflexivity.
Qed.

Lemma points_nonneg (f : Flag) : 0 <= Terms.points f.
Proof.
  unfold Terms.points. destruct (f_type f); try lia. destruct (f_detail f); lia.
Qed.

Lemma sum_points_nonneg (l : list Flag) : 0 <= Terms.sum_points l.
Proof.
  induction l as [| f l IH]; [unfold Terms.sum_points; simpl; lia |].
  rewrite FraudScoreFacts.sum_points_cons. pose proof (points_nonneg f). lia.
Qed.

Lemma sum_points_in (f : Flag) (l : list Flag) :
  In f l -> Terms.points f <= Terms.sum_points l.
Proof.
  induction l as [| g l IH]; [intros [] |].
  rewrite FraudScoreFacts.sum_points_cons. intros [-> | H].
  - pose proof (sum_points_nonneg l). lia.
  - pose proof (points_nonneg g). specialize (IH H). lia.
Qed.

Lemma in_if_singleton (c : bool) (g f : Flag) :
  In f (if c then [g] else []) <-> f = g /\ c = true.
Proof.
  destruct c; simpl; split.
  - intros [<- | []]. split; reflexivity.
  - intros [-> _]. left. reflexivity.
  - intros [].
  - intros [_ H]. discriminate H.
Qed.

(** The flags raised, one finding after the other. *)
Lemma in_flags_in_order (invoice_data : RawInvoice) (total : Value) (x : Q)
    (name : string) (f : Flag) :
  In f (Terms.flags_in_order invoice_data total x name)
  <-> (f = mkFlag suspicious_amount high (amount_is total)
       /\ in_amounts total suspicious_amounts = true)
      \/ (f = mkFlag round_amount low manual_entry
          /\ Py.ltb 100 x && Qeq_bool (Py.mod_ x 100) 0 = true)
      \/ (exists suspicious,
            In suspicious suspicious_vendors
            /\ Py.contains suspicious (Py.lower name) = true
            /\ f = mkFlag suspicious_vendor high (contains_keyword suspicious))
      \/ (f = mkFlag missing_fields medium
                (fields_missing (Terms.missing_names invoice_data))
          /\ Terms.missing_names invoice_data <> [])
      \/ (f = mkFlag bank_account_change high bank_differs
          /\ truthy (bank_account_changed invoice_data) = true)
      \/ (f = mkFlag unusual_invoice_format low unusual_format
          /\ exists s, Py.get (invoice_number invoice_data) (v_str "") = v_str s
                       /\ Py.truthy_str s = true
                       /\ Z.of_nat (String.length s) < 3).
Proof.
  unfold Terms.flags_in_order. rewrite !in_app_iff, !in_if_singleton, in_flat_map.
  assert (Hmissing :
    In f (match Terms.missing_names invoice_data with
          | [] => []
          | m :: ms => [mkFlag missing_fields medium (fields_missing (m :: ms))]
          end)
    <-> f = mkFlag missing_fields medium
              (fields_missing (Terms.missing_names invoice_data))
        /\ Terms.missing_names invoice_data <> []).
  { destruct (Terms.missing_names invoice_data) as [| m ms]; simpl; split.
    - intros [].
    - intros [_ H]. contradiction H. reflexivity.
    - intros [<- | []]. split; [reflexivity | discriminate].
    - intros [-> _]. left. reflexivity. }
  assert (Hnumber :
    In f (match Py.get (invoice_number invoice_data) (v_str "") with
          | v_str s =>
              if Py.truthy_str s && (Z.of_nat (String.length s) <? 3)
              then [mkFlag unusual_invoice_format low unusual_format]
              else []
          | _ => []
          end)
    <-> f = mkFlag unusual_invoice_format low unusual_format
        /\ exists s, Py.get (invoice_number invoice_data) (v_str "") = v_str s
                     /\ Py.truthy_str s = true
                     /\ Z.of_nat (String.length s) < 3).
  { destruct (Py.get (invoice_number invoice_data) (v_str "")) as [| b | y | s].
    1-3: split; [intros [] | intros (_ & s & Hs & _); discriminate Hs].
    rewrite in_if_singleton, andb_true_iff, Z.ltb_lt. split.
    - intros (-> & Ht & Hl). split; [reflexivity |]. exists s. repeat split; assumption.
    - intros (-> & s' & Hs & Ht & Hl). injection Hs as <-. repeat split; assumption. }
  assert (Hkeyword :
    (exists suspicious,
       In suspicious suspicious_vendors
       /\ In f (if Py.contains suspicious (Py.lower name)
                then [mkFlag suspicious_vendor high (contains_keyword suspicious)]
                else []))
    <-> exists suspicious,
          In suspicious suspicious_vendors
          /\ Py.contains suspicious (Py.lower name) = true
          /\ f = mkFlag suspicious_vendor high (contains_keyword suspicious)).
  { split; intros (k & Hk & H); exists k; (split; [exact Hk |]).
    - apply in_if_singleton in H. destruct H as [H1 H2]. split; assumption.
    - apply in_if_singleton. destruct H as [H1 H2]. split; assumption. }
  rewrite Hmissing, Hnumber, Hkeyword. reflexivity.
Qed.

(** Every flag raised stands for at least ten points. *)
Lemma points_in_order (invoice_data : RawInvoice) (total : Value) (x : Q)
    (name : string) (f : Flag) :
  In f (Terms.flags_in_order invoice_data total x name) -> 10 <= Terms.points f.
Proof.
  rewrite in_flags_in_order.
  intros [[-> _] | [[-> _] | [(k & _ & _ & ->) | [[-> Hm] | [[-> _] | [-> _]]]]]];
    unfold Terms.points; cbn [f_type f_detail]; try lia.
  destruct (Terms.missing_names invoice_data) as [| m ms]; [contradiction Hm; reflexivity |].
  cbn [length]. lia.
Qed.

(** The fields of a report by the points of its flags. *)
Lemma report_fields (invoice_data : RawInvoice) (clk : Py.Clock) (r : Report) :
  Py.run (detect_fraud invoice_data) clk = inr r ->
  let score := Terms.sum_points (flags r) in
  fraud_score r = Z.min score 100
  /\ risk_level r = (if 50 <=? score then level_high
                     else if 25 <=? score then level_medium
                     else level_low)
  /\ recommendation r = (if 25 <=? score then manual_review else auto_process)
  /\ requires_verification r = (25 <=? score).
Proof.
  intros H. destruct (report_flags _ _ _ H) as (total & x & name & _ & _ & _ & _ & Hs).
  rewrite detect_fraud_result, Hs in H. injection H as Hr.
  revert Hr. generalize (Terms.sum_points (flags r)) as score.
  intros score <-. cbv zeta.
  cbn [fraud_score risk_level flags recommendation requires_verification].
  repeat split; reflexivity.
Qed.

(** X10: the report of [detect_fraud] follows from its flags: the score is
    the sum of the points of the flags, at most 100; the risk level is
    high from 50, medium from 25 and low below; a review is required and
    recommended from 25. *)
Theorem report_follows_flags (invoice_data : RawInvoice) (clk : Py.Clock) (r : Report) :
  Py.run (detect_fraud invoice_data) clk = inr r ->
  fraud_score r = Z.min (Terms.sum_points (flags r)) 100
  /\ 0 <= fraud_score r <= 100
  /\ (risk_level r = level_high <-> 50 <= fraud_score r)
  /\ (risk_level r = level_medium <-> 25 <= fraud_score r < 50)
  /\ (risk_level r = level_low <-> fraud_score r < 25)
  /\ (requires_verification r = true <-> 25 <= fraud_score r)
  /\ (recommendation r = manual_review <-> requires_verification r = true).
Proof.
  intros H. destruct (report_fields _ _ _ H) as (Hscore & Hlevel & Hrec & Hreq).
  cbv zeta in *. rewrite Hscore, Hlevel, Hrec, Hreq.
  pose proof (sum_points_nonneg (flags r)) as Hnn.
  revert Hnn. generalize (Terms.sum_points (flags r)) as score. intros score Hnn.
  destruct (Z.leb_spec 50 score) as [H50 | H50];
    destruct (Z.leb_spec 25 score) as [H25 | H25];
    repeat split; intros; try discriminate; try reflexivity; try lia.
Qed.

Lemma report_follows_flags_witness :
  exists r,
    Py.run (detect_fraud MoreExamples.text_total_invoice) Examples.epoch_clock = inr r
    /\ fraud_score r = Z.min (Terms.sum_points (flags r)) 100
    /\ fraud_score r = 65
    /\ risk_level r = level_high.
Proof.
  destruct (Py.run (detect_fraud MoreExamples.text_total_invoice) Examples.epoch_clock)
    as [e | r] eqn:Hr; [discriminate Hr |].
  exists r. split; [reflexivity |].
  destruct (report_follows_flags MoreExamples.text_total_invoice Examples.epoch_clock r Hr)
    as (Hs & _).
  split; [exact Hs |].
  injection Hr as <-. split; reflexivity.
Defined.

Lemma run_error (invoice_data : RawInvoice) (clk : Py.Clock) (e : PyError) :
  Py.run (detect_fraud invoice_data) clk = inl e
  <-> score_and_flags invoice_data = inl e.
Proof.
  rewrite detect_fraud_result.
  destruct (score_and_flags invoice_data) as [e' | [score fl]]; split; intros H;
    try discriminate H; injection H as ->; reflexivity.
Qed.

Lemma run_report (invoice_data : RawInvoice) (clk : Py.Clock) :
  (exists r, Py.run (detect_fraud invoice_data) clk = inr r)
  <-> exists p, score_and_flags invoice_data = inr p.
Proof.
  rewrite detect_fraud_result.
  destruct (score_and_flags invoice_data) as [e' | [score fl]]; split; intros [y H];
    try discriminate H; eexists; reflexivity.
Qed.

Lemma total_readable_iff (invoice_data : RawInvoice) :
  Terms.total_readable invoice_data
  <-> exists total x, Terms.total_of invoice_data = Some total /\ as_num total = Some x.
Proof.
  unfold Terms.total_readable, Terms.total_of.
  destruct (total_amount invoice_data) as [[| b | x | s] |]; cbn [Py.get]; split.
  - intros [H _]. contradiction H. reflexivity.
  - intros (t & x & Ht & Hx). injection Ht as <-. discriminate Hx.
  - intros _. eexists. eexists. split; reflexivity.
  - intros _. split; [discriminate | intros s H; discriminate H].
  - intros _. eexists. eexists. split; reflexivity.
  - intros _. split; [discriminate | intros s H; discriminate H].
  - intros [_ H]. specialize (H s eq_refl).
    destruct (float_of (keep_digits_dots s)) as [x |]; [| contradiction H; reflexivity].
    eexists. eexists. split; reflexivity.
  - intros (t & x & Ht & Hx). split; [discriminate |].
    intros s' H. injection H as <-.
    destruct (float_of (keep_digits_dots s)); discriminate.
  - intros _. eexists. eexists. split; reflexivity.
  - intros _. split; [discriminate | intros s H; discriminate H].
Qed.

Lemma total_unreadable_iff (invoice_data : RawInvoice) :
  (exists s, total_amount invoice_data = Some (v_str s)
             /\ float_of (keep_digits_dots s) = None)
  <-> Terms.total_of invoice_data = None.
Proof.
  unfold Terms.total_of.
  destruct (total_amount invoice_data) as [[| b | x | s] |]; cbn [Py.get]; split;
    try (intros (s' & H & _); discriminate H); try discriminate.
  - intros (s' & H & Hf). injection H as <-. rewrite Hf. reflexivity.
  - intros H. exists s. split; [reflexivity |].
    destruct (float_of (keep_digits_dots s)); [discriminate H | reflexivity].
Qed.

Lemma total_null_iff (invoice_data : RawInvoice) :
  total_amount invoice_data = Some v_null
  <-> exists total, Terms.total_of invoice_data = Some total /\ as_num total = None.
Proof.
  unfold Terms.total_of.
  destruct (total_amount invoice_data) as [[| b | x | s] |]; cbn [Py.get]; split;
    try discriminate;
    try (intros (t & Ht & Hx); injection Ht as <-; discriminate Hx).
  - intros _. eexists. split; reflexivity.
  - intros _. reflexivity.
  - intros (t & Ht & Hx).
    destruct (float_of (keep_digits_dots s)); [| discriminate Ht].
    injection Ht as <-. discriminate Hx.
Qed.

Lemma vendor_is_text_iff (invoice_data : RawInvoice) :
  Terms.vendor_is_text invoice_data
  <-> exists name, Py.get (vendor_name invoice_data) (v_str "") = v_str name.
Proof.
  unfold Terms.vendor_is_text.
  destruct (vendor_name invoice_data) as [[| b | x | s] |]; cbn [Py.get]; split;
    try (intros [H | [name H]]; discriminate H);
    try (intros [name H]; discriminate H).
  - intros _. eexists. reflexivity.
  - intros _. right. eexists. reflexivity.
  - intros _. eexists. reflexivity.
  - intros _. left. reflexivity.
Qed.

Lemma number_is_text_or_false_iff (invoice_data : RawInvoice) :
  Terms.number_is_text_or_false invoice_data
  <-> match Py.get (invoice_number invoice_data) (v_str "") with
      | v_str _ => True
      | v => truthy (Some v) = false
      end.
Proof.
  unfold Terms.number_is_text_or_false.
  destruct (invoice_number invoice_data) as [[| b | x | s] |]; cbn [Py.get truthy]; split;
    intros H; try exact I; try (left; exact H); try (left; reflexivity);
    try (destruct H as [H | [s' H]]; [exact H | discriminate H]);
    try (right; eexists; reflexivity).
Qed.

Ltac outcome_leaf :=
  repeat split; intros;
  repeat match goal with
         | H : _ /\ _ |- _ => destruct H
         | H : _ \/ _ |- _ => destruct H
         | H : exists _, _ |- _ => destruct H
         | H : Some _ = Some _ |- _ => injection H as H; subst
         end;
  try discriminate; try congruence; try exact I;
  try (eexists; reflexivity);
  try (eexists; eexists; split; [reflexivity | eassumption]);
  try (right; split; [eexists; eexists; split; [reflexivity | eassumption] |];
       split; [eexists; reflexivity | discriminate]);
  try (firstorder congruence).

(** X11: when [detect_fraud] ends in its [except] branch, and with which
    exception: a text total without a number is a [ValueError]; a vendor
    name that is no text is an [AttributeError]; a total of [None], or an
    invoice number that is true and no text, is a [TypeError]; otherwise
    there is a report. *)
Theorem detect_fraud_outcome (invoice_data : RawInvoice) (clk : Py.Clock) :
  ((exists r, Py.run (detect_fraud invoice_data) clk = inr r)
   <-> Terms.total_readable invoice_data
       /\ Terms.vendor_is_text invoice_data
       /\ Terms.number_is_text_or_false invoice_data)
  /\ (Py.run (detect_fraud invoice_data) clk = inl ValueError
      <-> exists s, total_amount invoice_data = Some (v_str s)
                    /\ float_of (keep_digits_dots s) = None)
  /\ (Py.run (detect_fraud invoice_data) clk = inl AttributeError
      <-> Terms.total_readable invoice_data
          /\ ~ Terms.vendor_is_text invoice_data)
  /\ (Py.run (detect_fraud invoice_data) clk = inl TypeError
      <-> total_amount invoice_data = Some v_null
          \/ (Terms.total_readable invoice_data
              /\ Terms.vendor_is_text invoice_data
              /\ ~ Terms.number_is_text_or_false invoice_data)).
Proof.
  rewrite run_report, !run_error.
  rewrite total_unreadable_iff, total_null_iff, total_readable_iff,
    vendor_is_text_iff, number_is_text_or_false_iff.
  pose proof (FraudScoreFacts.score_and_flags_outcome invoice_data) as Hout.
  destruct (Terms.total_of invoice_data) as [total |];
    [destruct (as_num total) as [x |] eqn:Hx;
     [destruct (Py.get (vendor_name invoice_data) (v_str "")) as [| b | y | name];
      [| | | cbv zeta in Hout;
             destruct (Py.get (invoice_number invoice_data) (v_str ""))
               as [| b | y | s];
             try destruct (truthy _) eqn:Htruthy] |] |];
    rewrite Hout; clear Hout; outcome_leaf.
Qed.

(** X12: a total given as a text is scored as the number that its digits
    and dots denote, whatever else the text holds (a sign, a currency, a
    thousands separator), provided that number is not zero. *)
Theorem text_total_scored_as_number (invoice_data : RawInvoice) (s : string) (x : Q)
    (clk : Py.Clock) :
  total_amount invoice_data = Some (v_str s) ->
  float_of (keep_digits_dots s) = Some x ->
  ~ (x == 0)%Q ->
  Py.run (detect_fraud invoice_data) clk
  = Py.run (detect_fraud (Terms.with_total invoice_data (v_num x))) clk.
Proof.
  intros Ht Hf Hx. rewrite !detect_fraud_result.
  assert (Hs : Py.truthy_str s = true).
  { destruct s as [| c s]; [discriminate Hf | reflexivity]. }
  assert (Hn : Py.truthy_num x = true).
  { unfold Py.truthy_num. destruct (Qeq_bool x 0) eqn:E; [| reflexivity].
    apply Qeq_bool_eq in E. contradiction (Hx E). }
  assert (Heq : score_and_flags invoice_data
                = score_and_flags (Terms.with_total invoice_data (v_num x))).
  { unfold score_and_flags, critical_fields.
    cbn [Terms.with_total total_amount vendor_name invoice_number invoice_date
           bank_account_changed].
    rewrite Ht. cbn [Py.get List.filter snd truthy negb map fst]. rewrite Hf, Hs, Hn.
    reflexivity. }
  rewrite Heq. reflexivity.
Qed.

Lemma text_total_scored_as_number_witness :
  Py.run (detect_fraud MoreExamples.text_total_invoice) Examples.epoch_clock
  = Py.run (detect_fraud
              (Terms.with_total MoreExamples.text_total_invoice (v_num (500000 # 100))))
      Examples.epoch_clock.
Proof.
  apply (text_total_scored_as_number MoreExamples.text_total_invoice "-5,000.00"
           (500000 # 100) Examples.epoch_clock).
  - reflexivity.
  - reflexivity.
  - discriminate.
Defined.

(** X13: a report without flags has the score 0 and conversely, since every
    flag stands for at least ten points; and a flag for a suspicious
    amount or a suspicious vendor name is enough for a review. *)
Theorem flags_and_score (invoice_data : RawInvoice) (clk : Py.Clock) (r : Report) :
  Py.run (detect_fraud invoice_data) clk = inr r ->
  (flags r = [] <-> fraud_score r = 0)
  /\ (forall f, In f (flags r) -> 10 <= Terms.points f)
  /\ (forall f, In f (flags r) ->
        f_type f = suspicious_amount \/ f_type f = suspicious_vendor ->
        requires_verification r = true /\ recommendation r = manual_review).
Proof.
  intros H.
  destruct (report_fields _ _ _ H) as (Hscore & _ & Hrec & Hreq). cbv zeta in *.
  destruct (report_flags _ _ _ H) as (total & x & name & _ & _ & _ & Hflags & _).
  assert (Hten : forall f, In f (flags r) -> 10 <= Terms.points f).
  { intros f Hf. rewrite Hflags in Hf. exact (points_in_order _ _ _ _ _ Hf). }
  split; [| split; [exact Hten |]].
  - split.
    + intros Hnil. rewrite Hscore, Hnil. reflexivity.
    + intros Hzero. destruct (flags r) as [| f l] eqn:Hl; [reflexivity |].
      specialize (Hten f (or_introl eq_refl)).
      rewrite FraudScoreFacts.sum_points_cons in Hscore.
      pose proof (sum_points_nonneg l). lia.
  - intros f Hf Htype.
    assert (H25 : 25 <= Terms.sum_points (flags r)).
    { pose proof (sum_points_in f _ Hf) as Hle.
      unfold Terms.points in Hle. destruct Htype as [Ht | Ht]; rewrite Ht in Hle; lia. }
    apply Z.leb_le in H25. rewrite Hrec, Hreq, H25. split; reflexivity.
Qed.

Lemma flags_and_score_witness :
  exists r,
    Py.run (detect_fraud MoreExamples.bank_change_invoice) Examples.epoch_clock = inr r
    /\ (flags r = [] <-> fraud_score r = 0)
    /\ fraud_score r = 20
    /\ recommendation r = auto_process.
Proof.
  destruct (Py.run (detect_fraud MoreExamples.bank_change_invoice) Examples.epoch_clock)
    as [e | r] eqn:Hr; [discriminate Hr |].
  exists r. split; [reflexivity |].
  destruct (flags_and_score MoreExamples.bank_change_invoice Examples.epoch_clock r Hr)
    as (Hs & _).
  split; [exact Hs |].
  injection Hr as <-. split; reflexivity.
Defined.

Lemma critical_fields_functional (invoice_data : RawInvoice) (field : string)
    (v1 v2 : option Value) :
  In (field, v1) (critical_fields invoice_data) ->
  In (field, v2) (critical_fields invoice_data) -> v1 = v2.
Proof.
  unfold critical_fields. simpl.
  intros [H1 | [H1 | [H1 | [H1 | []]]]] [H2 | [H2 | [H2 | [H2 | []]]]];
    apply pair_equal_spec in H1; destruct H1 as [<- <-];
    apply pair_equal_spec in H2; destruct H2 as [H2 <-];
    try discriminate H2; reflexivity.
Qed.

Lemma in_missing_names (invoice_data : RawInvoice) (field : string) :
  In field (Terms.missing_names invoice_data)
  <-> exists value, In (field, value) (critical_fields invoice_data)
                    /\ truthy value = false.
Proof.
  unfold Terms.missing_names. rewrite in_map_iff. split.
  - intros ([f v] & <- & H). apply List.filter_In in H. destruct H as [Hin Ht].
    exists v. split; [exact Hin |]. cbn [snd] in Ht.
    destruct (truthy v); [discriminate Ht | reflexivity].
  - intros (v & Hin & Ht). exists (field, v). split; [reflexivity |].
    apply List.filter_In. split; [exact Hin |]. cbn [snd]. rewrite Ht. reflexivity.
Qed.

(** X14: the flag for missing fields names a critical field exactly when
    the value of the field is absent or false: [None], [False], a zero or
    an empty text. *)
Theorem missing_fields_reported (invoice_data : RawInvoice) (clk : Py.Clock)
    (r : Report) (field : string) (value : option Value) :
  Py.run (detect_fraud invoice_data) clk = inr r ->
  In (field, value) (critical_fields invoice_data) ->
  (exists fields,
     In (mkFlag missing_fields medium (fields_missing fields)) (flags r)
     /\ In field fields)
  <-> truthy value = false.
Proof.
  intros H Hin.
  destruct (report_flags _ _ _ H) as (total & x & name & _ & _ & _ & Hflags & _).
  rewrite Hflags. split.
  - intros (fields & Hf & Hfield). apply in_flags_in_order in Hf.
    destruct Hf as [[Hf _] | [[Hf _] | [(k & _ & _ & Hf) | [[Hf _] | [[Hf _] | [Hf _]]]]]];
      try discriminate Hf.
    injection Hf as ->. apply in_missing_names in Hfield.
    destruct Hfield as (v & Hv & Ht).
    rewrite (critical_fields_functional _ _ _ _ Hin Hv). exact Ht.
  - intros Ht. exists (Terms.missing_names invoice_data).
    assert (Hfield : In field (Terms.missing_names invoice_data)).
    { apply in_missing_names. exists value. split; assumption. }
    split; [| exact Hfield].
    apply in_flags_in_order. do 3 right. left. split; [reflexivity |].
    intros Hnil. rewrite Hnil in Hfield. destruct Hfield.
Qed.

Lemma missing_fields_reported_witness :
  exists r,
    Py.run (detect_fraud MoreExamples.zero_total_invoice) Examples.epoch_clock = inr r
    /\ exists fields,
         In (mkFlag missing_fields medium (fields_missing fields)) (flags r)
         /\ In "total_amount" fields.
Proof.
  destruct (Py.run (detect_fraud MoreExamples.zero_total_invoice) Examples.epoch_clock)
    as [e | r] eqn:Hr; [discriminate Hr |].
  exists r. split; [reflexivity |].
  apply (missing_fields_reported MoreExamples.zero_total_invoice Examples.epoch_clock r
           "total_amount" (Some (v_num 0)) Hr).
  - simpl. right. right. left. reflexivity.
  - reflexivity.
Defined.

(** X15: a keyword is flagged exactly when it is one of the suspicious
    keywords and occurs in the vendor name, in any case of its letters. *)
Theorem keyword_flagged (invoice_data : RawInvoice) (clk : Py.Clock) (r : Report)
    (name suspicious : string) :
  Py.run (detect_fraud invoice_data) clk = inr r ->
  Py.get (vendor_name invoice_data) (v_str "") = v_str name ->
  In (mkFlag suspicious_vendor high (contains_keyword suspicious)) (flags r)
  <-> In suspicious suspicious_vendors
      /\ Py.contains suspicious (Py.lower name) = true.
Proof.
  intros H Hname.
  destruct (report_flags _ _ _ H) as (total & x & name' & _ & _ & Hv & Hflags & _).
  rewrite Hname in Hv. injection Hv as <-.
  rewrite Hflags, in_flags_in_order. split.
  - intros [[Hf _] | [[Hf _] | [(k & Hk & Hc & Hf) | [[Hf _] | [[Hf _] | [Hf _]]]]]];
      try discriminate Hf.
    injection Hf as ->. split; assumption.
  - intros [Hk Hc]. do 2 right. left. exists suspicious. repeat split; assumption.
Qed.

Lemma keyword_flagged_witness :
  exists r,
    Py.run (detect_fraud MoreExamples.text_total_invoice) Examples.epoch_clock = inr r
    /\ In (mkFlag suspicious_vendor high (contains_keyword "test")) (flags r).
Proof.
  destruct (Py.run (detect_fraud MoreExamples.text_total_invoice) Examples.epoch_clock)
    as [e | r] eqn:Hr; [discriminate Hr |].
  exists r. split; [reflexivity |].
  apply (keyword_flagged MoreExamples.text_total_invoice Examples.epoch_clock r
           "Test Supplies Ltd" "test" Hr).
  - reflexivity.
  - split; [simpl; left; reflexivity | reflexivity].
Defined.

End FraudScoreProperties.

(** ** [suggest_gl_coding] *)

Module GLCodingProperties.

Import GLCoding.
Local Open Scope string_scope.
Local Open Scope list_scope.

Lemma max_by_score_ge (rest : list (string * nat)) (best : string * nat) :
  (snd best <= snd (max_by_score best rest))%nat.
Proof.
  revert best. induction rest as [| cs rest IH]; intros best; simpl; [lia |].
  destruct (Nat.ltb_spec (snd best) (snd cs)) as [Hlt | Hge].
  - specialize (IH cs). lia.
  - apply IH.
Qed.

(** The greatest score wins, and among equal scores the first. *)
Lemma max_by_score_first (rest : list (string * nat)) (best : string * nat) :
  exists l1 l2,
    best :: rest = l1 ++ max_by_score best rest :: l2
    /\ (forall c, In c l1 -> (snd c < snd (max_by_score best rest))%nat)
    /\ (forall c, In c l2 -> (snd c <= snd (max_by_score best rest))%nat).
Proof.
  revert best. induction rest as [| cs rest IH]; intros best; simpl.
  - exists [], []. repeat split; intros c [].
  - destruct (Nat.ltb_spec (snd best) (snd cs)) as [Hlt | Hge].
    + destruct (IH cs) as (l1 & l2 & Heq & H1 & H2).
      pose proof (max_by_score_ge rest cs) as Hcs.
      revert Heq H1 H2 Hcs. generalize (max_by_score cs rest) as m.
      intros m Heq H1 H2 Hcs.
      exists (best :: l1), l2. split; [simpl; f_equal; exact Heq |].
      split; [| exact H2].
      intros c [<- | Hc]; [lia | exact (H1 c Hc)].
    + destruct (IH best) as (l1 & l2 & Heq & H1 & H2).
      revert Heq H1 H2. generalize (max_by_score best rest) as m.
      intros m Heq H1 H2.
      destruct l1 as [| b l1].
      * simpl in Heq. injection Heq as Hb Hrest.
        exists [], (cs :: l2). split; [simpl; rewrite <- Hb, <- Hrest; reflexivity |].
        split; [intros c [] |].
        intros c [<- | Hc]; [rewrite <- Hb; exact Hge | exact (H2 c Hc)].
      * simpl in Heq. injection Heq as Hb Hrest. subst b.
        exists (best :: cs :: l1), l2.
        split; [simpl; rewrite Hrest; reflexivity |].
        split; [| exact H2].
        pose proof (H1 best (or_introl eq_refl)) as Hbest.
        intros c [<- | [<- | Hc]]; [exact Hbest | lia |].
        apply H1. right. exact Hc.
Qed.

Lemma filter_split {A : Type} (p : A -> bool) (l l1 : list A) (b : A) (l2 : list A) :
  List.filter p l = l1 ++ b :: l2 ->
  exists k1 k2,
    l = k1 ++ b :: k2 /\ List.filter p k1 = l1 /\ List.filter p k2 = l2
    /\ p b = true.
Proof.
  revert l1. induction l as [| a l IH]; intros l1; simpl.
  - intros H. destruct l1; discriminate H.
  - destruct (p a) eqn:Hp.
    + destruct l1 as [| c l1]; simpl; intros H; injection H as Ha Hl.
      * subst a. exists [], l. repeat split; assumption.
      * subst c. destruct (IH l1 Hl) as (k1 & k2 & -> & H1 & H2 & Hb).
        exists (a :: k1), k2. simpl. rewrite Hp, H1. repeat split; assumption.
    + intros H. destruct (IH l1 H) as (k1 & k2 & -> & H1 & H2 & Hb).
      exists (a :: k1), k2. simpl. rewrite Hp. repeat split; assumption.
Qed.

(** The category of the greatest score, by its place in the patterns. *)
Lemma best_of_scores (patterns : list (string * list string)) (text : string)
    (first : string * nat) (others : list (string * nat)) :
  category_scores patterns text = first :: others ->
  exists before keywords after,
    patterns = before ++ (fst (max_by_score first others), keywords) :: after
    /\ snd (max_by_score first others) = keyword_score text keywords
    /\ (0 < keyword_score text keywords)%nat
    /\ (forall c kws, In (c, kws) before ->
          (keyword_score text kws < keyword_score text keywords)%nat)
    /\ (forall c kws, In (c, kws) after ->
          (keyword_score text kws <= keyword_score text keywords)%nat).
Proof.
  intros Hscores.
  destruct (max_by_score_first others first) as (l1 & l2 & Heq & H1 & H2).
  set (m := max_by_score first others) in *. clearbody m.
  unfold category_scores in Hscores. rewrite Heq in Hscores.
  apply filter_split in Hscores.
  destruct Hscores as (k1 & k2 & Hmap & Hk1 & Hk2 & Hpos).
  apply map_eq_app in Hmap. destruct Hmap as (before & rest & -> & Hbefore & Hrest).
  apply map_eq_cons in Hrest. destruct Hrest as ([c kws] & after & -> & Hm & Hafter).
  cbn [fst snd] in Hm. subst m. cbn [fst snd] in *.
  apply Nat.ltb_lt in Hpos.
  exists before, kws, after. split; [reflexivity |]. split; [reflexivity |].
  split; [exact Hpos |]. split.
  - intros c' kws' Hin.
    destruct (Nat.ltb 0 (keyword_score text kws')) eqn:Hp;
      [| apply Nat.ltb_ge in Hp; lia].
    apply (H1 (c', keyword_score text kws')). rewrite <- Hk1, <- Hbefore.
    apply List.filter_In. split; [| exact Hp].
    apply in_map_iff. exists (c', kws'). split; [reflexivity | exact Hin].
  - intros c' kws' Hin.
    destruct (Nat.ltb 0 (keyword_score text kws')) eqn:Hp;
      [| apply Nat.ltb_ge in Hp; lia].
    apply (H2 (c', keyword_score text kws')). rewrite <- Hk2, <- Hafter.
    apply List.filter_In. split; [| exact Hp].
    apply in_map_iff. exists (c', kws'). split; [reflexivity | exact Hin].
Qed.

Lemma keyword_score_zero (text : string) (keywords : list string) :
  keyword_score text keywords = 0%nat
  <-> forall keyword, In keyword keywords -> Py.contains keyword text = false.
Proof.
  unfold keyword_score. induction keywords as [| k ks IH]; simpl.
  - split; [intros _ keyword [] | reflexivity].
  - destruct (Py.contains k text) eqn:Hk; simpl; split.
    + discriminate.
    + intros H. specialize (H k (or_introl eq_refl)). congruence.
    + intros H keyword [<- | Hin]; [exact Hk | apply IH; assumption].
    + intros H. apply IH. intros keyword Hin. apply H. right. exact Hin.
Qed.

Lemma category_scores_nil (patterns : list (string * list string)) (text : string) :
  category_scores patterns text = []
  <-> forall c keywords keyword,
        In (c, keywords) patterns -> In keyword keywords ->
        Py.contains keyword text = false.
Proof.
  unfold category_scores. induction patterns as [| [c kws] patterns IH]; simpl.
  - split; [intros _ c keywords keyword [] | reflexivity].
  - destruct (Nat.ltb_spec 0 (keyword_score text kws)) as [Hpos | Hzero]; split.
    + discriminate.
    + intros H. assert (Hz : keyword_score text kws = 0%nat).
      { apply keyword_score_zero. intros keyword Hin.
        apply (H c kws keyword); [left; reflexivity | exact Hin]. }
      lia.
    + intros H c' keywords keyword [Heq | Hin] Hk.
      * injection Heq as <- <-.
        apply (proj1 (keyword_score_zero text kws)); [lia | exact Hk].
      * apply (proj1 IH H c' keywords keyword Hin Hk).
    + intros H. apply IH. intros c' keywords keyword Hin Hk.
      apply (H c' keywords keyword); [right; exact Hin | exact Hk].
Qed.

(** The outcome of the suggestion, step by step. *)
Lemma suggest_with_cases (patterns : list (string * list string))
    (description : option string) (gl_accounts : list Account) :
  let text := Py.lower (Py.get description "") in
  match category_scores patterns text with
  | [] => suggest_with patterns description gl_accounts = no_category
  | first :: others =>
      let best := max_by_score first others in
      let matches :=
        fun acc => Py.contains (fst best) (Py.lower (Py.get (category acc) "")) in
      match List.filter matches gl_accounts with
      | [] => suggest_with patterns description gl_accounts = no_account (fst best)
      | acc :: more =>
          suggest_with patterns description gl_accounts
          = suggested (account_code acc) (account_name acc) (fst best)
              (Py.min (inject_Z (Z.of_nat (snd best)) / 3)%Q 1%Q) (firstn 2 more)
      end
  end.
Proof.
  unfold suggest_with. cbv zeta.
  destruct (category_scores patterns (Py.lower (Py.get description ""))) as [| first others];
    [reflexivity |].
  destruct (List.filter _ gl_accounts) as [| acc [| acc' more]]; reflexivity.
Qed.

(** X16: a suggestion names the first account whose category contains the
    best category, and as alternatives the next two such accounts; its
    confidence is a third of the score of the best category, at least a
    third and at most 1. *)
Theorem suggestion_is_first_match (description : option string)
    (gl_accounts : list Account) (code name : option string) (best_category : string)
    (confidence : Q) (alternatives : list Account) :
  suggest_gl_coding description gl_accounts
  = suggested code name best_category confidence alternatives ->
  let matches :=
    fun acc => Py.contains best_category (Py.lower (Py.get (category acc) "")) in
  exists before acc after keywords,
    gl_accounts = before ++ acc :: after
    /\ (forall a, In a before -> matches a = false)
    /\ matches acc = true
    /\ code = account_code acc /\ name = account_name acc
    /\ alternatives = firstn 2 (List.filter matches after)
    /\ In (best_category, keywords) gl_patterns
    /\ confidence
       = Py.min (inject_Z (Z.of_nat
                   (keyword_score (Py.lower (Py.get description "")) keywords)) / 3)%Q
           1%Q
    /\ (1 # 3 <= confidence <= 1)%Q.
Proof.
  intros H. cbv zeta.
  set (matches :=
         fun acc => Py.contains best_category (Py.lower (Py.get (category acc) ""))).
  unfold suggest_gl_coding in H.
  pose proof (suggest_with_cases gl_patterns description gl_accounts) as Hc.
  cbv zeta in Hc.
  destruct (category_scores gl_patterns (Py.lower (Py.get description "")))
    as [| first others] eqn:Hscores; [rewrite Hc in H; discriminate H |].
  destruct (best_of_scores _ _ _ _ Hscores)
    as (pbefore & keywords & pafter & Hpat & Hsnd & Hpos & _).
  destruct (List.filter _ gl_accounts) as [| acc more] eqn:Hfilter;
    rewrite Hc in H; [discriminate H |].
  injection H as <- <- <- <- <-.
  apply (filter_split _ gl_accounts []) in Hfilter.
  destruct Hfilter as (before & after & Hacc & Hbefore & Hafter & Hm).
  exists before, acc, after, keywords.
  split; [exact Hacc |]. split.
  { intros a Ha. destruct (matches a) eqn:Hma; [| reflexivity].
    assert (Hin : In a (List.filter matches before))
      by (apply List.filter_In; split; assumption).
    unfold matches in Hin. rewrite Hbefore in Hin. destruct Hin. }
  split; [exact Hm |]. do 2 (split; [reflexivity |]).
  split; [rewrite <- Hafter; reflexivity |].
  split; [rewrite Hpat; apply in_or_app; right; left; reflexivity |].
  rewrite Hsnd. split; [reflexivity |].
  set (n := keyword_score _ keywords) in *.
  assert (Hn : (1 <= inject_Z (Z.of_nat n))%Q).
  { change 1%Q with (inject_Z 1). rewrite <- Zle_Qle. lia. }
  destruct (PyFacts.min_cases (inject_Z (Z.of_nat n) / 3) 1) as [[Hlt ->] | [Hle ->]].
  - split; [discriminate | apply Qle_refl].
  - split; [| exact Hle]. apply Qle_shift_div_l; [reflexivity |].
    apply Qle_trans with 1%Q; [discriminate | exact Hn].
Qed.

Lemma suggestion_is_first_match_witness :
  exists before acc after,
    MoreExamples.ledger = before ++ acc :: after
    /\ length before = 1%nat
    /\ account_code acc = Some "6200"
    /\ firstn 2 (List.filter
                   (fun a => Py.contains "meals" (Py.lower (Py.get (category a) "")))
                   after)
       = [mkAccount (Some "Staff meals") (Some "6210") (Some "Canteen")].
Proof.
  destruct (suggestion_is_first_match (Some "Team lunch and dinner") MoreExamples.ledger
              (Some "6200") (Some "Meals") "meals" (2 # 3)
              [mkAccount (Some "Staff meals") (Some "6210") (Some "Canteen")] eq_refl)
    as (before & acc & after & keywords & Hacc & Hbefore & Hm & Hcode & _ & Halt & _).
  exists before, acc, after. split; [exact Hacc |].
  destruct before as [| a0 [| a1 before]].
  - injection Hacc as <- _. discriminate Hm.
  - injection Hacc as _ <- <-.
    split; [reflexivity |]. split; [reflexivity |]. reflexivity.
  - injection Hacc as _ Ha1 _. specialize (Hbefore a1 (or_intror (or_introl eq_refl))).
    rewrite <- Ha1 in Hbefore. discriminate Hbefore.
Defined.

(** X17: the suggested category is the first of those with the greatest
    number of keywords in the description: every category before it in
    [gl_patterns] has fewer, none after it has more. *)
Theorem best_category_is_first_greatest (description : option string)
    (gl_accounts : list Account) (best_category : string) :
  suggest_gl_coding description gl_accounts = no_account best_category
  \/ (exists code name confidence alternatives,
        suggest_gl_coding description gl_accounts
        = suggested code name best_category confidence alternatives) ->
  let text := Py.lower (Py.get description "") in
  exists before keywords after,
    gl_patterns = before ++ (best_category, keywords) :: after
    /\ (0 < keyword_score text keywords)%nat
    /\ (forall c kws, In (c, kws) before ->
          (keyword_score text kws < keyword_score text keywords)%nat)
    /\ (forall c kws, In (c, kws) after ->
          (keyword_score text kws <= keyword_score text keywords)%nat).
Proof.
  intros H. cbv zeta. unfold suggest_gl_coding in H.
  pose proof (suggest_with_cases gl_patterns description gl_accounts) as Hc.
  cbv zeta in Hc.
  destruct (category_scores gl_patterns (Py.lower (Py.get description "")))
    as [| first others] eqn:Hscores.
  { rewrite Hc in H. destruct H as [H | (c & n & q & a & H)]; discriminate H. }
  destruct (best_of_scores _ _ _ _ Hscores)
    as (before & keywords & after & Hpat & _ & Hpos & Hbefore & Hafter).
  assert (Hbest : fst (max_by_score first others) = best_category).
  { destruct (List.filter _ gl_accounts) as [| acc more]; rewrite Hc in H;
      destruct H as [H | (c & n & q & a & H)]; try discriminate H;
      injection H; intros; subst; reflexivity. }
  rewrite Hbest in Hpat.
  exists before, keywords, after. repeat split; assumption.
Qed.

Lemma best_category_is_first_greatest_witness :
  exists before keywords after,
    gl_patterns = before ++ ("office_supplies", keywords) :: after
    /\ (forall c kws, In (c, kws) after ->
          (keyword_score "expensive dinner" kws
           <= keyword_score "expensive dinner" keywords)%nat).
Proof.
  destruct (best_category_is_first_greatest (Some "Expensive dinner")
              MoreExamples.ledger "office_supplies")
    as (before & keywords & after & Hpat & _ & _ & Hafter).
  - right. exists (Some "6300"), (Some "Office supplies"), (1 # 3)%Q, []. reflexivity.
  - exists before, keywords, after. split; [exact Hpat | exact Hafter].
Defined.

(** X18: no category is found exactly when no keyword of any category
    occurs in the description in lower case; the accounts play no part. *)
Theorem no_category_iff_no_keyword (description : option string)
    (gl_accounts : list Account) :
  suggest_gl_coding description gl_accounts = no_category
  <-> forall c keywords keyword,
        In (c, keywords) gl_patterns -> In keyword keywords ->
        Py.contains keyword (Py.lower (Py.get description "")) = false.
Proof.
  rewrite <- category_scores_nil. unfold suggest_gl_coding.
  pose proof (suggest_with_cases gl_patterns description gl_accounts) as Hc.
  cbv zeta in Hc.
  destruct (category_scores gl_patterns (Py.lower (Py.get description "")))
    as [| first others].
  - split; [reflexivity | intros _; exact Hc].
  - destruct (List.filter _ gl_accounts) as [| acc more]; rewrite Hc;
      split; discriminate.
Qed.

End GLCodingProperties.

(** ** [analyze_invoice]: the composite risk *)

Module RiskProperties.

Import FraudDetection.
Local Open Scope string_scope.
Local Open Scope list_scope.
Local Open Scope Q_scope.

(** The score of calibrated checks: the cap is never reached, and the
    greatest scores need the duplicate and the price check. *)
Lemma calibrated_score (c : Checks) :
  Terms.calibrated c ->
  _calculate_anomaly_score c == Terms.contributions c
  /\ 0 <= _calculate_anomaly_score c <= 0.7725
  /\ (is_duplicate (duplicate_check c) = false -> _calculate_anomaly_score c <= 0.475)
  /\ (pa_has_anomaly (price_analysis c) = false -> _calculate_anomaly_score c <= 0.5475)
  /\ (is_duplicate (duplicate_check c) = false ->
      pa_has_anomaly (price_analysis c) = false ->
      _calculate_anomaly_score c <= 0.25
      /\ (va_is_new_vendor (vendor_analysis c) = false ->
          _calculate_anomaly_score c <= 0.19)).
Proof.
  intros (H1 & H2 & H3 & H4 & H5 & H6).
  unfold _calculate_anomaly_score, Terms.contributions, Spec.contribution.
  cbv beta iota zeta delta
    [fraud_weights w_duplicate_invoice w_price_anomaly w_rush_payment
     w_round_amount w_new_vendor w_frequency_anomaly].
  destruct (is_duplicate (duplicate_check c));
    [rewrite (H1 eq_refl) | clear H1];
    destruct (is_rush (rush_payment_check c));
    [rewrite (H3 eq_refl) | clear H3 | rewrite (H3 eq_refl) | clear H3];
    destruct (is_suspicious (round_amount_check c));
    try rewrite (H4 eq_refl);
    destruct (va_is_new_vendor (vendor_analysis c));
    try rewrite (H5 eq_refl);
    destruct (pa_has_anomaly (price_analysis c));
    destruct (pt_has_anomaly (pattern_analysis c));
    revert H2 H6;
    generalize (pa_confidence (price_analysis c)) as p;
    generalize (pt_confidence (pattern_analysis c)) as q;
    intros q p H2 H6; unfold Py.min;
    match goal with
    | |- context [Py.ltb ?a ?b] => PyFacts.cases_ltb a b
    end;
    repeat split; intros; try discriminate; lra.
Qed.

Section Analysis.

Variable np_std : list Q -> Q.

(** One analysis, from any reading of the clock on. *)
Lemma analysis_at (invoice : Invoice) (historical : list Invoice)
    (vendor : option Vendor) (clk : Py.Clock) (k : nat) :
  checks (fst (analyze_invoice np_std invoice historical vendor clk k))
  = {| duplicate_check := _check_duplicate invoice historical;
       price_analysis := _analyze_price np_std invoice historical;
       vendor_analysis := fst (_analyze_vendor vendor clk (S k));
       pattern_analysis := _analyze_patterns invoice;
       rush_payment_check :=
         fst (_check_rush_payment invoice clk (snd (_analyze_vendor vendor clk (S k))));
       round_amount_check := _check_round_amount invoice |}
  /\ anomaly_score (fst (analyze_invoice np_std invoice historical vendor clk k))
     = _calculate_anomaly_score
         (checks (fst (analyze_invoice np_std invoice historical vendor clk k)))
  /\ risk_level (fst (analyze_invoice np_std invoice historical vendor clk k))
     = _determine_risk_level
         (anomaly_score (fst (analyze_invoice np_std invoice historical vendor clk k)))
  /\ fraud_indicators (fst (analyze_invoice np_std invoice historical vendor clk k))
     = _compile_fraud_indicators
         (checks (fst (analyze_invoice np_std invoice historical vendor clk k))).
Proof.
  unfold analyze_invoice, _analyze_vendor, _check_rush_payment.
  destruct vendor as [[[created |]] |]; destruct (due_date invoice) as [due |];
    repeat split; reflexivity.
Qed.

Lemma analysis_calibrated (invoice : Invoice) (historical : list Invoice)
    (vendor : option Vendor) (clk : Py.Clock) (k : nat) :
  Terms.calibrated (checks (fst (analyze_invoice np_std invoice historical vendor clk k))).
Proof.
  destruct (analysis_at invoice historical vendor clk k) as [-> _].
  unfold Terms.calibrated.
  cbv beta iota delta
    [duplicate_check price_analysis vendor_analysis pattern_analysis
     rush_payment_check round_amount_check].
  repeat split.
  - apply FraudFacts.check_duplicate_confidence.
  - apply FraudFacts.analyze_price_confidence.
  - apply FraudFacts.analyze_price_confidence.
  - apply FraudFacts.check_rush_confidence.
  - apply FraudFacts.check_round_confidence.
  - apply FraudFacts.analyze_vendor_confidence.
  - apply FraudFacts.analyze_patterns_confidence.
  - apply FraudFacts.analyze_patterns_confidence.
Qed.

End Analysis.

(** X19: the cap of the anomaly score at 1 is never reached: the score of
    an analysed invoice is the plain sum of what the indicators add, and
    it is at most 0.7725. *)
Theorem anomaly_score_below_cap (np_std : list Q -> Q) (invoice : Invoice)
    (historical : list Invoice) (vendor : option Vendor) (clk : Py.Clock) :
  anomaly_score (Spec.risk_verdict np_std invoice historical vendor clk)
  == Terms.contributions
       (checks (Spec.risk_verdict np_std invoice historical vendor clk))
  /\ 0 <= anomaly_score (Spec.risk_verdict np_std invoice historical vendor clk)
     <= 0.7725.
Proof.
  unfold Spec.risk_verdict, Py.run.
  destruct (analysis_at np_std invoice historical vendor clk 0) as (_ & -> & _).
  destruct (calibrated_score _ (analysis_calibrated np_std invoice historical vendor clk 0))
    as (Hsum & Hrange & _).
  split; assumption.
Qed.

Lemma below_half_not_high (score : Q) :
  score < 0.5 ->
  _determine_risk_level score <> risk_high
  /\ _determine_risk_level score <> risk_critical.
Proof.
  intros H. unfold _determine_risk_level.
  PyFacts.cases_leb 0.7 score; [lra |].
  PyFacts.cases_leb 0.5 score; [lra |].
  destruct (Py.leb 0.3 score); [split; discriminate |].
  destruct (Py.leb 0.1 score); split; discriminate.
Qed.

Lemma below_critical (score : Q) :
  score < 0.7 -> _determine_risk_level score <> risk_critical.
Proof.
  intros H. unfold _determine_risk_level.
  PyFacts.cases_leb 0.7 score; [lra |].
  destruct (Py.leb 0.5 score); [discriminate |].
  destruct (Py.leb 0.3 score); [discriminate |].
  destruct (Py.leb 0.1 score); discriminate.
Qed.

Lemma below_medium (score : Q) :
  score < 0.3 ->
  _determine_risk_level score = risk_none \/ _determine_risk_level score = risk_low.
Proof.
  intros H. unfold _determine_risk_level.
  PyFacts.cases_leb 0.7 score; [lra |].
  PyFacts.cases_leb 0.5 score; [lra |].
  PyFacts.cases_leb 0.3 score; [lra |].
  destruct (Py.leb 0.1 score); [right | left]; reflexivity.
Qed.

(** A tier of high or critical needs the duplicate check, at any reading
    of the clock. *)
Lemma high_at (np_std : list Q -> Q) (invoice : Invoice) (historical : list Invoice)
    (vendor : option Vendor) (clk : Py.Clock) (k : nat) :
  Batch.is_high (risk_level (fst (analyze_invoice np_std invoice historical vendor clk k)))
  = true ->
  is_duplicate (_check_duplicate invoice historical) = true.
Proof.
  destruct (analysis_at np_std invoice historical vendor clk k)
    as (Hchecks & Hscore & Hlevel & _).
  pose proof (analysis_calibrated np_std invoice historical vendor clk k) as Hcal.
  destruct (calibrated_score _ Hcal) as (_ & _ & Hdup & _).
  rewrite Hlevel, Hscore. rewrite Hchecks in Hdup at 1. cbn [duplicate_check] in Hdup.
  intros Hhigh.
  destruct (is_duplicate (_check_duplicate invoice historical)); [reflexivity |].
  specialize (Hdup eq_refl).
  destruct (below_half_not_high (_calculate_anomaly_score
              (checks (fst (analyze_invoice np_std invoice historical vendor clk k)))))
    as [Hh Hc]; [lra |].
  clear Hlevel. revert Hhigh Hh Hc. generalize (_determine_risk_level
              (_calculate_anomaly_score
                 (checks (fst (analyze_invoice np_std invoice historical vendor clk k)))))
    as level.
  intros level Hhigh Hh Hc.
  destruct level; try discriminate Hhigh; [contradiction Hh | contradiction Hc];
    reflexivity.
Qed.

(** X20: an invoice is rated high or critical only if the duplicate check
    fired, and critical only if the price check found an anomaly as
    well. *)
Theorem high_risk_needs_duplicate (np_std : list Q -> Q) (invoice : Invoice)
    (historical : list Invoice) (vendor : option Vendor) (clk : Py.Clock) :
  risk_level (Spec.risk_verdict np_std invoice historical vendor clk) = risk_high
  \/ risk_level (Spec.risk_verdict np_std invoice historical vendor clk)
     = risk_critical ->
  is_duplicate
    (duplicate_check (checks (Spec.risk_verdict np_std invoice historical vendor clk)))
  = true
  /\ (risk_level (Spec.risk_verdict np_std invoice historical vendor clk)
      = risk_critical ->
      pa_has_anomaly
        (price_analysis (checks (Spec.risk_verdict np_std invoice historical vendor clk)))
      = true).
Proof.
  unfold Spec.risk_verdict, Py.run. intros H.
  destruct (analysis_at np_std invoice historical vendor clk 0)
    as (Hchecks & Hscore & Hlevel & _).
  split.
  - rewrite Hchecks. cbn [duplicate_check].
    apply (high_at np_std invoice historical vendor clk 0).
    destruct H as [-> | ->]; reflexivity.
  - intros Hc.
    pose proof (analysis_calibrated np_std invoice historical vendor clk 0) as Hcal.
    destruct (calibrated_score _ Hcal) as (_ & _ & _ & Hprice & _).
    destruct (pa_has_anomaly _); [reflexivity |].
    specialize (Hprice eq_refl). rewrite Hlevel, Hscore in Hc.
    exfalso. refine (below_critical _ _ Hc). lra.
Qed.

Lemma high_risk_needs_duplicate_witness :
  risk_level (Spec.risk_verdict MoreExamples.unit_std MoreExamples.inflated_copy
                Examples.three_of_hundred None Examples.epoch_clock) = risk_high
  /\ is_duplicate
       (duplicate_check
          (checks (Spec.risk_verdict MoreExamples.unit_std MoreExamples.inflated_copy
                     Examples.three_of_hundred None Examples.epoch_clock))) = true.
Proof.
  split; [reflexivity |].
  destruct (high_risk_needs_duplicate MoreExamples.unit_std MoreExamples.inflated_copy
              Examples.three_of_hundred None Examples.epoch_clock) as [H _].
  - left. reflexivity.
  - exact H.
Defined.

(** Without historical data the tier is at most low, at any reading of
    the clock; without vendor data the score is at most 0.19. *)
Lemma no_history_at (np_std : list Q -> Q) (invoice : Invoice)
    (vendor : option Vendor) (clk : Py.Clock) (k : nat) :
  anomaly_score (fst (analyze_invoice np_std invoice [] vendor clk k)) <= 0.25
  /\ (vendor = None ->
      anomaly_score (fst (analyze_invoice np_std invoice [] vendor clk k)) <= 0.19)
  /\ (risk_level (fst (analyze_invoice np_std invoice [] vendor clk k)) = risk_none
      \/ risk_level (fst (analyze_invoice np_std invoice [] vendor clk k)) = risk_low).
Proof.
  destruct (analysis_at np_std invoice [] vendor clk k)
    as (Hchecks & Hscore & Hlevel & _).
  pose proof (analysis_calibrated np_std invoice [] vendor clk k) as Hcal.
  destruct (calibrated_score _ Hcal) as (_ & _ & _ & _ & Hquiet).
  assert (Hd : is_duplicate
                 (duplicate_check
                    (checks (fst (analyze_invoice np_std invoice [] vendor clk k))))
               = false) by (rewrite Hchecks; reflexivity).
  assert (Hp : pa_has_anomaly
                 (price_analysis
                    (checks (fst (analyze_invoice np_std invoice [] vendor clk k))))
               = false) by (rewrite Hchecks; reflexivity).
  destruct (Hquiet Hd Hp) as [H25 H19].
  rewrite Hlevel, Hscore. split; [exact H25 |]. split.
  - intros Hv. apply H19. rewrite Hchecks, Hv. reflexivity.
  - apply below_medium. lra.
Qed.

(** X21: without historical data an invoice is never rated above low:
    the score is at most 0.25, whatever the invoice and the vendor. *)
Theorem without_history_low_risk (np_std : list Q -> Q) (invoice : Invoice)
    (vendor : option Vendor) (clk : Py.Clock) :
  anomaly_score (Spec.risk_verdict np_std invoice [] vendor clk) <= 0.25
  /\ (risk_level (Spec.risk_verdict np_std invoice [] vendor clk) = risk_none
      \/ risk_level (Spec.risk_verdict np_std invoice [] vendor clk) = risk_low).
Proof.
  unfold Spec.risk_verdict, Py.run.
  destruct (no_history_at np_std invoice vendor clk 0) as (H25 & _ & Hlevel).
  split; assumption.
Qed.

End RiskProperties.

(** ** The single checks of [fraud_detection.py] *)

Module ChecksProperties.

Import FraudDetection.
Local Open Scope string_scope.
Local Open Scope list_scope.
Local Open Scope Q_scope.

(** Whole days, rounded down: at most [n] days means less than [n + 1]
    days. *)
Lemma days_le (a b n : Z) :
  (Py.days_between a b <= n <-> a - b < (n + 1) * Py.day_us)%Z.
Proof.
  unfold Py.days_between, Py.day_us.
  pose proof (Z.div_mod (a - b) 86400000000 ltac:(discriminate)) as Hdiv.
  pose proof (Z.mod_pos_bound (a - b) 86400000000 ltac:(reflexivity)) as Hmod.
  split; intros H; nia.
Qed.

Lemma days_lt (a b n : Z) :
  (Py.days_between a b < n <-> a - b < n * Py.day_us)%Z.
Proof.
  pose proof (days_le a b (n - 1)) as H.
  replace (n - 1 + 1)%Z with n in H by lia. rewrite <- H. lia.
Qed.

(** X22: a payment is a rush payment exactly when the due date is less
    than four days after the time of the check; in particular an overdue
    invoice is always one. *)
Theorem rush_payment_window (invoice : Invoice) (due : Py.datetime) (clk : Py.Clock)
    (k : nat) :
  due_date invoice = Some due ->
  (is_rush (fst (_check_rush_payment invoice clk k)) = true
   <-> (due - clk k < 4 * Py.day_us)%Z)
  /\ ((due <= clk k)%Z -> is_rush (fst (_check_rush_payment invoice clk k)) = true).
Proof.
  intros Hdue.
  assert (Hiff : is_rush (fst (_check_rush_payment invoice clk k)) = true
                 <-> (due - clk k < 4 * Py.day_us)%Z).
  { unfold _check_rush_payment. rewrite Hdue.
    cbv beta iota zeta delta [Py.bind Py.now Py.ret fst snd is_rush].
    cbv beta iota delta [thresholds rush_payment_days].
    rewrite Z.leb_le. apply (days_le due (clk k) 3). }
  split; [exact Hiff |].
  intros Hover. apply Hiff. unfold Py.day_us. lia.
Qed.

Lemma rush_payment_window_witness :
  is_rush (fst (_check_rush_payment Examples.resubmitted_due Examples.next_day_clock 0%nat))
  = true.
Proof.
  destruct (rush_payment_window Examples.resubmitted_due
              (4 * Py.day_us + 12 * Py.hour_us)%Z Examples.next_day_clock 0%nat eq_refl)
    as [H _].
  apply H. reflexivity.
Defined.

(** X23: a vendor is new exactly when it was created less than thirty
    days before the time of the check; a vendor without a creation date
    is never new. *)
Theorem new_vendor_window (vendor : Vendor) (clk : Py.Clock) (k : nat) :
  match v_created_at vendor with
  | Some created =>
      va_is_new_vendor (fst (_analyze_vendor (Some vendor) clk k)) = true
      <-> (clk k - created < 30 * Py.day_us)%Z
  | None => va_is_new_vendor (fst (_analyze_vendor (Some vendor) clk k)) = false
  end.
Proof.
  unfold _analyze_vendor. destruct (v_created_at vendor) as [created |].
  - cbv beta iota zeta delta [Py.bind Py.now Py.ret fst snd va_is_new_vendor].
    cbv beta iota delta [thresholds new_vendor_days].
    rewrite Z.ltb_lt. apply (days_lt (clk k) created 30).
  - reflexivity.
Qed.

(** *** Duplicates *)

Lemma opt_eqb_string (a b : option string) :
  Py.opt_eqb String.eqb a b = true <-> a = b.
Proof.
  destruct a as [x |], b as [y |]; simpl; split; intros H;
    try discriminate H; try reflexivity.
  - apply String.eqb_eq in H. rewrite H. reflexivity.
  - injection H as ->. apply String.eqb_refl.
Qed.

Lemma truthy_str_iff (s : string) : Py.truthy_str s = true <-> s <> "".
Proof.
  unfold Py.truthy_str. destruct (String.eqb_spec s ""); simpl; split; intros H;
    try discriminate H; try reflexivity; try assumption.
  contradiction (H e).
Qed.

Lemma truthy_num_iff (x : Q) : Py.truthy_num x = true <-> ~ x == 0.
Proof.
  unfold Py.truthy_num. destruct (Qeq_bool x 0) eqn:E; simpl; split; intros H;
    try discriminate H; try reflexivity.
  - apply Qeq_bool_eq in E. contradiction (H E).
  - intros Hx. apply Qeq_eq_bool in Hx. congruence.
Qed.

Local Abbreviation key_reason e :=
  (In "same_invoice_number" (match_reasons e) \/ In "same_amount" (match_reasons e)).

(** One historical invoice adds an entry exactly when it is another
    record and the number or the amount matches; the vendor alone is no
    reason.  The comparisons as the code evaluates them. *)
Lemma check_historical_bool (invoice : Invoice) (duplicates : list DuplicateEntry)
    (hist : Invoice) :
  exists added,
    check_historical invoice duplicates hist = duplicates ++ added
    /\ (added <> []
        <-> Py.opt_eqb String.eqb (_id hist) (_id invoice) = false
            /\ (Py.opt_eqb String.eqb (invoice_number hist)
                  (Some (Py.get (invoice_number invoice) ""))
                && Py.truthy_str (Py.get (invoice_number invoice) "") = true
                \/ (Py.truthy_num (Py.get (total_amount hist) 0)
                    && Py.truthy_num (Py.get (total_amount invoice) 0) = true
                    /\ Py.ltb (Qabs (Py.get (total_amount hist) 0
                                     - Py.get (total_amount invoice) 0)
                               / Py.max (Py.get (total_amount hist) 0) 1) 0.01 = true)))
    /\ Forall (fun e => key_reason e) added.
Proof.
  unfold check_historical. cbv zeta.
  generalize (Py.opt_eqb String.eqb (_id hist) (_id invoice)) as b0.
  generalize (Py.opt_eqb String.eqb (invoice_number hist)
                (Some (Py.get (invoice_number invoice) ""))
              && Py.truthy_str (Py.get (invoice_number invoice) "")) as b1.
  generalize (Py.truthy_num (Py.get (total_amount hist) 0)
              && Py.truthy_num (Py.get (total_amount invoice) 0)) as b2.
  generalize (Py.ltb (Qabs (Py.get (total_amount hist) 0
                            - Py.get (total_amount invoice) 0)
                      / Py.max (Py.get (total_amount hist) 0) 1) 0.01) as b3.
  generalize (Py.opt_eqb String.eqb (vendor_of hist) (vendor_of invoice)) as b6.
  generalize (Py.or_ Py.truthy_str (_id hist) (invoice_id hist)) as id.
  intros id b6 b3 b2 b1 b0.
  destruct b0, b1, b2, b3, b6; cbn [app];
    (eexists; split; [try reflexivity; symmetry; apply app_nil_r |]);
    (split;
     [split;
      [intros H; first [contradiction H; reflexivity | split; [reflexivity | auto]]
      | intros [H0 [H1 | [H2 H3]]]; discriminate]
     | try (constructor; [cbn [match_reasons In]; auto 6 | constructor]);
       try constructor]).
Qed.

Lemma number_matches_iff (invoice hist : Invoice) :
  Py.opt_eqb String.eqb (invoice_number hist) (Some (Py.get (invoice_number invoice) ""))
  && Py.truthy_str (Py.get (invoice_number invoice) "") = true
  <-> invoice_number hist = Some (Py.get (invoice_number invoice) "")
      /\ Py.get (invoice_number invoice) "" <> "".
Proof. rewrite andb_true_iff, opt_eqb_string, truthy_str_iff. reflexivity. Qed.

Lemma amount_matches_iff (invoice hist : Invoice) :
  Py.truthy_num (Py.get (total_amount hist) 0)
  && Py.truthy_num (Py.get (total_amount invoice) 0) = true
  /\ Py.ltb (Qabs (Py.get (total_amount hist) 0 - Py.get (total_amount invoice) 0)
             / Py.max (Py.get (total_amount hist) 0) 1) 0.01 = true
  <-> ~ Py.get (total_amount hist) 0 == 0
      /\ ~ Py.get (total_amount invoice) 0 == 0
      /\ Qabs (Py.get (total_amount hist) 0 - Py.get (total_amount invoice) 0)
         / Py.max (Py.get (total_amount hist) 0) 1 < 0.01.
Proof.
  rewrite andb_true_iff, !truthy_num_iff. split.
  - intros [[H1 H2] H3]. apply PyFacts.ltb_lt in H3. repeat split; assumption.
  - intros (H1 & H2 & H3). split; [split; assumption |]. apply PyFacts.ltb_lt. exact H3.
Qed.

Lemma other_record_iff (invoice hist : Invoice) :
  Py.opt_eqb String.eqb (_id hist) (_id invoice) = false <-> _id hist <> _id invoice.
Proof.
  rewrite <- opt_eqb_string.
  destruct (Py.opt_eqb String.eqb (_id hist) (_id invoice)); split; intros H;
    try discriminate H; try reflexivity; try discriminate.
  contradiction H. reflexivity.
Qed.

(** The same in terms of the invoices. *)
Lemma check_historical_adds (invoice : Invoice) (duplicates : list DuplicateEntry)
    (hist : Invoice) :
  exists added,
    check_historical invoice duplicates hist = duplicates ++ added
    /\ (added <> [] <-> Terms.resembles invoice hist)
    /\ Forall (fun e => key_reason e) added.
Proof.
  destruct (check_historical_bool invoice duplicates hist) as (added & Heq & Hiff & Hall).
  exists added. split; [exact Heq |]. split; [| exact Hall].
  rewrite Hiff. unfold Terms.resembles.
  rewrite other_record_iff, number_matches_iff, amount_matches_iff. reflexivity.
Qed.

(** The loop over the historical invoices. *)
Lemma check_all_adds (invoice : Invoice) (historical : list Invoice)
    (duplicates : list DuplicateEntry) :
  exists added,
    fold_left (check_historical invoice) historical duplicates = duplicates ++ added
    /\ (added <> [] <-> exists hist, In hist historical /\ Terms.resembles invoice hist)
    /\ Forall (fun e => key_reason e) added.
Proof.
  revert duplicates. induction historical as [| hist historical IH]; intros duplicates.
  - exists []. split; [symmetry; apply app_nil_r |]. split; [| constructor].
    split; [intros H; contradiction H; reflexivity | intros (h & [] & _)].
  - cbn [fold_left].
    destruct (check_historical_adds invoice duplicates hist) as (a1 & -> & Hiff1 & Hall1).
    destruct (IH (duplicates ++ a1)) as (a2 & -> & Hiff2 & Hall2).
    exists (a1 ++ a2). split; [rewrite app_assoc; reflexivity |].
    split; [| apply Forall_app; split; assumption].
    split.
    + intros Hne. destruct a1 as [| e a1].
      * destruct (proj1 Hiff2 Hne) as (h & Hin & Hr).
        exists h. split; [right; exact Hin | exact Hr].
      * exists hist. split; [left; reflexivity |]. apply Hiff1. discriminate.
    + intros (h & [<- | Hin] & Hr).
      * apply Hiff1 in Hr. destruct a1; [contradiction Hr; reflexivity | discriminate].
      * assert (Hne : a2 <> []) by (apply Hiff2; exists h; split; assumption).
        destruct a1; [exact Hne | discriminate].
Qed.

(** The duplicate check by the loop. *)
Lemma check_duplicate_fold (invoice : Invoice) (historical : list Invoice) :
  let dups := fold_left (check_historical invoice) historical [] in
  (is_duplicate (_check_duplicate invoice historical) = true <-> dups <> [])
  /\ duplicate_count (_check_duplicate invoice historical) = length dups
  /\ forall l, potential_duplicates (_check_duplicate invoice historical) = Some l ->
               l = firstn 5 dups.
Proof.
  cbv zeta. unfold _check_duplicate. destruct historical as [| hist historical].
  - cbn. repeat split; try discriminate.
    intros H. contradiction H. reflexivity.
  - cbv beta iota zeta delta [is_duplicate duplicate_count potential_duplicates].
    generalize (fold_left (check_historical invoice) (hist :: historical) []) as dups.
    intros dups. repeat split.
    + intros H Hnil. rewrite Hnil in H. discriminate H.
    + intros H. destruct dups; [contradiction H; reflexivity | reflexivity].
    + intros l H. injection H as <-. reflexivity.
Qed.

(** Equal amounts that are not zero pass the amount test. *)
Lemma equal_amount_resembles (invoice hist : Invoice) :
  _id hist <> _id invoice ->
  Terms.same_number invoice hist \/ Terms.equal_amount invoice hist ->
  Terms.resembles invoice hist.
Proof.
  intros Hid H. split; [exact Hid |].
  destruct H as [H | [Hnz Heq]]; [left; exact H | right].
  split; [rewrite Heq; exact Hnz |]. split; [exact Hnz |].
  assert (E : Qabs (Py.get (total_amount hist) 0 - Py.get (total_amount invoice) 0)
              == 0).
  { rewrite Heq.
    setoid_replace (Py.get (total_amount invoice) 0 - Py.get (total_amount invoice) 0)
      with 0 using relation Qeq by ring.
    reflexivity. }
  rewrite E. unfold Qdiv. rewrite Qmult_0_l. reflexivity.
Qed.

(** X24: a duplicate is reported whenever some historical invoice is
    another record with the number of the invoice, which is not empty, or
    with exactly its amount, which is not zero; and only if some
    historical invoice is another record that has the number of the
    invoice or an amount while the invoice has one.  The same vendor
    alone is no reason: every entry reported names the number or the
    amount. *)
Theorem duplicate_number_or_amount (invoice : Invoice) (historical : list Invoice) :
  (forall hist,
      In hist historical -> _id hist <> _id invoice ->
      Terms.same_number invoice hist \/ Terms.equal_amount invoice hist ->
      is_duplicate (_check_duplicate invoice historical) = true)
  /\ (is_duplicate (_check_duplicate invoice historical) = true ->
      exists hist,
        In hist historical /\ _id hist <> _id invoice
        /\ (Terms.same_number invoice hist \/ Terms.both_amounts invoice hist))
  /\ (forall l e,
        potential_duplicates (_check_duplicate invoice historical) = Some l ->
        In e l ->
        In "same_invoice_number" (match_reasons e) \/ In "same_amount" (match_reasons e)).
Proof.
  destruct (check_duplicate_fold invoice historical) as (Hdup & _ & Hlist).
  cbv zeta in *.
  destruct (check_all_adds invoice historical []) as (added & Heq & Hiff & Hall).
  cbn [app] in Heq. rewrite Heq in *. split; [| split].
  - intros hist Hin Hid H. apply Hdup, Hiff. exists hist. split; [exact Hin |].
    apply equal_amount_resembles; assumption.
  - intros H. apply Hdup, Hiff in H. destruct H as (hist & Hin & Hid & H).
    exists hist. split; [exact Hin |]. split; [exact Hid |].
    destruct H as [H | (Hh & Hi & _)]; [left; exact H | right; split; assumption].
  - intros l e Hl Hin. rewrite (Hlist l Hl) in Hin.
    apply (proj1 (List.Forall_forall _ _) Hall e).
    rewrite <- (firstn_skipn 5 added). apply in_or_app. left. exact Hin.
Qed.

Lemma duplicate_number_or_amount_witness :
  is_duplicate (_check_duplicate MoreExamples.inflated_copy Examples.three_of_hundred)
  = true
  /\ is_duplicate (_check_duplicate (Examples.plain_invoice "n" "INV-D" 100 "v2")
                     Examples.three_of_hundred)
     = true.
Proof.
  split.
  - destruct (duplicate_number_or_amount MoreExamples.inflated_copy
                Examples.three_of_hundred) as [H _].
    apply (H (Examples.plain_invoice "h1" "INV-A" 100 "v1")).
    + left. reflexivity.
    + discriminate.
    + left. split; [reflexivity | discriminate].
  - destruct (duplicate_number_or_amount (Examples.plain_invoice "n" "INV-D" 100 "v2")
                Examples.three_of_hundred) as [H _].
    apply (H (Examples.plain_invoice "h1" "INV-A" 100 "v1")).
    + left. reflexivity.
    + discriminate.
    + right. split; [discriminate | reflexivity].
Defined.

(** X25: records that are identified by [invoice_id] and have no [_id]
    are never duplicates of each other: the check skips every historical
    invoice whose [_id] equals that of the invoice, also when both are
    absent. *)
Theorem no_id_no_duplicate (invoice : Invoice) (historical : list Invoice) :
  _id invoice = None ->
  (forall hist, In hist historical -> _id hist = None) ->
  is_duplicate (_check_duplicate invoice historical) = false
  /\ duplicate_count (_check_duplicate invoice historical) = 0%nat.
Proof.
  intros Hid Hall.
  destruct (check_duplicate_fold invoice historical) as (Hdup & Hcount & _).
  cbv zeta in *.
  destruct (check_all_adds invoice historical []) as (added & Heq & Hiff & _).
  cbn [app] in Heq. rewrite Heq in *.
  assert (Hnil : added = []).
  { destruct added as [| e added]; [reflexivity |].
    destruct (proj1 Hiff ltac:(discriminate)) as (h & Hin & Hne & _).
    contradiction Hne. rewrite Hid. apply Hall. exact Hin. }
  rewrite Hnil in *. split; [| exact Hcount].
  destruct (is_duplicate _); [| reflexivity].
  contradiction (proj1 Hdup eq_refl). reflexivity.
Qed.

Lemma no_id_no_duplicate_witness :
  is_duplicate (_check_duplicate MoreExamples.no_id_invoice [MoreExamples.no_id_copy])
  = false.
Proof.
  destruct (no_id_no_duplicate MoreExamples.no_id_invoice [MoreExamples.no_id_copy])
    as [H _].
  - reflexivity.
  - intros hist [<- | []]. reflexivity.
  - exact H.
Defined.

(** *** The indicators *)

(** A pattern anomaly comes with at least one of its three issues. *)
Lemma patterns_issue (invoice : Invoice) :
  pt_has_anomaly (_analyze_patterns invoice) = true ->
  has_weekend_submission (_analyze_patterns invoice)
  || has_after_hours_submission (_analyze_patterns invoice)
  || unusual_line_items (_analyze_patterns invoice) = true.
Proof.
  unfold _analyze_patterns.
  destruct (match created_at invoice with
            | Some c => ((5 <=? Py.weekday c)%Z,
                         ((Py.hour c <? 6)%Z || (22 <? Py.hour c)%Z))
            | None => (false, false)
            end) as [weekend after_hours].
  cbv beta iota zeta delta
    [pt_has_anomaly has_weekend_submission has_after_hours_submission
     unusual_line_items].
  generalize (match items invoice with
              | [] => false
              | i :: its =>
                  Nat.eqb (length (List.filter is_generic (i :: its)))
                    (length (i :: its))
                  && Nat.ltb 0 (length (i :: its))
              end) as unusual.
  intros unusual. destruct weekend, after_hours, unusual; cbn; congruence.
Qed.

(** The types of the compiled indicators: one for each check that fired,
    in a fixed order. *)
Lemma compiled_types (c : Checks) :
  (pt_has_anomaly (pattern_analysis c) = true ->
   has_weekend_submission (pattern_analysis c)
   || has_after_hours_submission (pattern_analysis c)
   || unusual_line_items (pattern_analysis c) = true) ->
  map ind_type (_compile_fraud_indicators c)
  = List.filter (Terms.fired c) Terms.indicator_types.
Proof.
  unfold _compile_fraud_indicators, Terms.indicator_types, Terms.fired.
  cbn [List.filter].
  destruct (is_duplicate (duplicate_check c)), (pa_has_anomaly (price_analysis c)),
    (va_is_new_vendor (vendor_analysis c)), (is_rush (rush_payment_check c)),
    (is_suspicious (round_amount_check c));
    destruct (pt_has_anomaly (pattern_analysis c));
    intros H; try reflexivity; specialize (H eq_refl); revert H;
    destruct (has_weekend_submission (pattern_analysis c)),
      (has_after_hours_submission (pattern_analysis c)),
      (unusual_line_items (pattern_analysis c));
    intros H; try discriminate H; reflexivity.
Qed.

(** The same for one analysis, from any reading of the clock on. *)
Lemma indicator_types_at (np_std : list Q -> Q) (invoice : Invoice)
    (historical : list Invoice) (vendor : option Vendor) (clk : Py.Clock) (k : nat) :
  map ind_type
    (fraud_indicators (fst (analyze_invoice np_std invoice historical vendor clk k)))
  = List.filter
      (Terms.fired (checks (fst (analyze_invoice np_std invoice historical vendor clk k))))
      Terms.indicator_types.
Proof.
  destruct (RiskProperties.analysis_at np_std invoice historical vendor clk k)
    as (Hchecks & _ & _ & ->).
  apply compiled_types. rewrite Hchecks. cbn [pattern_analysis].
  apply patterns_issue.
Qed.

(** X26: the fraud indicators of an analysed invoice are one for each
    check that fired, in the order duplicate, price, new vendor, rush
    payment, round amount, pattern; none is listed without its check and
    none is missing. *)
Theorem indicators_follow_checks (np_std : list Q -> Q) (invoice : Invoice)
    (historical : list Invoice) (vendor : option Vendor) (clk : Py.Clock) :
  map ind_type
    (fraud_indicators (Spec.risk_verdict np_std invoice historical vendor clk))
  = List.filter
      (Terms.fired (checks (Spec.risk_verdict np_std invoice historical vendor clk)))
      Terms.indicator_types.
Proof.
  unfold Spec.risk_verdict, Py.run. apply indicator_types_at.
Qed.

(** X27: the tier never falls when the score rises. *)
Theorem risk_level_monotone (score1 score2 : Q) :
  score1 <= score2 ->
  (Terms.rank (_determine_risk_level score1)
   <= Terms.rank (_determine_risk_level score2))%nat.
Proof.
  intros H. unfold _determine_risk_level.
  PyFacts.cases_leb 0.7 score1; PyFacts.cases_leb 0.5 score1;
    PyFacts.cases_leb 0.3 score1; PyFacts.cases_leb 0.1 score1;
    PyFacts.cases_leb 0.7 score2; PyFacts.cases_leb 0.5 score2;
    PyFacts.cases_leb 0.3 score2; PyFacts.cases_leb 0.1 score2;
    cbn [Terms.rank]; try lia; lra.
Qed.

Lemma risk_level_monotone_witness :
  (Terms.rank (_determine_risk_level 0.2975)
   <= Terms.rank (_determine_risk_level 0.5225))%nat.
Proof.
  apply (risk_level_monotone 0.2975 0.5225). discriminate.
Defined.

End ChecksProperties.

(** ** [batch_analyze] and [get_statistics] *)

Module BatchProperties.

Import FraudDetection.
Import Batch.
Local Open Scope string_scope.
Local Open Scope list_scope.
Local Open Scope Q_scope.

Lemma filter_map_comm {A B : Type} (p : B -> bool) (f : A -> B) (l : list A) :
  List.filter p (map f l) = map f (List.filter (fun x => p (f x)) l).
Proof.
  induction l as [| a l IH]; [reflexivity |].
  cbn [map List.filter]. destruct (p (f a)); cbn [map]; rewrite IH; reflexivity.
Qed.

Section Service.

Variable np_std : list Q -> Q.

(** The loop of the batch: the entries added are those of the analyses
    of the invoices, each at some reading of the clock, in their order;
    the high-risk entries are those of the analyses rated high or
    critical. *)
Lemma batch_loop_entries (invoices historical : list Invoice)
    (analyzed0 : list AnalyzedEntry) (high_risk0 : list HighRiskEntry)
    (clk : Py.Clock) (k : nat) :
  exists analyses,
    length analyses = length invoices
    /\ fst (fst (batch_loop np_std invoices historical analyzed0 high_risk0 clk k))
       = analyzed0
         ++ map (fun a => {| ae_invoice_id := an_invoice_id a;
                             ae_risk_level := risk_level a;
                             ae_anomaly_score := anomaly_score a |}) analyses
    /\ snd (fst (batch_loop np_std invoices historical analyzed0 high_risk0 clk k))
       = high_risk0
         ++ map (fun a => {| hr_invoice_id := an_invoice_id a;
                             hr_risk_level := risk_level a;
                             hr_indicators := fraud_indicators a |})
              (List.filter (fun a => is_high (risk_level a)) analyses)
    /\ Forall (fun a => exists invoice j,
                          In invoice invoices
                          /\ a = fst (analyze_invoice np_std invoice historical None
                                        clk j))
         analyses.
Proof.
  revert analyzed0 high_risk0 k.
  induction invoices as [| invoice invoices IH]; intros analyzed0 high_risk0 k.
  - exists []. cbn. rewrite !app_nil_r. repeat split. constructor.
  - cbn [batch_loop]. unfold Py.bind.
    destruct (analyze_invoice np_std invoice historical None clk k) as [a k'] eqn:Ha.
    assert (Hfst : a = fst (analyze_invoice np_std invoice historical None clk k))
      by (rewrite Ha; reflexivity).
    cbv beta iota zeta.
    match goal with
    | |- context [batch_loop np_std invoices historical ?an ?hi clk k'] =>
        destruct (IH an hi k') as (analyses & Hlen & Han & Hhi & Hall)
    end.
    exists (a :: analyses). split; [cbn [length]; rewrite Hlen; reflexivity |].
    split; [rewrite Han, <- app_assoc; reflexivity |].
    split.
    + rewrite Hhi. cbn [List.filter].
      destruct (is_high (risk_level a)); [rewrite <- app_assoc |]; reflexivity.
    + constructor.
      * exists invoice, k. split; [left; reflexivity | exact Hfst].
      * apply (List.Forall_impl _ (P := fun a => exists invoice0 j,
                   In invoice0 invoices
                   /\ a = fst (analyze_invoice np_std invoice0 historical None clk j)));
          [| exact Hall].
        intros a0 (i & j & Hin & Heq). exists i, j. split; [right; exact Hin | exact Heq].
Qed.

(** The result of a batch by the analyses. *)
Lemma batch_analyze_entries (invoices historical : list Invoice) (clk : Py.Clock)
    (k : nat) :
  exists analyses,
    length analyses = length invoices
    /\ total_invoices (fst (batch_analyze np_std invoices historical clk k))
       = length invoices
    /\ analyzed (fst (batch_analyze np_std invoices historical clk k))
       = map (fun a => {| ae_invoice_id := an_invoice_id a;
                          ae_risk_level := risk_level a;
                          ae_anomaly_score := anomaly_score a |}) analyses
    /\ high_risk (fst (batch_analyze np_std invoices historical clk k))
       = map (fun a => {| hr_invoice_id := an_invoice_id a;
                          hr_risk_level := risk_level a;
                          hr_indicators := fraud_indicators a |})
           (List.filter (fun a => is_high (risk_level a)) analyses)
    /\ Forall (fun a => exists invoice j,
                          In invoice invoices
                          /\ a = fst (analyze_invoice np_std invoice historical None
                                        clk j))
         analyses.
Proof.
  destruct (batch_loop_entries invoices historical [] [] clk (S k))
    as (analyses & Hlen & Han & Hhi & Hall).
  exists analyses. unfold batch_analyze, Py.bind, Py.now, Py.ret.
  destruct (batch_loop np_std invoices historical [] [] clk (S k)) as [lists k'].
  cbn [fst snd total_invoices analyzed high_risk] in *.
  repeat split; assumption.
Qed.

End Service.

(** X28: a batch lists as high risk exactly the analysed entries that are
    rated high or critical, in their order; every high-risk entry shows
    a duplicate indicator and, the batch having no vendor data, none shows
    a new vendor. *)
Theorem batch_high_risk (np_std : list Q -> Q) (invoices historical : list Invoice)
    (clk : Py.Clock) :
  map (fun e => (hr_invoice_id e, hr_risk_level e))
    (high_risk (Py.run (batch_analyze np_std invoices historical) clk))
  = map (fun e => (ae_invoice_id e, ae_risk_level e))
      (List.filter (fun e => is_high (ae_risk_level e))
         (analyzed (Py.run (batch_analyze np_std invoices historical) clk)))
  /\ Forall (fun e => is_high (hr_risk_level e) = true
                      /\ In DUPLICATE_INVOICE (map ind_type (hr_indicators e))
                      /\ ~ In NEW_VENDOR (map ind_type (hr_indicators e)))
       (high_risk (Py.run (batch_analyze np_std invoices historical) clk)).
Proof.
  unfold Py.run.
  destruct (batch_analyze_entries np_std invoices historical clk 0)
    as (analyses & _ & _ & -> & -> & Hall).
  split.
  - rewrite filter_map_comm, !map_map. reflexivity.
  - apply List.Forall_forall. intros e He. apply in_map_iff in He.
    destruct He as (a & <- & Ha). apply List.filter_In in Ha. destruct Ha as [Hin Hhigh].
    destruct (proj1 (List.Forall_forall _ _) Hall a Hin) as (invoice & j & _ & ->).
    cbn [hr_indicators hr_risk_level]. split; [exact Hhigh |].
    rewrite ChecksProperties.indicator_types_at.
    destruct (RiskProperties.analysis_at np_std invoice historical None clk j)
      as (Hchecks & _).
    pose proof (RiskProperties.high_at np_std invoice historical None clk j Hhigh) as Hdup.
    split.
    + apply List.filter_In. split; [left; reflexivity |].
      cbn [Terms.fired]. rewrite Hchecks. exact Hdup.
    + intros Hnew. apply List.filter_In in Hnew. destruct Hnew as [_ Hnew].
      cbn [Terms.fired] in Hnew. rewrite Hchecks in Hnew. discriminate Hnew.
Qed.

(** The counts of tiers never seen stay absent. *)
Lemma risk_counts_absent (key : string) (entries : list AnalyzedEntry)
    (counts : gmap string nat) :
  Forall (fun e => risk_name (ae_risk_level e) <> key) entries ->
  fold_left (fun counts inv => increment (risk_name (ae_risk_level inv)) counts)
    entries counts !! key
  = counts !! key.
Proof.
  revert counts. induction entries as [| e entries IH]; intros counts Hall;
    [reflexivity |].
  inversion Hall as [| ? ? He Hrest]; subst. cbn [fold_left].
  rewrite (IH _ Hrest). unfold increment. apply lookup_insert_ne. exact He.
Qed.


End BatchProperties.
